(** * autosub/ffmpeg_utils.py: a shallow embedding and its properties

    The module drives external media tools (ffmpeg, ffprobe) and manages the
    temporary files that flow between them.  It is embedded here as
    functions in a state-and-exception monad over an explicit [world]: the
    regular files of the file system, the search path, the supply of
    temporary names, the lines an interactive prompt will read, a pending
    interrupt, and a log of what the module did.

    What the module cannot decide by itself is a field of the [Host] class:
    the behaviour of external processes, Python's [str.format], [float(str)],
    [str(float)] and the UTF-8 decoder, the value of [os.name], the language
    version, and the constant [constants.DEFAULT_AUDIO_PRCS], which lives in
    another module.  Path manipulation follows [posixpath].  Text is a
    sequence of 8-bit characters and a digit is one of '0'..'9'. *)

From Stdlib Require Import ZArith String Ascii List Lia Bool DecimalString.
From Stdlib Require Import Floats.PrimFloat Floats.SpecFloat Floats.FloatOps
  Floats.FloatAxioms.
From stdpp Require Import gmap strings list fin_maps.

Set Default Proof Using "Type*".

(* ===================================================================== *)
(** ** Exceptions and the monad *)
(* ===================================================================== *)

(** The exception classes that the module raises or meets.  A subclass is
    folded into the class a handler of the module would see:
    [FileNotFoundError] and [FileExistsError] into [OSError],
    [UnicodeDecodeError] into [ValueError]. *)
Inductive exn : Set :=
| CalledProcessError
| OSError
| ValueError
| TypeError
| IndexError
| KeyError
| ZeroDivisionError
| OverflowError
| EOFError
| KeyboardInterrupt.

Definition exn_eqb (a b : exn) : bool :=
  match a, b with
  | CalledProcessError, CalledProcessError
  | OSError, OSError
  | ValueError, ValueError
  | TypeError, TypeError
  | IndexError, IndexError
  | KeyError, KeyError
  | ZeroDivisionError, ZeroDivisionError
  | OverflowError, OverflowError
  | EOFError, EOFError
  | KeyboardInterrupt, KeyboardInterrupt => true
  | _, _ => false
  end.

Inductive result (A : Type) : Type :=
| Ok (a : A)
| Raise (e : exn).
Arguments Ok {A} a.
Arguments Raise {A} e.

(* ===================================================================== *)
(** ** Python strings *)
(* ===================================================================== *)

Module PyStr.

Definition is_digit (c : ascii) : bool :=
  let n := nat_of_ascii c in (48 <=? n) && (n <=? 57).

(** [s[:n]] and [s[n:]] for [n >= 0]. *)
Fixpoint take (n : nat) (s : string) : string :=
  match n, s with
  | S k, String c r => String c (take k r)
  | _, _ => EmptyString
  end.

Fixpoint drop (n : nat) (s : string) : string :=
  match n, s with
  | S k, String _ r => drop k r
  | _, _ => s
  end.

(** [s.rfind(c)]: the last index of [c], or -1. *)
Fixpoint rfind_from (c : ascii) (s : string) (i : Z) : Z :=
  match s with
  | EmptyString => (-1)%Z
  | String a r =>
      let later := rfind_from c r (i + 1)%Z in
      if (0 <=? later)%Z then later
      else if Ascii.eqb a c then i else (-1)%Z
  end.

Definition rfind (c : ascii) (s : string) : Z := rfind_from c s 0%Z.

Definition startswith (p s : string) : bool := String.prefix p s.

(** [c in s]. *)
Fixpoint contains (c : ascii) (s : string) : bool :=
match s with
| EmptyString => false
| String a r => Ascii.eqb a c || contains c r
end.

(** [c * n]. *)
Fixpoint repeat_char (c : ascii) (n : nat) : string :=
  match n with
  | O => EmptyString
  | S k => String c (repeat_char c k)
  end.

Fixpoint endswith_char (c : ascii) (s : string) : bool :=
  match s with
  | EmptyString => false
  | String a EmptyString => Ascii.eqb a c
  | String _ r => endswith_char c r
  end.

(** [s.replace(old, new)] for a non-empty [old]: occurrences are replaced
    from left to right and do not overlap; [skip] counts the characters
    of a matched occurrence still to be passed over. *)
Fixpoint replace_from (old new : string) (skip : nat) (s : string) : string :=
  match s with
  | EmptyString => EmptyString
  | String c r =>
      match skip with
      | S k => replace_from old new k r
      | O =>
          if String.prefix old s
          then new +:+ replace_from old new (String.length old - 1) r
          else String c (replace_from old new 0 r)
      end
  end.

Definition replace (old new s : string) : string := replace_from old new 0 s.

(** [s.lstrip(c)], [s.rstrip(c)] and [s.strip(c)] for a one-character
    set. *)
Fixpoint lstrip (c : ascii) (s : string) : string :=
  match s with
  | String a r => if Ascii.eqb a c then lstrip c r else s
  | EmptyString => EmptyString
  end.

Fixpoint rstrip (c : ascii) (s : string) : string :=
  match s with
  | EmptyString => EmptyString
  | String a r =>
      match rstrip c r with
      | EmptyString => if Ascii.eqb a c then EmptyString else String a EmptyString
      | r' => String a r'
      end
  end.

Definition strip (c : ascii) (s : string) : string := rstrip c (lstrip c s).

(** [s.split(c)] for a one-character separator: never the empty list. *)
Fixpoint split (c : ascii) (s : string) : list string :=
  match s with
  | EmptyString => [EmptyString]
  | String a r =>
      if Ascii.eqb a c then EmptyString :: split c r
      else match split c r with
           | w :: ws => String a w :: ws
           | [] => [String a EmptyString]
           end
  end.

(** [re.findall(r'\d+', s)]: the maximal runs of digits, left to right.
    [run] is the run being read, most recent digit first. *)
Fixpoint findall_digits_from (run : list ascii) (s : string) : list string :=
  let flush := match run with
               | [] => []
               | _ => [string_of_list_ascii (rev run)]
               end in
  match s with
  | EmptyString => flush
  | String c r =>
      if is_digit c then findall_digits_from (c :: run) r
      else flush ++ findall_digits_from [] r
  end.

Definition findall_digits (s : string) : list string :=
  findall_digits_from [] s.

(** [int(s)] on a string of digits, of any length (Python 3.11 and later
    refuse more than 4300 digits unless told otherwise). *)
Fixpoint int_from (acc : Z) (s : string) : Z :=
  match s with
  | EmptyString => acc
  | String c r => int_from (10 * acc + (Z.of_nat (nat_of_ascii c) - 48))%Z r
  end.

Definition int (s : string) : Z := int_from 0%Z s.

(** [str(n)] for a non-negative [int]: its decimal digits. *)
Definition str_nat (n : nat) : string :=
  NilEmpty.string_of_uint (Nat.to_uint n).

(** [str(z)] for an [int]. *)
Definition str_int (z : Z) : string :=
  NilEmpty.string_of_int (Z.to_int z).

End PyStr.

(* ===================================================================== *)
(** ** Python floats: IEEE binary64 *)
(* ===================================================================== *)

Module PyFloat.

(** [float(n)] for an [int]: round to nearest, ties to even;
    [OverflowError] when the result is not finite. *)
Definition of_int (z : Z) : result float :=
  match binary_normalize prec emax z 0 false with
  | S754_infinity _ => Raise OverflowError
  | sf => Ok (SF2Prim sf)
  end.

(** [a / b] on floats: [ZeroDivisionError] on a zero divisor. *)
Definition truediv (a b : float) : result float :=
  if PrimFloat.eqb b 0%float then Raise ZeroDivisionError
  else Ok (PrimFloat.div a b).

(** [max(a, b)]: the first argument unless the second is greater. *)
Definition max (a b : float) : float :=
  if PrimFloat.ltb a b then b else a.

End PyFloat.

(* ===================================================================== *)
(** ** The world outside the interpreter *)
(* ===================================================================== *)

(** A regular file: its bytes and whether the caller may execute it.
    Paths that are absent from the map are not regular files. *)
Record file : Type := File { content : string; x_ok : bool }.

(** The first argument of [subprocess.check_output]: a list or a [str]. *)
Inductive cmdline : Type :=
| Argv (args : list string)
| CmdString (cmd : string).

(** What running an external command does: it cannot be started, or it
    exits with a status, its standard output and the files it left. *)
Inductive proc_outcome : Type :=
| NotStarted
| Exited (status : Z) (stdout : string) (files : gmap string file).

(** What the module did, in order.  [EvExec] keeps the files as the command
    found them when it was started. *)
Inductive event : Type :=
| EvTemp (path : string)
| EvRemove (path : string)
| EvExec (c : cmdline) (shell : bool) (seen : gmap string file)
| EvPrint (msg : string)
| EvInput (prompt : string).

(** [objects] holds the file objects that are open, each under the path
    it was created at, with the bytes that reading it from the start
    returns: a file object stays with the file it was opened on, also
    when another file is put at its path. *)
Record world : Type := World {
  fs : gmap string file;
  environ_PATH : option string;
  tmp_candidates : list string;
  stdin_lines : list string;
  sigint : option nat;
  log : list event;
  objects : gmap string string
}.

Definition set_fs (f : gmap string file) (w : world) : world :=
  World f (environ_PATH w) (tmp_candidates w) (stdin_lines w) (sigint w) (log w)
        (objects w).
Definition set_tmp_candidates (c : list string) (w : world) : world :=
  World (fs w) (environ_PATH w) c (stdin_lines w) (sigint w) (log w) (objects w).
Definition set_stdin_lines (l : list string) (w : world) : world :=
  World (fs w) (environ_PATH w) (tmp_candidates w) l (sigint w) (log w)
        (objects w).
Definition set_sigint (s : option nat) (w : world) : world :=
  World (fs w) (environ_PATH w) (tmp_candidates w) (stdin_lines w) s (log w)
        (objects w).
Definition set_objects (o : gmap string string) (w : world) : world :=
  World (fs w) (environ_PATH w) (tmp_candidates w) (stdin_lines w) (sigint w)
        (log w) o.
Definition emit (ev : event) (w : world) : world :=
  World (fs w) (environ_PATH w) (tmp_candidates w) (stdin_lines w) (sigint w)
        (log w ++ [ev]) (objects w).

(** A computation: it returns or raises, and leaves a world either way. *)
Definition M (A : Type) : Type := world -> result A * world.

Definition ret {A} (a : A) : M A := fun w => (Ok a, w).
Definition raise {A} (e : exn) : M A := fun w => (Raise e, w).
Definition bind {A B} (m : M A) (k : A -> M B) : M B :=
  fun w => match m w with
           | (Ok a, w') => k a w'
           | (Raise e, w') => (Raise e, w')
           end.
Definition lift {A} (r : result A) : M A := fun w => (r, w).

(** [try: m  except <classes accepted by handles>: h]. *)
Definition try_except {A} (m : M A) (handles : exn -> bool) (h : M A) : M A :=
  fun w => match m w with
           | (Raise e, w') => if handles e then h w' else (Raise e, w')
           | ok => ok
           end.

Declare Scope py_scope.
Delimit Scope py_scope with py.
Notation "x <- m ;; k" := (bind m (fun x => k))
  (at level 100, m at level 99, k at level 200, right associativity) : py_scope.
Notation "m ;;; k" := (bind m (fun _ => k))
  (at level 100, k at level 200, right associativity) : py_scope.

(** The parts of the run-time system and of the platform that the module
    consults and that are given from outside. *)
Class Host : Type := {
  (** Python 3 ([true]) or Python 2 ([false]): [map] returns an iterator
      in the former and a list in the latter. *)
  py3 : bool;
  os_name : string;
  run_process : cmdline -> bool -> gmap string file -> proc_outcome;
  (** [reads_after c shell seen p old]: the bytes that a file object which
      was open on the file at [p] when the command [c] was started
      returns, read from the start, once the command has exited; [old] is
      what it returned before.  For a command that writes the file in
      place they are the bytes now at [p]; for one that puts another file
      at [p], or takes the file away, they are those of the file that
      was there. *)
  reads_after : cmdline -> bool -> gmap string file -> string -> string -> string;
  (** [template.format(in_=a, out_=b)]. *)
  str_format : string -> string -> string -> result string;
  (** [bytes.decode('utf-8')]; [None] is [UnicodeDecodeError]. *)
  utf8_decode : string -> option string;
  (** [float(s)] on a [str]; [None] is [ValueError]. *)
  float_of_str : string -> option float;
  str_of_float : float -> string;
  (** [constants.DEFAULT_AUDIO_PRCS], defined outside this module. *)
  DEFAULT_AUDIO_PRCS : list string
}.

(* ===================================================================== *)
(** ** Primitive operations *)
(* ===================================================================== *)

Section Primitives.
Context `{Host}.
Local Open Scope py_scope.

Definition print (msg : string) : M unit :=
  fun w => (Ok tt, emit (EvPrint msg) w).

(** The interactive-input capability when it is present: it shows the
    prompt and returns the next line, [EOFError] when there is none. *)
Definition input (prompt : string) : M string :=
  fun w => match stdin_lines w with
           | [] => (Raise EOFError, emit (EvInput prompt) w)
           | l :: rest => (Ok l, emit (EvInput prompt) (set_stdin_lines rest w))
           end.

Definition os_path_isfile (p : string) : M bool :=
  fun w => (Ok (bool_decide (is_Some (fs w !! p))), w).

(** [os.access(p, os.X_OK)]. *)
Definition os_access_X_OK (p : string) : M bool :=
  fun w => (Ok (match fs w !! p with Some f => x_ok f | None => false end), w).

(** [os.remove(p)], also [os.unlink(p)]. *)
Definition os_remove (p : string) : M unit :=
  fun w => match fs w !! p with
           | Some _ => (Ok tt, emit (EvRemove p) (set_fs (delete p (fs w)) w))
           | None => (Raise OSError, w)
           end.

(** [tempfile.NamedTemporaryFile(suffix=suffix, delete=False)]: candidate
    names are tried in turn until one is free; the file is created empty
    and the object that is returned is open on it.  The computation
    returns the name [.name], by which the object is known from then
    on. *)
Fixpoint first_free (suffix : string) (cands : list string)
         (files : gmap string file) : option (string * list string) :=
  match cands with
  | [] => None
  | c :: rest =>
      match files !! (c +:+ suffix) with
      | Some _ => first_free suffix rest files
      | None => Some (c +:+ suffix, rest)
      end
  end.

Definition NamedTemporaryFile (suffix : string) : M string :=
  fun w => match first_free suffix (tmp_candidates w) (fs w) with
           | None => (Raise OSError, set_tmp_candidates [] w)
           | Some (p, rest) =>
               (Ok p, emit (EvTemp p)
                        (set_objects (<[p := EmptyString]> (objects w))
                           (set_fs (<[p := File EmptyString false]> (fs w))
                              (set_tmp_candidates rest w))))
           end.

(** [temp.read()] on the object that [NamedTemporaryFile] returned under
    the name [p]: the bytes of the file that the object is open on, which
    need not be the file now at [p]; a closed object raises
    [ValueError]. *)
Definition temp_read (p : string) : M string :=
  fun w => match objects w !! p with
           | Some bytes => (Ok bytes, w)
           | None => (Raise ValueError, w)
           end.

(** [temp.close()]: the object is open no longer; the file stays. *)
Definition temp_close (p : string) : M unit :=
  fun w => (Ok tt, set_objects (delete p (objects w)) w).

(** What the open file objects hold once a command has exited. *)
Definition kept_open (c : cmdline) (shell : bool) (seen : gmap string file)
           (held : gmap string string) : gmap string string :=
  map_imap (fun p old => Some (reads_after c shell seen p old)) held.

(** [subprocess.check_output(c, stdin=open(os.devnull), shell=shell)]. *)
Definition check_output (c : cmdline) (shell : bool) : M string :=
  fun w =>
    let w1 := emit (EvExec c shell (fs w)) w in
    match run_process c shell (fs w) with
    | NotStarted => (Raise OSError, w1)
    | Exited status out files =>
        let w2 := set_objects (kept_open c shell (fs w) (objects w))
                              (set_fs files w1) in
        if (status =? 0)%Z then (Ok out, w2)
        else (Raise CalledProcessError, w2)
    end.

(** A point at which a pending interrupt is delivered: [sigint w] counts
    the points that are still passed before it arrives. *)
Definition checkpoint : M unit :=
  fun w => match sigint w with
           | Some O => (Raise KeyboardInterrupt, set_sigint None w)
           | Some (S k) => (Ok tt, set_sigint (Some k) w)
           | None => (Ok tt, w)
           end.

(** The counter after [n] more delivery points have been passed. *)
Definition after_checkpoints (n : nat) (pending : option nat) : option nat :=
  option_map (fun k => k - n) pending.

(** ** [posixpath] *)

(** [os.path.split(p)]. *)
Definition os_path_split (p : string) : string * string :=
  let i := Z.to_nat (PyStr.rfind "/" p + 1) in
  let head := PyStr.take i p in
  let tail := PyStr.drop i p in
  let head :=
    if negb (String.eqb head EmptyString)
       && negb (String.eqb head (PyStr.repeat_char "/" (String.length head)))
    then PyStr.rstrip "/" head else head in
  (head, tail).

(** [os.path.splitext(p)]: the extension starts at the last dot of the
    last component, unless that component has only dots before it. *)
Definition os_path_splitext (p : string) : string * string :=
  let sepIndex := PyStr.rfind "/" p in
  let dotIndex := PyStr.rfind "." p in
  if (sepIndex <? dotIndex)%Z then
    let filenameIndex := Z.to_nat (sepIndex + 1) in
    let before := PyStr.take (Z.to_nat dotIndex - filenameIndex)
                             (PyStr.drop filenameIndex p) in
    if String.eqb before (PyStr.repeat_char "." (String.length before))
    then (p, EmptyString)
    else (PyStr.take (Z.to_nat dotIndex) p, PyStr.drop (Z.to_nat dotIndex) p)
  else (p, EmptyString).

(** [os.path.join(a, b)]. *)
Definition os_path_join (a b : string) : string :=
  if PyStr.startswith "/" b then b
  else if String.eqb a EmptyString || PyStr.endswith_char "/" a then a +:+ b
  else a +:+ "/" +:+ b.

End Primitives.

(** The double quote and the line feed, for the literals of the module. *)
Definition dq : string := String (ascii_of_nat 34) EmptyString.
Definition nl : string := String (ascii_of_nat 10) EmptyString.

(* ===================================================================== *)
(** ** class SplitIntoFLACPiece *)
(* ===================================================================== *)

Module SplitIntoFLACPiece.

Record t : Type := Make {
  source_path : string;
  include_before : float;
  include_after : float;
  ffmpeg_cmd : string
}.

(** [__init__]: an omitted keyword argument takes its default. *)
Definition init (source_path : string) (ffmpeg_cmd : option string)
           (include_before include_after : option float) : t :=
  {| source_path := source_path;
     include_before := default 0.25%float include_before;
     include_after := default 0.25%float include_after;
     ffmpeg_cmd := default "ffmpeg"%string ffmpeg_cmd |}.

Section Call.
Context `{Host}.
Local Open Scope py_scope.

(** The [start] and [end] of lines 40-43. *)
Definition padded_start (self : t) (start_ms : float) : float :=
  PyFloat.max 0%float (PrimFloat.sub (PrimFloat.div start_ms 1000%float)
                                     (include_before self)).

Definition padded_end (self : t) (end_ms : float) : float :=
  PrimFloat.add (PrimFloat.div end_ms 1000%float) (include_after self).

Definition command (self : t) (start end_ : float) (temp_name : string)
  : list string :=
  [ffmpeg_cmd self; "-ss"; str_of_float start;
   "-t"; str_of_float (PrimFloat.sub end_ start);
   "-y"; "-i"; source_path self; "-c"; "copy";
   "-loglevel"; "error"; temp_name]%string.

(** The body of the [try] statement of [__call__]. *)
Definition call_body (self : t) (region : Z * Z) : M string :=
  let '(start_ms, end_ms) := region in
  checkpoint ;;;
  start_ms <- lift (PyFloat.of_int start_ms) ;;
  end_ms <- lift (PyFloat.of_int end_ms) ;;
  let start := padded_start self start_ms in
  let end_ := padded_end self end_ms in
  checkpoint ;;;
  temp <- NamedTemporaryFile ".flac" ;;
  let command := command self start end_ temp in
  let use_shell := String.eqb os_name "nt" in
  checkpoint ;;;
  _ <- check_output (Argv command) use_shell ;;
  checkpoint ;;;
  read_data <- temp_read temp ;;
  temp_close temp ;;;
  checkpoint ;;;
  os_remove temp ;;;
  checkpoint ;;;
  ret read_data.

(** [__call__]: [None] is the absent result. *)
Definition call (self : t) (region : Z * Z) : M (option string) :=
  try_except
    (read_data <- call_body self region ;; ret (Some read_data))
    (fun e => exn_eqb e KeyboardInterrupt)
    (ret None).

End Call.

End SplitIntoFLACPiece.

(* ===================================================================== *)
(** ** The functions of the module *)
(* ===================================================================== *)

(** The value of [map(int, ...)]: a list, or an iterator over the items it
    has not produced yet. *)
Inductive pyseq : Type :=
| PyList (items : list Z)
| PyMapObject (pending : list Z).

Section Functions.
Context `{Host}.
Local Open Scope py_scope.
Local Open Scope string_scope.

Definition py_map_int (l : list string) : pyseq :=
  if py3 then PyMapObject (map PyStr.int l) else PyList (map PyStr.int l).

(** [list(s)]: the items, and [s] afterwards; an iterator is used up. *)
Definition py_list (s : pyseq) : list Z * pyseq :=
  match s with
  | PyList l => (l, s)
  | PyMapObject l => (l, PyMapObject [])
  end.

(** [s[i]]: an iterator cannot be subscripted. *)
Definition py_getitem (s : pyseq) (i : nat) : result Z :=
  match s with
  | PyList l => match l !! i with Some z => Ok z | None => Raise IndexError end
  | PyMapObject _ => Raise TypeError
  end.

Definition getitem (l : list string) (i : nat) : M string :=
  match l !! i with Some x => ret x | None => raise IndexError end.

(** *** ffprobe_get_fps *)

Definition ffprobe_command (video_file : string) : list string :=
  ["ffprobe"; "-v"; "0"; "-of"; "csv=p=0";
   "-select_streams"; "v:0"; "-show_entries";
   "stream=r_frame_rate"; video_file].

Definition fps_unavailable_msg : string :=
  "ffprobe(ffmpeg) can't get video fps." +:+ nl +:+
  "It is necessary when output is " +:+ dq +:+ ".sub" +:+ dq +:+ ".".

Definition fps_prompt : string :=
  "Input your video fps. Any illegal input will regard as "
  +:+ dq +:+ ".srt" +:+ dq +:+ " instead." +:+ nl.

Definition use_srt_msg : string :=
  "Use " +:+ dq +:+ ".srt" +:+ dq +:+ " instead.".

(** Lines 67-76, the body of the outer [try]. *)
Definition ffprobe_probe (video_file : string) : M float :=
  let command := ffprobe_command video_file in
  let use_shell := String.eqb os_name "nt" in
  input_str <- check_output (Argv command) use_shell ;;
  text <- lift (match utf8_decode input_str with
                | Some t => Ok t
                | None => Raise ValueError
                end) ;;
  let num_list := py_map_int (PyStr.findall_digits text) in
  let '(items, num_list) := py_list num_list in
  if Nat.eqb (length items) 2 then
    a <- lift (py_getitem num_list 0) ;;
    a <- lift (PyFloat.of_int a) ;;
    b <- lift (py_getitem num_list 1) ;;
    b <- lift (PyFloat.of_int b) ;;
    lift (PyFloat.truediv a b)
  else raise ValueError.

(** Lines 84-90: the entry is taken when it parses to a float that is
    not [<= 0.0]. *)
Definition manual_fps (input_str : string) : M float :=
  try_except
    (fps <- lift (match float_of_str input_str with
                  | Some f => Ok f
                  | None => Raise ValueError
                  end) ;;
     if PrimFloat.leb fps 0%float then raise ValueError else ret fps)
    (fun e => exn_eqb e ValueError)
    (print use_srt_msg ;;; ret 0%float).

(** [input_m] is the truth value of the capability; when it is true the
    capability is [input]. *)
Definition ffprobe_get_fps (video_file : string) (input_m : bool) : M float :=
  try_except
    (ffprobe_probe video_file)
    (fun e => exn_eqb e CalledProcessError || exn_eqb e ValueError)
    (print fps_unavailable_msg ;;;
     if input_m then
       input_str <- input fps_prompt ;;
       manual_fps input_str
     else ret 0%float).

(** *** which_exe and check_cmd *)

Definition is_exe (file_path : string) : M bool :=
  isfile <- os_path_isfile file_path ;;
  if isfile then os_access_X_OK file_path else ret false.

(** [os.environ["PATH"]]. *)
Definition environ_get_PATH : M string :=
  fun w => match environ_PATH w with
           | Some s => (Ok s, w)
           | None => (Raise KeyError, w)
           end.

(** The [for] loop of lines 112-116. *)
Fixpoint which_exe_scan (program_name : string) (paths : list string)
  : M (option string) :=
  match paths with
  | [] => ret None
  | path :: rest =>
      let path := PyStr.strip (ascii_of_nat 34) path in
      let exe_file := os_path_join path program_name in
      found <- is_exe exe_file ;;
      if found then ret (Some exe_file)
      else which_exe_scan program_name rest
  end.

Definition which_exe (program_name : string) : M (option string) :=
  let '(fpath, _) := os_path_split program_name in
  if negb (String.eqb fpath EmptyString) then
    found <- is_exe program_name ;;
    if found then ret (Some program_name) else ret None
  else
    PATH <- environ_get_PATH ;;
    which_exe_scan program_name (PyStr.split ":" PATH).

(** The truth value of what [which_exe] returns: [None] and the empty
    string are false. *)
Definition truthy (r : option string) : bool :=
  match r with
  | Some s => negb (String.eqb s EmptyString)
  | None => false
  end.

Definition check_cmd (program_name : string) : M (option string) :=
  r <- which_exe program_name ;;
  if truthy r then ret (Some program_name)
  else
    r <- which_exe (program_name +:+ ".exe") ;;
    if truthy r then ret (Some (program_name +:+ ".exe"))
    else ret None.

(** *** source_to_audio *)

(** The command of lines 142-144. *)
Definition source_to_audio_command (filename ffmpeg_cmd : string)
           (channels rate : Z) (ffmpeg_loglevel temp_name : string)
  : list string :=
  [ffmpeg_cmd; "-y"; "-i"; filename;
   "-ac"; PyStr.str_int channels; "-ar"; PyStr.str_int rate;
   "-loglevel"; ffmpeg_loglevel; temp_name].

(** An omitted keyword argument takes its default; [channels] and [rate]
    are [int]s. *)
Definition source_to_audio (filename : string) (ffmpeg_cmd : option string)
           (channels rate : option Z) (file_ext ffmpeg_loglevel : option string)
  : M string :=
  let ffmpeg_cmd := default "ffmpeg" ffmpeg_cmd in
  let channels := default 1%Z channels in
  let rate := default 48000%Z rate in
  let file_ext := default ".wav" file_ext in
  let ffmpeg_loglevel := default "error" ffmpeg_loglevel in
  temp <- NamedTemporaryFile file_ext ;;
  let command := source_to_audio_command filename ffmpeg_cmd channels rate
                                         ffmpeg_loglevel temp in
  let use_shell := String.eqb os_name "nt" in
  _ <- check_output (Argv command) use_shell ;;
  ret temp.

End Functions.

(* ===================================================================== *)
(** ** audio_pre_prcs *)
(* ===================================================================== *)

Section AudioPrePrcs.
Context `{Host}.
Local Open Scope py_scope.
Local Open Scope string_scope.

(** Line 186 and line 210:
    [command[:7].replace('ffmpeg ', ffmpeg_cmd + ' ') + command[7:]]. *)
Definition splice_tool (ffmpeg_cmd command : string) : string :=
  PyStr.replace "ffmpeg " (ffmpeg_cmd +:+ " ") (PyStr.take 7 command)
  +:+ PyStr.drop 7 command.

Definition same_name_msg (dest_name : string) : string :=
  "There is already a file with the same name in this location: "
  +:+ dq +:+ dest_name +:+ dq +:+ ".".

Definition new_path_prompt : string :=
  "Input a new path (including directory and file name) for output file." +:+ nl.

(** ['_temp_{num}.flac'.format(num=i)] after the stem. *)
Definition temp_name (stem : string) (i : nat) : string :=
  stem +:+ "_temp_" +:+ PyStr.str_nat i +:+ ".flac".

(** Lines 176-178: the answer without its extension, then [.temp.flac]. *)
Definition renamed (answer : string) : string :=
  fst (os_path_splitext answer) +:+ "." +:+ "temp.flac".

(** The [while] loop of lines 171-178.  [pending] is the lines the prompt
    has not read yet: each turn reads one, so the loop ends. *)
Fixpoint rename_while (pending : list string) (output_list : list string)
         (i : nat) : M (list string) :=
  current <- getitem output_list i ;;
  taken <- os_path_isfile current ;;
  if taken then
    print (same_name_msg current) ;;;
    answer <- input new_path_prompt ;;
    match pending with
    | [] => raise EOFError
    | _ :: rest => rename_while rest (<[i := renamed answer]> output_list) i
    end
  else ret output_list.

(** Lines 170-181. *)
Definition keep_resolve (input_m : bool) (output_list : list string) (i : nat)
  : M (list string) :=
  if input_m then
    fun w => rename_while (stdin_lines w) output_list i w
  else
    current <- getitem output_list i ;;
    taken <- os_path_isfile current ;;
    (if taken then os_remove current else ret tt) ;;;
    ret output_list.

(** One turn of the [for] loop of keep mode, lines 167-187. *)
Definition keep_stage (stem : string) (cmds : list string) (input_m : bool)
           (ffmpeg_cmd : string) (i : nat) (output_list : list string)
  : M (list string) :=
  let output_list := (output_list ++ [temp_name stem i])%list in
  output_list <- keep_resolve input_m output_list i ;;
  template <- getitem cmds (i - 1) ;;
  in_ <- getitem output_list (i - 1) ;;
  out_ <- getitem output_list i ;;
  command <- lift (str_format template in_ out_) ;;
  let command := splice_tool ffmpeg_cmd command in
  _ <- check_output (CmdString command) false ;;
  ret output_list.

(** Lines 190-195 and 201-206: a fresh temporary name, whose file is
    removed again at once. *)
Definition scratch_alloc (output_list : list string) : M (list string) :=
  temp <- NamedTemporaryFile ".flac" ;;
  temp_close temp ;;;
  isfile <- os_path_isfile temp ;;
  (if isfile then os_remove temp else ret tt) ;;;
  ret (output_list ++ [temp])%list.

(** Lines 190-199: the first stage of scratch mode. *)
Definition scratch_first (cmds : list string) (output_list : list string)
  : M (list string) :=
  output_list <- scratch_alloc output_list ;;
  template <- getitem cmds 0 ;;
  in_ <- getitem output_list 0 ;;
  out_ <- getitem output_list 1 ;;
  command <- lift (str_format template in_ out_) ;;
  _ <- check_output (CmdString command) false ;;
  ret output_list.

(** One turn of the [for] loop of scratch mode, lines 201-212. *)
Definition scratch_stage (cmds : list string) (ffmpeg_cmd : string) (i : nat)
           (output_list : list string) : M (list string) :=
  output_list <- scratch_alloc output_list ;;
  template <- getitem cmds (i - 1) ;;
  in_ <- getitem output_list (i - 1) ;;
  out_ <- getitem output_list i ;;
  command <- lift (str_format template in_ out_) ;;
  let command := splice_tool ffmpeg_cmd command in
  _ <- check_output (CmdString command) false ;;
  previous <- getitem output_list (i - 1) ;;
  os_remove previous ;;;
  ret output_list.

(** [for i in indices: output_list = body i output_list]. *)
Fixpoint for_each (indices : list nat)
         (body : nat -> list string -> M (list string))
         (output_list : list string) : M (list string) :=
  match indices with
  | [] => ret output_list
  | i :: rest =>
      output_list <- body i output_list ;;
      for_each rest body output_list
  end.

(** The function up to its [return]: the final [output_list]. *)
Definition audio_pre_prcs_outputs (filename : string) (is_keep : bool)
           (cmds : list string) (input_m : bool) (ffmpeg_cmd : string)
  : M (list string) :=
  let name_list := os_path_splitext filename in
  let output_list := [filename] in
  let cmds := match cmds with [] => DEFAULT_AUDIO_PRCS | _ => cmds end in
  if is_keep then
    for_each (seq 1 (length cmds))
             (keep_stage (fst name_list) cmds input_m ffmpeg_cmd) output_list
  else
    output_list <- scratch_first cmds output_list ;;
    for_each (seq 2 (length cmds - 1))
             (scratch_stage cmds ffmpeg_cmd) output_list.

(** [cmds] is the empty list when the argument is [None] or empty. *)
Definition audio_pre_prcs (filename : string) (is_keep : bool)
           (cmds : list string) (input_m : bool) (ffmpeg_cmd : string)
  : M string :=
  output_list <- audio_pre_prcs_outputs filename is_keep cmds input_m ffmpeg_cmd ;;
  match last output_list with
  | Some p => ret p
  | None => raise IndexError
  end.

End AudioPrePrcs.

(* ===================================================================== *)
(** ** A concrete host, to run the module on examples *)
(* ===================================================================== *)

Module Demo.
Local Open Scope string_scope.

(** A formatter for templates whose only braces are the placeholders
    [{in_}] and [{out_}]; any other brace is refused.  [skip] counts the
    characters of a placeholder still to be passed over. *)
Fixpoint format_from (in_ out_ : string) (skip : nat) (s : string)
  : result string :=
  match s with
  | EmptyString => Ok EmptyString
  | String c r =>
      match skip with
      | S k => format_from in_ out_ k r
      | O =>
          let continue (piece : string) (n : nat) :=
            match format_from in_ out_ n r with
            | Ok t => Ok (piece +:+ t)
            | Raise e => Raise e
            end in
          if String.prefix "{in_}" s then continue in_ 4
          else if String.prefix "{out_}" s then continue out_ 5
          else if Ascii.eqb c "{" || Ascii.eqb c "}" then Raise ValueError
          else continue (String c EmptyString) 0
      end
  end.

Definition format (template in_ out_ : string) : result string :=
  format_from in_ out_ 0 template.

(** The [ascii] codec: it agrees with UTF-8 on text without high bytes
    and refuses the rest. *)
Fixpoint is_ascii (s : string) : bool :=
  match s with
  | EmptyString => true
  | String c r => Nat.ltb (nat_of_ascii c) 128 && is_ascii r
  end.

Definition decode (s : string) : option string :=
  if is_ascii s then Some s else None.

Fixpoint all_digits (s : string) : bool :=
  match s with
  | EmptyString => true
  | String c r => PyStr.is_digit c && all_digits r
  end.

(** [float] restricted to decimal integer literals with an optional
    sign; every other string is refused. *)
Definition float_of_literal (s : string) : option float :=
  let '(neg, digits) :=
    match s with
    | String "-" r => (true, r)
    | String "+" r => (false, r)
    | _ => (false, s)
    end in
  if negb (String.eqb digits EmptyString) && all_digits digits then
    match PyFloat.of_int (if neg then - PyStr.int digits else PyStr.int digits)%Z with
    | Ok f => Some (if neg && PrimFloat.eqb f 0%float then PrimFloat.opp 0%float else f)
    | Raise _ => Some (if neg then neg_infinity else infinity)
    end
  else None.

(** The exact decimal expansion of a float.  It is the text Python
    prints whenever the float is a short decimal fraction. *)
Definition decimal_of_Z (z : Z) : string :=
  NilEmpty.string_of_uint (N.to_uint (Z.to_N z)).

Definition expand (m : positive) (e : Z) : string :=
  if (0 <=? e)%Z then decimal_of_Z (Z.pos m * 2 ^ e) +:+ ".0"
  else
    let k := Z.to_nat (- e) in
    let digits := decimal_of_Z (Z.pos m * 5 ^ (- e)) in
    let digits := PyStr.repeat_char "0" (S k - String.length digits) +:+ digits in
    let whole := PyStr.take (String.length digits - k) digits in
    let frac := PyStr.rstrip "0" (PyStr.drop (String.length digits - k) digits) in
    whole +:+ "." +:+ (if String.eqb frac EmptyString then "0" else frac).

Definition str_float (f : float) : string :=
  match Prim2SF f with
  | S754_zero s => if s then "-0.0" else "0.0"
  | S754_infinity s => if s then "-inf" else "inf"
  | S754_nan => "nan"
  | S754_finite s m e => (if s then "-" else EmptyString) +:+ expand m e
  end.

(** The last word of a command line. *)
Definition last_word (cmd : string) : string :=
  default EmptyString (last (PyStr.split " " cmd)).

(** External tools: [ffprobe] behaves as [probe] says; a command line
    that starts with [false] exits with status 1; any other command
    writes four bytes to the path that ends its command line. *)
Definition run (probe : proc_outcome -> proc_outcome) (c : cmdline) (shell : bool)
           (files : gmap string file) : proc_outcome :=
  let written (p : string) := <[p := File "fLaC" false]> files in
  match c with
  | Argv args =>
      if String.eqb (default EmptyString (head args)) "ffprobe"
      then probe (Exited 0 EmptyString files)
      else Exited 0 EmptyString (written (default EmptyString (last args)))
  | CmdString cmd =>
      if String.prefix "false" cmd then Exited 1 EmptyString files
      else Exited 0 EmptyString (written (last_word cmd))
  end.

(** What an open file object returns after a tool of [run] has exited:
    these tools write a file in place, so it is what is now at the path
    of the object, and what the object had when nothing is there. *)
Definition in_place (run : cmdline -> bool -> gmap string file -> proc_outcome)
           (c : cmdline) (shell : bool) (seen : gmap string file)
           (p old : string) : string :=
  match run c shell seen with
  | Exited _ _ files =>
      match files !! p with Some f => content f | None => old end
  | NotStarted => old
  end.

Definition default_stages : list string :=
  ["ffmpeg -hide_banner -i {in_} -ac 1 -f flac {out_}";
   "ffmpeg -hide_banner -i {in_} -af lowpass=3000,highpass=200 {out_}";
   "ffmpeg-normalize -v {in_} -ar 44100 -ofmt flac -c:a flac -pr -p -o {out_}"].

Definition host (python3 : bool) (os : string)
           (probe : proc_outcome -> proc_outcome) : Host :=
  {| py3 := python3;
     os_name := os;
     run_process := run probe;
     reads_after := in_place (run probe);
     str_format := format;
     utf8_decode := decode;
     float_of_str := float_of_literal;
     str_of_float := str_float;
     DEFAULT_AUDIO_PRCS := default_stages |}.

(** A prober that prints [out] and one that exits with [status]. *)
Definition prints (out : string) (o : proc_outcome) : proc_outcome :=
  match o with
  | Exited _ _ files => Exited 0 out files
  | NotStarted => NotStarted
  end.

Definition fails (status : Z) (o : proc_outcome) : proc_outcome :=
  match o with
  | Exited _ _ files => Exited status EmptyString files
  | NotStarted => NotStarted
  end.

Definition missing (o : proc_outcome) : proc_outcome := NotStarted.

Definition world0 (files : list string) (candidates answers : list string) : world :=
  {| fs := list_to_map (map (fun p => (p, File EmptyString true)) files);
     environ_PATH := Some "/usr/local/bin:/usr/bin";
     tmp_candidates := candidates;
     stdin_lines := answers;
     sigint := None;
     log := [];
     objects := ∅ |}.

(** External tools of three other kinds: none that can be started, tools
    that exit with status 0 and write nothing, tools that exit with
    status 1. *)
Definition absent_run (c : cmdline) (shell : bool) (files : gmap string file)
  : proc_outcome := NotStarted.

Definition idle_run (c : cmdline) (shell : bool) (files : gmap string file)
  : proc_outcome := Exited 0 EmptyString files.

Definition broken_run (c : cmdline) (shell : bool) (files : gmap string file)
  : proc_outcome := Exited 1 EmptyString files.

(** Tools that write to another file and put it at the path that ends
    their command line: an open file object keeps what it had. *)
Definition replacing_run (c : cmdline) (shell : bool) (files : gmap string file)
  : proc_outcome :=
  match c with
  | Argv args =>
      Exited 0 EmptyString
             (<[default EmptyString (last args) := File "fLaC" false]> files)
  | CmdString cmd =>
      Exited 0 EmptyString (<[last_word cmd := File "fLaC" false]> files)
  end.

(** Python 3 on a POSIX system with the external tools [run]. *)
Definition host_running
           (run : cmdline -> bool -> gmap string file -> proc_outcome) : Host :=
  {| py3 := true;
     os_name := "posix";
     run_process := run;
     reads_after := in_place run;
     str_format := format;
     utf8_decode := decode;
     float_of_str := float_of_literal;
     str_of_float := str_float;
     DEFAULT_AUDIO_PRCS := default_stages |}.

End Demo.

(* ===================================================================== *)
(** ** Scenarios *)
(* ===================================================================== *)

Module Scenario.
Local Open Scope string_scope.

(** Python 3 and Python 2 on a POSIX system, and Python 3 on Windows, with
    a prober that prints [30000/1001] and a line feed. *)
Definition posix3 : Host := Demo.host true "posix" (Demo.prints ("30000/1001" +:+ nl)).
Definition posix2 : Host := Demo.host false "posix" (Demo.prints ("30000/1001" +:+ nl)).
Definition nt3 : Host := Demo.host true "nt" (Demo.prints ("30000/1001" +:+ nl)).

(** Python 2 with a prober that prints [0/0]. *)
Definition posix2_zero : Host := Demo.host false "posix" (Demo.prints "0/0").

(** A prober that prints no number, one that exits with status 1, and one
    that cannot be started. *)
Definition garbage : Host := Demo.host true "posix" (Demo.prints "garbage").
Definition failing : Host := Demo.host true "posix" (Demo.fails 1).
Definition missing : Host := Demo.host true "posix" Demo.missing.

Definition candidates : list string :=
  ["/tmp/tmp1"; "/tmp/tmp2"; "/tmp/tmp3"; "/tmp/tmp4"].

(** The source file and nothing else; nobody at the keyboard. *)
Definition plain : world := Demo.world0 ["a.mp4"] candidates [].

(** The same with somebody who answers the prompts. *)
Definition answering (answers : list string) : world :=
  Demo.world0 ["a.mp4"] candidates answers.

(** Keep mode would collide: the derived output of the first stage
    exists, and so does the first alternative the user will give. *)
Definition crowded : world :=
  Demo.world0 ["a.mp4"; "a_temp_1.flac"; "/tmp/alt.temp.flac"] candidates
              ["/tmp/alt"; "/tmp/other.wav"; "unused"].

(** The derived output of the first stage exists, and the user will
    answer the prompt with a path at which there is no file. *)
Definition colliding : world :=
  Demo.world0 ["a.mp4"; "a_temp_1.flac"] candidates ["/tmp/alt"].

(** An executable on the search path. *)
Definition installed : world :=
  Demo.world0 ["/usr/bin/ffmpeg"; "a.mp4"] candidates [].

Definition one_stage : list string := ["ffmpeg -i {in_} {out_}"].
Definition two_stages : list string :=
  ["ffmpeg -i {in_} {out_}"; "ffmpeg -i {in_} {out_}"].

Definition extractor : SplitIntoFLACPiece.t :=
  SplitIntoFLACPiece.init "a.mp4" None None None.

(** No external tool is installed; every tool exits with status 0 and
    writes nothing; every tool exits with status 1. *)
Definition uninstalled : Host := Demo.host_running Demo.absent_run.
Definition idle : Host := Demo.host_running Demo.idle_run.
Definition broken : Host := Demo.host_running Demo.broken_run.

(** Every tool writes to another file and puts it at its output path. *)
Definition replacing : Host :=
  {| py3 := true;
     os_name := "posix";
     run_process := Demo.replacing_run;
     reads_after := fun _ _ _ _ old => old;
     str_format := Demo.format;
     utf8_decode := Demo.decode;
     float_of_str := Demo.float_of_literal;
     str_of_float := Demo.str_float;
     DEFAULT_AUDIO_PRCS := Demo.default_stages |}.

End Scenario.

(* ===================================================================== *)
(** ** Reading a log *)
(* ===================================================================== *)

(** The commands that were started, with the shell flag and the files each
    of them found. *)
Definition execs (l : list event) : list (cmdline * bool * gmap string file) :=
  flat_map (fun ev => match ev with
                      | EvExec c shell seen => [(c, shell, seen)]
                      | _ => []
                      end) l.

(** The temporary files that were created, and the paths that were
    removed. *)
Definition temps (l : list event) : list string :=
  flat_map (fun ev => match ev with EvTemp p => [p] | _ => [] end) l.

Definition removes (l : list event) : list string :=
  flat_map (fun ev => match ev with EvRemove p => [p] | _ => [] end) l.

Definition prompts (l : list event) : list string :=
  flat_map (fun ev => match ev with EvInput p => [p] | _ => [] end) l.

(** One stage of a run of [audio_pre_prcs]: the path it read, the path it
    wrote, its command as substituted from the template, and the files its
    command found. *)
Record stage : Type := Stage {
  stage_in : string;
  stage_out : string;
  stage_body : string;
  stage_seen : gmap string file
}.

(** What stage [j] (counted from 0) of scratch mode logs. *)
Definition scratch_events (ffmpeg_cmd : string) (j : nat) (s : stage) : list event :=
  match j with
  | O =>
      [EvTemp (stage_out s); EvRemove (stage_out s);
       EvExec (CmdString (stage_body s)) false (stage_seen s)]
  | S _ =>
      [EvTemp (stage_out s); EvRemove (stage_out s);
       EvExec (CmdString (splice_tool ffmpeg_cmd (stage_body s))) false (stage_seen s);
       EvRemove (stage_in s)]
  end.

Fixpoint scratch_log (ffmpeg_cmd : string) (j : nat) (stages : list stage)
  : list event :=
  match stages with
  | [] => []
  | s :: rest => scratch_events ffmpeg_cmd j s ++ scratch_log ffmpeg_cmd (S j) rest
  end.

(** Stages [j], [j+1], ... follow each other: each reads what the one
    before wrote ([prev] for the first), its command is its template with
    both paths substituted, and when the command was started there was no
    file at the path it was to write. *)
Fixpoint chained `{Host} (cmds : list string) (j : nat) (prev : string)
         (stages : list stage) : Prop :=
  match stages with
  | [] => True
  | s :: rest =>
      stage_in s = prev
      /\ (exists template, cmds !! j = Some template
                           /\ str_format template prev (stage_out s) = Ok (stage_body s))
      /\ stage_seen s !! stage_out s = None
      /\ chained cmds (S j) (stage_out s) rest
  end.

(** The stage list in force: the built-in one when none is given. *)
Definition effective_cmds `{Host} (cmds : list string) : list string :=
  match cmds with [] => DEFAULT_AUDIO_PRCS | _ => cmds end.

(** What the loop of lines 171-178 logs for the paths that were taken. *)
Definition collision_log (collided : list string) : list event :=
  flat_map (fun p => [EvPrint (same_name_msg p); EvInput new_path_prompt]) collided.

(** The command of a stage with the tool name spliced in, as it is
    started: never through the shell. *)
Definition spliced_exec (ffmpeg_cmd : string) (s : stage)
  : cmdline * bool * gmap string file :=
  (CmdString (splice_tool ffmpeg_cmd (stage_body s)), false, stage_seen s).

Definition commands (l : list event) : list cmdline :=
  map (fun x => fst (fst x)) (execs l).

Definition shell_flags (l : list event) : list bool :=
  map (fun x => snd (fst x)) (execs l).

(** An event that is not the start of a command through the shell. *)
Definition started_without_shell (ev : event) : Prop :=
  match ev with
  | EvExec _ shell _ => shell = false
  | _ => True
  end.

(** A computation that only adds to the log, and only events that
    satisfy [P], whatever its outcome. *)
Definition only_logs (P : event -> Prop) {A} (m : M A) : Prop :=
  forall w, exists evs, log (snd (m w)) = log w ++ evs /\ Forall P evs.

(** [is_exe] as a function of the files. *)
Definition executable (files : gmap string file) (p : string) : bool :=
  match files !! p with Some f => x_ok f | None => false end.

(** The entries that [which_exe] tries for a bare name, in order. *)
Definition path_entries (PATH program_name : string) : list string :=
  map (fun dir => os_path_join (PyStr.strip (ascii_of_nat 34) dir) program_name)
      (PyStr.split ":" PATH).




(** A computation that can return [a]. *)
Definition returns {A} (m : M A) (a : A) : Prop :=
  exists w w', m w = (Ok a, w').

(** A command that is a template of [cmds] with two paths substituted and
    then the tool name spliced in. *)
Definition spliced_command `{Host} (cmds : list string) (ffmpeg_cmd : string)
           (c : cmdline) : Prop :=
  exists template in_ out_ body,
    template ∈ cmds
    /\ str_format template in_ out_ = Ok body
    /\ c = CmdString (splice_tool ffmpeg_cmd body).

Definition spliced_event `{Host} (cmds : list string) (ffmpeg_cmd : string)
           (ev : event) : Prop :=
  match ev with
  | EvExec c _ _ => spliced_command cmds ffmpeg_cmd c
  | _ => True
  end.

(** A log in which every command is started right after a temporary file
    was created and removed again, finds no file at the path of that file,
    and is a template of [cmds] with that path substituted for [out_],
    with or without the tool name spliced in. *)
Inductive scratch_guarded `{Host} (cmds : list string) (ffmpeg_cmd : string)
  : list event -> Prop :=
| guarded_nil : scratch_guarded cmds ffmpeg_cmd []
| guarded_exec p template in_ body command seen rest :
    template ∈ cmds ->
    str_format template in_ p = Ok body ->
    command = body \/ command = splice_tool ffmpeg_cmd body ->
    seen !! p = None ->
    scratch_guarded cmds ffmpeg_cmd rest ->
    scratch_guarded cmds ffmpeg_cmd
      (EvTemp p :: EvRemove p :: EvExec (CmdString command) false seen :: rest)
| guarded_other ev rest :
    match ev with EvExec _ _ _ => False | _ => True end ->
    scratch_guarded cmds ffmpeg_cmd rest ->
    scratch_guarded cmds ffmpeg_cmd (ev :: rest).

(** The events that a computation added to the log of [w]. *)
Definition new_events (w w' : world) : list event :=
  drop (length (log w)) (log w').


(** The paths that were removed right after a command had run, in order:
    what line 212 removes.  A removal that follows the creation of a
    temporary file (lines 193-194 and 204-205) is not among them. *)
Fixpoint cleanups_from (ran : bool) (l : list event) : list string :=
  match l with
  | [] => []
  | EvExec _ _ _ :: rest => cleanups_from true rest
  | EvRemove p :: rest => (if ran then [p] else []) ++ cleanups_from false rest
  | _ :: rest => cleanups_from false rest
  end.

Definition cleanups (l : list event) : list string := cleanups_from false l.


(* ===================================================================== *)
(** ** Reading a log, continued *)
(* ===================================================================== *)

(** The messages that were printed. *)
Definition printed (l : list event) : list string :=
  flat_map (fun ev => match ev with EvPrint m => [m] | _ => [] end) l.

(** An event that is not the start of a command. *)
Definition starts_nothing (ev : event) : Prop :=
  match ev with EvExec _ _ _ => False | _ => True end.

(** An event that is not the start of a command, or is the start of a
    command given as an argument list with the shell flag [shell]. *)
Definition started_as_list (shell : bool) (ev : event) : Prop :=
  match ev with
  | EvExec (Argv _) s _ => s = shell
  | EvExec (CmdString _) _ _ => False
  | _ => True
  end.

(** What [which_exe] finds for a name, given the files and the search
    path. *)
Definition located (files : gmap string file) (PATH program_name : string)
  : option string :=
  if PyStr.contains "/" program_name
  then (if executable files program_name then Some program_name else None)
  else find (executable files) (path_entries PATH program_name).

(** The world that the prober of [ffprobe_get_fps] leaves. *)
Definition probed `{Host} (video_file : string) (w : world) : world :=
  let started := emit (EvExec (Argv (ffprobe_command video_file))
                              (String.eqb os_name "nt") (fs w)) w in
  match run_process (Argv (ffprobe_command video_file))
                    (String.eqb os_name "nt") (fs w) with
  | NotStarted => started
  | Exited _ _ files =>
      set_objects (kept_open (Argv (ffprobe_command video_file))
                             (String.eqb os_name "nt") (fs w) (objects w))
                  (set_fs files started)
  end.

(** Whether [ffprobe_get_fps] takes what was typed as the frame rate. *)
Definition accepted `{Host} (answer : string) : bool :=
  match float_of_str answer with
  | Some fps => negb (PrimFloat.leb fps 0%float)
  | None => false
  end.

(** A command of [SplitIntoFLACPiece] whose seek position is not
    negative. *)
Definition seeks_forward `{Host} (tool : string) (c : cmdline) : Prop :=
  exists start rest,
    c = Argv (tool :: "-ss"%string :: str_of_float start :: rest)
    /\ PrimFloat.leb 0%float start = true.

(** What keep mode may log for the stem [stem] and [n] stages: no
    temporary file, and no removal but that of a derived output path, and
    that only without an interactive capability. *)
Definition keep_event (stem : string) (n : nat) (input_m : bool) (ev : event)
  : Prop :=
  match ev with
  | EvTemp _ => False
  | EvRemove p => input_m = false /\ exists i, 1 <= i <= n /\ p = temp_name stem i
  | _ => True
  end.

(** What a stage of scratch mode may log once its temporary name is
    allocated: no temporary file, and no removal but that of [prev]. *)
Definition removes_only (prev : string) (ev : event) : Prop :=
  match ev with
  | EvTemp _ => False
  | EvRemove p => p = prev
  | _ => True
  end.

(** A computation of scratch mode, when the paths [known] were already
    allocated: whatever it removes was allocated before or by itself, and
    so was the last path of the list it returns. *)
Definition tidy (known : list string) (m : M (list string)) : Prop :=
  forall w, exists evs,
    log (snd (m w)) = log w ++ evs
    /\ Forall (fun p => p ∈ known ++ temps evs) (removes evs)
    /\ forall outs, fst (m w) = Ok outs ->
                    exists q, last outs = Some q /\ q ∈ known ++ temps evs.

(** A started command that ran and exited with status 0. *)
Definition exited_zero `{Host} (x : cmdline * bool * gmap string file) : Prop :=
  exists out files,
    run_process (fst (fst x)) (snd (fst x)) (snd x) = Exited 0 out files.

(** A computation that starts a command only after every command it
    started before has exited with status 0, and that returns only when
    the last one has too. *)
Definition orderly `{Host} {A} (m : M A) : Prop :=
  forall w, exists evs,
    log (snd (m w)) = log w ++ evs
    /\ Forall exited_zero (removelast (execs evs))
    /\ (forall a, fst (m w) = Ok a -> Forall exited_zero (execs evs)).

(* ===================================================================== *)
(** ** Properties of the primitive operations *)
(* ===================================================================== *)

Section PrimitiveFacts.
Context `{Host}.

Lemma bind_ok {A B} (m : M A) (k : A -> M B) w b w' :
  bind m k w = (Ok b, w') ->
  exists a w1, m w = (Ok a, w1) /\ k a w1 = (Ok b, w').
Proof.
  unfold bind. destruct (m w) as [[a|e] w1]; [eauto | discriminate].
Qed.

Lemma bind_run {A B} (m : M A) (k : A -> M B) w :
  bind m k w = match m w with
               | (Ok a, w') => k a w'
               | (Raise e, w') => (Raise e, w')
               end.
Proof. reflexivity. Qed.

Lemma ret_ok {A} (a b : A) w w' : ret a w = (Ok b, w') -> b = a /\ w' = w.
Proof. unfold ret. intros [= -> ->]. auto. Qed.

Lemma lift_ok {A} (r : result A) (a : A) w w' :
  lift r w = (Ok a, w') -> r = Ok a /\ w' = w.
Proof. unfold lift. intros [= -> ->]. auto. Qed.

Lemma getitem_ok (l : list string) i x w w' :
  getitem l i w = (Ok x, w') -> l !! i = Some x /\ w' = w.
Proof.
  unfold getitem. destruct (l !! i); [| discriminate].
  intros [-> ->]%ret_ok. auto.
Qed.

Lemma os_path_isfile_ok p b w w' :
  os_path_isfile p w = (Ok b, w') ->
  b = bool_decide (is_Some (fs w !! p)) /\ w' = w.
Proof. unfold os_path_isfile. intros [= <- <-]. auto. Qed.

Lemma os_remove_ok p u w w' :
  os_remove p w = (Ok u, w') ->
  is_Some (fs w !! p) /\ w' = emit (EvRemove p) (set_fs (delete p (fs w)) w).
Proof.
  unfold os_remove. destruct (fs w !! p) eqn:E; [| discriminate].
  intros [= <- <-]. eauto.
Qed.

Lemma first_free_fresh suffix cands (files : gmap string file) p rest :
  first_free suffix cands files = Some (p, rest) -> files !! p = None.
Proof.
  induction cands as [| c cands IH]; simpl; [discriminate |].
  destruct (files !! (c +:+ suffix)) eqn:E; [exact IH |].
  intros [= <- <-]. exact E.
Qed.

Lemma NamedTemporaryFile_ok suffix p w w' :
  NamedTemporaryFile suffix w = (Ok p, w') ->
  exists rest,
    first_free suffix (tmp_candidates w) (fs w) = Some (p, rest)
    /\ fs w !! p = None
    /\ w' = emit (EvTemp p)
              (set_objects (<[p := EmptyString]> (objects w))
                 (set_fs (<[p := File EmptyString false]> (fs w))
                         (set_tmp_candidates rest w))).
Proof.
  unfold NamedTemporaryFile.
  destruct (first_free suffix (tmp_candidates w) (fs w)) as [[q rest] |] eqn:E;
    [| discriminate].
  intros [= <- <-]. exists rest. split; [reflexivity |].
  split; [eapply first_free_fresh; eauto | reflexivity].
Qed.

Lemma check_output_ok c shell out w w' :
  check_output c shell w = (Ok out, w') ->
  exists files,
    run_process c shell (fs w) = Exited 0 out files
    /\ w' = set_objects (kept_open c shell (fs w) (objects w))
                        (set_fs files (emit (EvExec c shell (fs w)) w)).
Proof.
  unfold check_output.
  destruct (run_process c shell (fs w)) as [| status o files] eqn:E;
    [discriminate |].
  destruct (Z.eqb_spec status 0) as [-> |]; [| discriminate].
  intros [= <- <-]. eauto.
Qed.

Lemma kept_open_insert c shell seen (held : gmap string string) p old :
  kept_open c shell seen (<[p := old]> held) !! p
  = Some (reads_after c shell seen p old).
Proof. unfold kept_open. rewrite map_lookup_imap, lookup_insert_eq. reflexivity. Qed.

Lemma scratch_alloc_ok outs outs' w w' :
  scratch_alloc outs w = (Ok outs', w') ->
  exists p rest,
    first_free ".flac" (tmp_candidates w) (fs w) = Some (p, rest)
    /\ fs w !! p = None
    /\ outs' = outs ++ [p]
    /\ w' = World (fs w) (environ_PATH w) rest (stdin_lines w) (sigint w)
                  (log w ++ [EvTemp p; EvRemove p]) (delete p (objects w)).
Proof.
  unfold scratch_alloc. intros Hrun.
  apply bind_ok in Hrun as (p & w1 & Htemp & Hrun).
  apply NamedTemporaryFile_ok in Htemp as (rest & Hfree & Hfresh & ->).
  apply bind_ok in Hrun as (u0 & w2 & Hclose & Hrun).
  injection Hclose as _ <-.
  apply bind_ok in Hrun as (b & w2 & Hfile & Hrun).
  apply os_path_isfile_ok in Hfile as [-> ->].
  apply bind_ok in Hrun as (u & w3 & Hrm & Hrun).
  apply ret_ok in Hrun as [-> ->].
  exists p, rest. repeat split; try assumption.
  simpl in Hrm. rewrite lookup_insert_eq in Hrm.
  rewrite bool_decide_eq_true_2 in Hrm by eauto.
  apply os_remove_ok in Hrm as [_ ->].
  unfold emit, set_fs, set_tmp_candidates, set_objects; simpl.
  rewrite !delete_insert_eq, delete_id by assumption.
  rewrite <- app_assoc. reflexivity.
Qed.

End PrimitiveFacts.

(* ===================================================================== *)
(** ** Scratch mode: the shape of a successful run *)
(* ===================================================================== *)

Section ScratchMode.
Context `{Host}.

Lemma scratch_first_ok cmds filename outs' w w' :
  scratch_first cmds [filename] w = (Ok outs', w') ->
  exists p rest template body out files,
    first_free ".flac" (tmp_candidates w) (fs w) = Some (p, rest)
    /\ fs w !! p = None
    /\ outs' = [filename; p]
    /\ cmds !! 0 = Some template
    /\ str_format template filename p = Ok body
    /\ run_process (CmdString body) false (fs w) = Exited 0 out files
    /\ w' = World files (environ_PATH w) rest (stdin_lines w) (sigint w)
                  (log w ++ [EvTemp p; EvRemove p;
                             EvExec (CmdString body) false (fs w)])
                  (kept_open (CmdString body) false (fs w)
                             (delete p (objects w))).
Proof.
  unfold scratch_first. intros Hrun.
  apply bind_ok in Hrun as (outs1 & w1 & Halloc & Hrun).
  apply scratch_alloc_ok in Halloc as (p & rest & Hfree & Hfresh & -> & ->).
  apply bind_ok in Hrun as (template & w2 & Htemplate & Hrun).
  apply getitem_ok in Htemplate as [Htemplate ->].
  apply bind_ok in Hrun as (in_ & w2 & Hin & Hrun).
  apply getitem_ok in Hin as [[= <-] ->].
  apply bind_ok in Hrun as (out_ & w2 & Hout & Hrun).
  apply getitem_ok in Hout as [[= <-] ->].
  apply bind_ok in Hrun as (body & w2 & Hbody & Hrun).
  apply lift_ok in Hbody as [Hbody ->].
  apply bind_ok in Hrun as (out & w2 & Hexec & Hrun).
  apply check_output_ok in Hexec as (files & Hexec & ->).
  apply ret_ok in Hrun as [-> ->].
  exists p, rest, template, body, out, files.
  repeat split; try assumption.
  unfold set_fs, emit; simpl. rewrite <- app_assoc. reflexivity.
Qed.

Lemma scratch_stage_ok cmds ffmpeg_cmd i outs outs' w w' :
  scratch_stage cmds ffmpeg_cmd i outs w = (Ok outs', w') ->
  length outs = i -> 1 <= i ->
  exists p rest template prev body out files,
    first_free ".flac" (tmp_candidates w) (fs w) = Some (p, rest)
    /\ fs w !! p = None
    /\ outs' = outs ++ [p]
    /\ cmds !! (i - 1) = Some template
    /\ outs !! (i - 1) = Some prev
    /\ str_format template prev p = Ok body
    /\ run_process (CmdString (splice_tool ffmpeg_cmd body)) false (fs w)
       = Exited 0 out files
    /\ is_Some (files !! prev)
    /\ w' = World (delete prev files) (environ_PATH w) rest (stdin_lines w)
                  (sigint w)
                  (log w ++ [EvTemp p; EvRemove p;
                             EvExec (CmdString (splice_tool ffmpeg_cmd body))
                                    false (fs w);
                             EvRemove prev])
                  (kept_open (CmdString (splice_tool ffmpeg_cmd body)) false
                             (fs w) (delete p (objects w))).
Proof.
  unfold scratch_stage. intros Hrun Hlen Hpos.
  apply bind_ok in Hrun as (outs1 & w1 & Halloc & Hrun).
  apply scratch_alloc_ok in Halloc as (p & rest & Hfree & Hfresh & -> & ->).
  apply bind_ok in Hrun as (template & w2 & Htemplate & Hrun).
  apply getitem_ok in Htemplate as [Htemplate ->].
  apply bind_ok in Hrun as (in_ & w2 & Hin & Hrun).
  apply getitem_ok in Hin as [Hin ->].
  rewrite lookup_app_l in Hin by lia.
  apply bind_ok in Hrun as (out_ & w2 & Hout & Hrun).
  apply getitem_ok in Hout as [Hout ->].
  rewrite <- Hlen, list_lookup_middle in Hout by reflexivity.
  injection Hout as <-.
  apply bind_ok in Hrun as (body & w2 & Hbody & Hrun).
  apply lift_ok in Hbody as [Hbody ->].
  apply bind_ok in Hrun as (out & w2 & Hexec & Hrun).
  apply check_output_ok in Hexec as (files & Hexec & ->).
  apply bind_ok in Hrun as (previous & w2 & Hprev & Hrun).
  apply getitem_ok in Hprev as [Hprev ->].
  rewrite lookup_app_l, Hin in Hprev by lia. injection Hprev as <-.
  apply bind_ok in Hrun as (u & w2 & Hrm & Hrun).
  apply os_remove_ok in Hrm as [Hsome ->].
  apply ret_ok in Hrun as [-> ->].
  exists p, rest, template, in_, body, out, files.
  repeat split; try assumption.
  unfold set_fs, emit; simpl. rewrite <- !app_assoc. reflexivity.
Qed.

Lemma scratch_loop_ok cmds ffmpeg_cmd n :
  forall a outs outs' prev w w',
    for_each (seq a n) (scratch_stage cmds ffmpeg_cmd) outs w = (Ok outs', w') ->
    length outs = a -> 2 <= a -> last outs = Some prev ->
    exists stages,
      length stages = n
      /\ outs' = outs ++ map stage_out stages
      /\ chained cmds (a - 1) prev stages
      /\ log w' = log w ++ scratch_log ffmpeg_cmd (a - 1) stages.
Proof.
  induction n as [| n IH]; intros a outs outs' prev w w' Hrun Hlen Ha Hlast.
  - apply ret_ok in Hrun as [-> ->]. exists [].
    simpl. rewrite !app_nil_r. auto.
  - simpl in Hrun.
    apply bind_ok in Hrun as (outs1 & w1 & Hstage & Hrun).
    apply scratch_stage_ok in Hstage
      as (p & rest & template & prev' & body & out & files & Hfree & Hfresh
          & -> & Htemplate & Hprev & Hbody & Hexec & Hsome & ->);
      [| assumption | lia].
    assert (prev' = prev) as ->.
    { rewrite last_lookup, Hlen in Hlast.
      replace (Init.Nat.pred a) with (a - 1) in Hlast by lia. congruence. }
    apply IH with (prev := p) in Hrun as (stages & Hn & -> & Hchain & Hlog);
      [| rewrite length_app; simpl; lia | lia | apply last_snoc].
    exists (Stage prev p body (fs w) :: stages).
    replace (S a - 1) with (S (a - 1)) in * by lia.
    simpl. repeat split.
    + lia.
    + rewrite <- app_assoc. reflexivity.
    + eauto.
    + assumption.
    + assumption.
    + rewrite Hlog. simpl. destruct (a - 1) eqn:E; [lia |].
      simpl. rewrite <- app_assoc. reflexivity.
Qed.

Lemma scratch_run_ok filename cmds input_m ffmpeg_cmd outs w w' :
  audio_pre_prcs_outputs filename false cmds input_m ffmpeg_cmd w = (Ok outs, w') ->
  exists stages,
    stages <> []
    /\ length stages = length (effective_cmds cmds)
    /\ outs = filename :: map stage_out stages
    /\ chained (effective_cmds cmds) 0 filename stages
    /\ log w' = log w ++ scratch_log ffmpeg_cmd 0 stages.
Proof.
  unfold audio_pre_prcs_outputs. fold (effective_cmds cmds).
  generalize (effective_cmds cmds). clear cmds. intros cmds Hrun.
  apply bind_ok in Hrun as (outs1 & w1 & Hfirst & Hrun).
  apply scratch_first_ok in Hfirst
    as (p & rest & template & body & out & files & Hfree & Hfresh & ->
        & Htemplate & Hbody & Hexec & ->).
  apply scratch_loop_ok with (prev := p) in Hrun
    as (stages & Hn & -> & Hchain & Hlog); [| reflexivity | lia | reflexivity].
  exists (Stage filename p body (fs w) :: stages).
  destruct cmds as [| c cmds]; [discriminate |].
  simpl in *. repeat split; eauto.
  - rewrite Hn. f_equal. lia.
  - rewrite Hlog. rewrite <- app_assoc. reflexivity.
Qed.



Lemma new_events_app w w' evs : log w' = log w ++ evs -> new_events w w' = evs.
Proof. unfold new_events. intros ->. apply drop_app_length. Qed.

Lemma audio_pre_prcs_ok filename is_keep cmds input_m ffmpeg_cmd p w w' :
  audio_pre_prcs filename is_keep cmds input_m ffmpeg_cmd w = (Ok p, w') ->
  exists outs,
    audio_pre_prcs_outputs filename is_keep cmds input_m ffmpeg_cmd w = (Ok outs, w')
    /\ last outs = Some p.
Proof.
  unfold audio_pre_prcs. intros Hrun.
  apply bind_ok in Hrun as (outs & w1 & Houts & Hrun).
  destruct (last outs) as [q |] eqn:Hlast; [| discriminate].
  apply ret_ok in Hrun as [-> ->]. eauto.
Qed.





Lemma chained_seen cmds stages :
  forall j prev,
    chained cmds j prev stages ->
    Forall (fun s => stage_seen s !! stage_out s = None) stages.
Proof.
  induction stages as [| s stages IH]; intros j prev Hchain; [constructor |].
  destruct Hchain as (_ & _ & Hseen & Hchain). constructor; eauto.
Qed.

(** The log of a run in scratch mode that completes: stage after stage,
    the creation of the temporary file, its removal, and only then the
    command. *)
Lemma completed_scratch_run_log
        filename cmds input_m ffmpeg_cmd result w w' :
  audio_pre_prcs filename false cmds input_m ffmpeg_cmd w = (Ok result, w') ->
  exists stages,
    length stages = length (effective_cmds cmds)
    /\ last (map stage_out stages) = Some result
    /\ chained (effective_cmds cmds) 0 filename stages
    /\ new_events w w' = scratch_log ffmpeg_cmd 0 stages
    /\ Forall (fun s => stage_seen s !! stage_out s = None) stages.
Proof.
  intros Hrun.
  apply audio_pre_prcs_ok in Hrun as (outs & Hrun & Hlast).
  apply scratch_run_ok in Hrun as (stages & Hne & Hn & -> & Hchain & Hlog).
  exists stages. repeat split; try assumption.
  - destruct stages as [| s stages].
    + congruence.
    + rewrite <- Hlast. simpl map. rewrite !last_cons.
      destruct (last (map stage_out stages)); reflexivity.
  - apply new_events_app. assumption.
  - eapply chained_seen. eassumption.
Qed.





End ScratchMode.

(* ===================================================================== *)
(** ** Keep mode: one turn of the loop, and a successful run *)
(* ===================================================================== *)

Section KeepMode.
Context `{Host}.

Lemma rename_while_ok i outs pending :
  forall current outs' w w',
    rename_while pending (outs ++ [current]) i w = (Ok outs', w') ->
    length outs = i -> pending = stdin_lines w ->
    exists answers collided out,
      stdin_lines w = answers ++ stdin_lines w'
      /\ current :: map renamed answers = collided ++ [out]
      /\ Forall (fun p => is_Some (fs w !! p)) collided
      /\ fs w !! out = None
      /\ outs' = outs ++ [out]
      /\ w' = World (fs w) (environ_PATH w) (tmp_candidates w) (stdin_lines w')
                    (sigint w) (log w ++ collision_log collided) (objects w).
Proof.
  induction pending as [| a pending IH];
    intros current outs' w w' Hrun Hlen Hpending; subst i.
  - simpl in Hrun.
    apply bind_ok in Hrun as (cur & w1 & Hcur & Hrun).
    apply getitem_ok in Hcur as [Hcur ->].
    rewrite list_lookup_middle in Hcur by reflexivity.
    injection Hcur as <-.
    apply bind_ok in Hrun as (taken & w1 & Htaken & Hrun).
    apply os_path_isfile_ok in Htaken as [-> ->].
    case_bool_decide as Htaken.
    + apply bind_ok in Hrun as (u & w1 & _ & Hrun).
      apply bind_ok in Hrun as (answer & w2 & _ & Hrun). discriminate.
    + apply ret_ok in Hrun as [-> ->].
      exists [], [], current. simpl. rewrite app_nil_r.
      repeat split; auto.
      * apply eq_None_not_Some. assumption.
      * destruct w; reflexivity.
  - simpl in Hrun.
    apply bind_ok in Hrun as (cur & w1 & Hcur & Hrun).
    apply getitem_ok in Hcur as [Hcur ->].
    rewrite list_lookup_middle in Hcur by reflexivity.
    injection Hcur as <-.
    apply bind_ok in Hrun as (taken & w1 & Htaken & Hrun).
    apply os_path_isfile_ok in Htaken as [-> ->].
    case_bool_decide as Htaken.
    + apply bind_ok in Hrun as (u & w1 & Hprint & Hrun).
      injection Hprint as _ <-.
      apply bind_ok in Hrun as (answer & w2 & Hinput & Hrun).
      unfold input in Hinput. simpl in Hinput. rewrite <- Hpending in Hinput.
      injection Hinput as <- <-.
      replace (<[length outs := renamed a]> (outs ++ [current]))
        with (outs ++ [renamed a]) in Hrun
        by (rewrite insert_app_r_alt, Nat.sub_diag by lia; reflexivity).
      apply IH in Hrun
        as (answers & collided & out & Hstdin & Hsplit & Hall & Hfree & -> & ->);
        [| reflexivity | reflexivity].
      simpl in *.
      exists (a :: answers), (current :: collided), out.
      repeat split.
      * rewrite <- Hpending. simpl. f_equal. assumption.
      * simpl. f_equal. assumption.
      * constructor; assumption.
      * assumption.
      * f_equal. rewrite <- !app_assoc. reflexivity.
    + apply ret_ok in Hrun as [-> ->].
      exists [], [], current. simpl. rewrite app_nil_r.
      repeat split; auto.
      * apply eq_None_not_Some. assumption.
      * destruct w; reflexivity.
Qed.

Lemma execs_app l1 l2 : execs (l1 ++ l2) = execs l1 ++ execs l2.
Proof. unfold execs. apply flat_map_app. Qed.

Lemma execs_collision_log collided : execs (collision_log collided) = [].
Proof. induction collided; simpl; auto. Qed.

Lemma keep_stage_ok stem cmds input_m ffmpeg_cmd i outs outs' w w' :
  keep_stage stem cmds input_m ffmpeg_cmd i outs w = (Ok outs', w') ->
  length outs = i -> 1 <= i ->
  exists answers collided out template prev body stdout files,
    stdin_lines w = answers ++ stdin_lines w'
    /\ temp_name stem i :: map renamed answers = collided ++ [out]
    /\ (input_m = false -> answers = [])
    /\ Forall (fun p => is_Some (fs w !! p)) collided
    /\ outs' = outs ++ [out]
    /\ cmds !! (i - 1) = Some template
    /\ outs !! (i - 1) = Some prev
    /\ str_format template prev out = Ok body
    /\ (if input_m then fs w else delete out (fs w)) !! out = None
    /\ run_process (CmdString (splice_tool ffmpeg_cmd body)) false
                   (if input_m then fs w else delete out (fs w))
       = Exited 0 stdout files
    /\ fs w' = files
    /\ log w' = log w
                ++ (if input_m then collision_log collided
                    else if bool_decide (is_Some (fs w !! out))
                         then [EvRemove out] else [])
                ++ [EvExec (CmdString (splice_tool ffmpeg_cmd body)) false
                           (if input_m then fs w else delete out (fs w))].
Proof.
  unfold keep_stage. intros Hrun Hlen Hpos. subst i.
  apply bind_ok in Hrun as (outs1 & w1 & Hresolve & Hrun).
  assert (exists answers collided out,
             stdin_lines w = answers ++ stdin_lines w1
             /\ temp_name stem (length outs) :: map renamed answers
                = collided ++ [out]
             /\ (input_m = false -> answers = [])
             /\ Forall (fun p => is_Some (fs w !! p)) collided
             /\ outs1 = outs ++ [out]
             /\ fs w1 = (if input_m then fs w else delete out (fs w))
             /\ fs w1 !! out = None
             /\ log w1 = log w
                  ++ (if input_m then collision_log collided
                      else if bool_decide (is_Some (fs w !! out))
                           then [EvRemove out] else []))
    as (answers & collided & out & Hstdin & Hsplit & Hnone & Hall & -> & Hfs
        & Hfree & Hlog).
  { unfold keep_resolve in Hresolve. destruct input_m.
    - apply rename_while_ok in Hresolve
        as (answers & collided & out & Hstdin & Hsplit & Hall & Hfree & -> & ->);
        [| reflexivity | reflexivity].
      exists answers, collided, out. simpl. repeat split; auto. discriminate.
    - apply bind_ok in Hresolve as (cur & w2 & Hcur & Hresolve).
      apply getitem_ok in Hcur as [Hcur ->].
      rewrite list_lookup_middle in Hcur by reflexivity.
      injection Hcur as <-.
      apply bind_ok in Hresolve as (taken & w2 & Htaken & Hresolve).
      apply os_path_isfile_ok in Htaken as [-> ->].
      apply bind_ok in Hresolve as (u & w2 & Hrm & Hresolve).
      apply ret_ok in Hresolve as [-> ->].
      exists [], [], (temp_name stem (length outs)). simpl.
      case_bool_decide as Htaken.
      + apply os_remove_ok in Hrm as [_ ->]. simpl.
        rewrite lookup_delete_eq. repeat split; auto.
      + apply ret_ok in Hrm as [_ ->].
        apply eq_None_not_Some in Htaken.
        rewrite delete_id, app_nil_r by assumption. repeat split; auto. }
  apply bind_ok in Hrun as (template & w2 & Htemplate & Hrun).
  apply getitem_ok in Htemplate as [Htemplate ->].
  apply bind_ok in Hrun as (in_ & w2 & Hin & Hrun).
  apply getitem_ok in Hin as [Hin ->].
  rewrite lookup_app_l in Hin by lia.
  apply bind_ok in Hrun as (out_ & w2 & Hout & Hrun).
  apply getitem_ok in Hout as [Hout ->].
  rewrite list_lookup_middle in Hout by reflexivity.
  injection Hout as <-.
  apply bind_ok in Hrun as (body & w2 & Hbody & Hrun).
  apply lift_ok in Hbody as [Hbody ->].
  apply bind_ok in Hrun as (stdout & w2 & Hexec & Hrun).
  apply check_output_ok in Hexec as (files & Hexec & ->).
  apply ret_ok in Hrun as [-> ->].
  exists answers, collided, out, template, in_, body, stdout, files.
  simpl. rewrite Hlog, <- Hfs, <- app_assoc.
  repeat split; auto.
Qed.

Lemma keep_loop_ok stem cmds input_m ffmpeg_cmd n :
  forall a outs outs' prev w w',
    for_each (seq a n) (keep_stage stem cmds input_m ffmpeg_cmd) outs w
    = (Ok outs', w') ->
    length outs = a -> 1 <= a -> last outs = Some prev ->
    exists stages evs,
      length stages = n
      /\ outs' = outs ++ map stage_out stages
      /\ chained cmds (a - 1) prev stages
      /\ log w' = log w ++ evs
      /\ execs evs = map (spliced_exec ffmpeg_cmd) stages.
Proof.
  induction n as [| n IH]; intros a outs outs' prev w w' Hrun Hlen Ha Hlast.
  - apply ret_ok in Hrun as [-> ->]. exists [], [].
    simpl. rewrite !app_nil_r. auto.
  - simpl in Hrun.
    apply bind_ok in Hrun as (outs1 & w1 & Hstage & Hrun).
    apply keep_stage_ok in Hstage
      as (answers & collided & out & template & prev' & body & stdout & files
          & _ & _ & _ & _ & -> & Htemplate & Hprev & Hbody & Hfree & Hexec
          & _ & Hlog1);
      [| assumption | lia].
    assert (prev' = prev) as ->.
    { rewrite last_lookup, Hlen in Hlast.
      replace (Init.Nat.pred a) with (a - 1) in Hlast by lia. congruence. }
    apply IH with (prev := out) in Hrun
      as (stages & evs & Hn & -> & Hchain & Hlog & Hexecs);
      [| rewrite length_app; simpl; lia | lia | apply last_snoc].
    eexists (Stage prev out body _ :: stages), _.
    replace (S a - 1) with (S (a - 1)) in * by lia.
    simpl. repeat split.
    + lia.
    + rewrite <- app_assoc. reflexivity.
    + eauto.
    + eassumption.
    + assumption.
    + rewrite Hlog, Hlog1, <- !app_assoc. reflexivity.
    + rewrite !execs_app, Hexecs. unfold spliced_exec at 2. simpl.
      destruct input_m; [rewrite execs_collision_log; reflexivity |].
      case_bool_decide; reflexivity.
Qed.

Lemma keep_run_ok filename cmds input_m ffmpeg_cmd outs w w' :
  audio_pre_prcs_outputs filename true cmds input_m ffmpeg_cmd w = (Ok outs, w') ->
  exists stages evs,
    length stages = length (effective_cmds cmds)
    /\ outs = filename :: map stage_out stages
    /\ chained (effective_cmds cmds) 0 filename stages
    /\ log w' = log w ++ evs
    /\ execs evs = map (spliced_exec ffmpeg_cmd) stages.
Proof.
  unfold audio_pre_prcs_outputs. fold (effective_cmds cmds). intros Hrun.
  apply keep_loop_ok with (prev := filename) in Hrun
    as (stages & evs & Hn & -> & Hchain & Hlog & Hexecs);
    [| reflexivity | lia | reflexivity].
  exists stages, evs. auto.
Qed.

Lemma keep_loop_length stem cmds input_m ffmpeg_cmd n :
  forall a outs outs' w w',
    for_each (seq a n) (keep_stage stem cmds input_m ffmpeg_cmd) outs w
    = (Ok outs', w') ->
    length outs = a -> 1 <= a -> length outs' = a + n.
Proof.
  intros a outs outs' w w' Hrun Hlen Ha.
  destruct (last outs) as [prev |] eqn:Hlast.
  - apply keep_loop_ok with (prev := prev) in Hrun
      as (stages & evs & Hn & -> & _); try assumption.
    rewrite length_app, length_map. lia.
  - apply last_None in Hlast. subst outs. simpl in Hlen. lia.
Qed.

Lemma rename_while_run outs pending :
  forall current w,
    pending = stdin_lines w ->
    exists answers collided left,
      stdin_lines w = answers ++ left
      /\ Forall (fun p => is_Some (fs w !! p)) collided
      /\ snd (rename_while pending (outs ++ [current]) (length outs) w)
         = World (fs w) (environ_PATH w) (tmp_candidates w) left (sigint w)
                 (log w ++ collision_log collided) (objects w)
      /\ ((collided = current :: map renamed answers /\ left = []
           /\ fst (rename_while pending (outs ++ [current]) (length outs) w)
              = Raise EOFError)
          \/ exists out,
              current :: map renamed answers = collided ++ [out]
              /\ fs w !! out = None
              /\ fst (rename_while pending (outs ++ [current]) (length outs) w)
                 = Ok (outs ++ [out])).
Proof.
  assert (forall current w,
             bool_decide (is_Some (fs w !! current)) = false ->
             exists answers collided left,
               stdin_lines w = answers ++ left
               /\ Forall (fun p => is_Some (fs w !! p)) collided
               /\ w = World (fs w) (environ_PATH w) (tmp_candidates w) left
                            (sigint w) (log w ++ collision_log collided)
                            (objects w)
               /\ ((collided = current :: map renamed answers /\ left = []
                    /\ @Ok (list string) (outs ++ [current]) = Raise EOFError)
                   \/ exists out,
                       current :: map renamed answers = collided ++ [out]
                       /\ fs w !! out = None
                       /\ @Ok (list string) (outs ++ [current])
                          = Ok (outs ++ [out]))) as Hfree.
  { intros current w Htaken. apply bool_decide_eq_false in Htaken.
    exists [], [], (stdin_lines w). simpl. rewrite app_nil_r.
    repeat split; [constructor | destruct w; reflexivity |].
    right. exists current. repeat split.
    apply eq_None_not_Some. assumption. }
  induction pending as [| a pending IH]; intros current w Hpending.
  - cbn [rename_while]. rewrite bind_run. unfold getitem.
    rewrite list_lookup_middle by reflexivity.
    cbv [ret]. rewrite bind_run. cbv [os_path_isfile].
    destruct (bool_decide (is_Some (fs w !! current))) eqn:Htaken;
      [| apply Hfree; assumption].
    apply bool_decide_eq_true in Htaken.
    rewrite bind_run. cbv [print]. rewrite bind_run. cbv [input].
    cbn [stdin_lines emit]. rewrite <- Hpending.
    exists [], [current], []. cbn.
    split; [reflexivity |]. split; [repeat constructor; assumption |].
    split; [| left; auto].
    unfold emit. cbn. rewrite <- Hpending, <- app_assoc. reflexivity.
  - cbn [rename_while]. rewrite bind_run. unfold getitem.
    rewrite list_lookup_middle by reflexivity.
    cbv [ret]. rewrite bind_run. cbv [os_path_isfile].
    destruct (bool_decide (is_Some (fs w !! current))) eqn:Htaken;
      [| apply Hfree; assumption].
    apply bool_decide_eq_true in Htaken.
    rewrite bind_run. cbv [print]. rewrite bind_run. cbv [input].
    cbn [stdin_lines emit]. rewrite <- Hpending.
    replace (<[length outs := renamed a]> (outs ++ [current]))
      with (outs ++ [renamed a])
      by (rewrite insert_app_r_alt, Nat.sub_diag by lia; reflexivity).
    match goal with
    | |- context [rename_while pending _ _ ?w1] =>
        destruct (IH (renamed a) w1 eq_refl)
          as (answers & collided & left & Hstdin & Hall & Hsnd & Hcases)
    end.
    cbn [fs stdin_lines set_stdin_lines environ_PATH tmp_candidates sigint log
            objects] in Hstdin, Hall, Hsnd, Hcases.
    exists (a :: answers), (current :: collided), left.
    rewrite Hsnd. cbn [map app collision_log flat_map].
    split; [f_equal; assumption |].
    split; [constructor; assumption |].
    split.
    + unfold emit, set_stdin_lines. cbn. rewrite <- !app_assoc. reflexivity.
    + destruct Hcases as [(-> & -> & Hfst) | (out & Hsplit & Hnone & Hfst)].
      * left. auto.
      * right. exists out. rewrite Hsplit. auto.
Qed.


Lemma keep_resolve_run input_m outs current w :
  exists answers collided,
    let run := keep_resolve input_m (outs ++ [current]) (length outs) w in
    stdin_lines w = answers ++ stdin_lines (snd run)
    /\ (input_m = false -> answers = [] /\ collided = [])
    /\ Forall (fun p => is_Some (fs w !! p)) collided
    /\ log (snd run)
       = log w ++ (if input_m then collision_log collided
                   else if bool_decide (is_Some (fs w !! current))
                        then [EvRemove current] else [])
    /\ fs (snd run) = (if input_m then fs w else delete current (fs w))
    /\ objects (snd run) = objects w
    /\ ((input_m = true
         /\ collided = current :: map renamed answers
         /\ stdin_lines (snd run) = []
         /\ fst run = Raise EOFError)
        \/ exists out,
            current :: map renamed answers = collided ++ [out]
            /\ fs (snd run) !! out = None
            /\ fst run = Ok (outs ++ [out])).
Proof.
  destruct input_m; cbv zeta; unfold keep_resolve.
  - destruct (rename_while_run outs (stdin_lines w) current w eq_refl)
      as (answers & collided & left & Hstdin & Hall & Hsnd & Hcases).
    exists answers, collided. rewrite Hsnd. cbn.
    repeat split; try assumption; try discriminate.
    destruct Hcases as [(-> & -> & Hfst) | (out & Hsplit & Hnone & Hfst)].
    + left. auto.
    + right. exists out. auto.
  - exists [], []. rewrite bind_run. unfold getitem.
    rewrite list_lookup_middle by reflexivity.
    cbv [ret]. rewrite bind_run. cbv [os_path_isfile].
    rewrite bind_run. unfold os_remove.
    destruct (bool_decide (is_Some (fs w !! current))) eqn:Htaken.
    + apply bool_decide_eq_true in Htaken. destruct Htaken as [f Hf].
      rewrite Hf. cbn.
      split; [reflexivity |]. split; [auto |]. split; [constructor |].
      do 3 (split; [reflexivity |]).
      right. exists current. repeat split. apply lookup_delete_eq.
    + apply bool_decide_eq_false, eq_None_not_Some in Htaken.
      cbn. rewrite ?app_nil_r, delete_id by assumption.
      split; [reflexivity |]. split; [auto |]. split; [constructor |].
      do 3 (split; [reflexivity |]).
      right. exists current. auto.
Qed.

(** C5, as amended.  Stage [k+1] of a run in keep mode, after [k] stages
    have completed, whatever its outcome.  Its output path is first
    [<stem>_temp_<k+1>.flac].  With an interactive capability, for as long
    as there is a file at the path the user is told so and prompted, and
    the path becomes the answer without its extension followed by
    [.temp.flac], not by the extension [.flac] of the derived path.
    Either every path tried is taken and the answers run out: then the
    prompt raises and no command is started.  Or the path that is used is
    the first at which there is no file: nothing is removed, and the
    command, which is the stage's template with the output of the stage
    before and that path substituted and the tool name spliced in, finds
    the files as they were, with none at its output path.  Without the
    capability nothing is asked: a file at the derived path is removed
    before the command is started with that path.  The stage returns when
    the command exits with status 0, and raises when the template cannot
    be substituted, when the command cannot be started and when it exits
    with another status. *)
Theorem keep_mode_output_path
        filename cmds input_m ffmpeg_cmd k outs template w0 w :
  let stem := fst (os_path_splitext filename) in
  let turn := keep_stage stem (effective_cmds cmds) input_m ffmpeg_cmd in
  let derived := stem +:+ "_temp_" +:+ PyStr.str_nat (S k) +:+ ".flac" in
  let alternate := fun answer => fst (os_path_splitext answer) +:+ ".temp.flac" in
  let run := turn (S k) outs w in
  let events := new_events w (snd run) in
  for_each (seq 1 k) turn [filename] w0 = (Ok outs, w) ->
  effective_cmds cmds !! k = Some template ->
  exists prev answers collided,
    let before := if input_m then collision_log collided
                  else if bool_decide (is_Some (fs w !! derived))
                       then [EvRemove derived] else [] in
    let seen := if input_m then fs w else delete derived (fs w) in
    last outs = Some prev
    /\ stdin_lines w = answers ++ stdin_lines (snd run)
    /\ (input_m = false -> answers = [] /\ collided = [])
    /\ Forall (fun p => is_Some (fs w !! p)) collided
    /\ ((input_m = true
         /\ collided = derived :: map alternate answers
         /\ stdin_lines (snd run) = []
         /\ events = before
         /\ fst run = Raise EOFError)
        \/ exists out,
            derived :: map alternate answers = collided ++ [out]
            /\ seen !! out = None
            /\ match str_format template prev out with
               | Raise e => events = before /\ fst run = Raise e
               | Ok body =>
                   let command := CmdString (splice_tool ffmpeg_cmd body) in
                   events = before ++ [EvExec command false seen]
                   /\ fst run
                      = match run_process command false seen with
                        | NotStarted => Raise OSError
                        | Exited status _ _ =>
                            if (status =? 0)%Z then Ok (outs ++ [out])
                            else Raise CalledProcessError
                        end
               end).
Proof.
  intros stem turn derived alternate run events Hbefore Htemplate.
  apply keep_loop_length in Hbefore; [| reflexivity | lia].
  destruct (lookup_lt_is_Some_2 outs k ltac:(lia)) as [prev Hprev].
  assert (last outs = Some prev) as Hlast
      by (rewrite last_lookup, <- Hprev; f_equal; lia).
  destruct (keep_resolve_run input_m outs derived w)
    as (answers & collided & Hstdin & Hnone & Hall & Hlog & Hfs & _ & Hcases).
  cbv zeta in Hstdin, Hlog, Hfs, Hcases.
  exists prev, answers, collided. cbv zeta.
  subst events. remember run as result eqn:Hrun.
  unfold run, turn, keep_stage in Hrun. rewrite bind_run in Hrun.
  replace (S k) with (length outs) in Hrun by lia.
  fold (temp_name stem (length outs)) in Hrun.
  replace (temp_name stem (length outs)) with derived in Hrun
    by (unfold derived, temp_name; repeat f_equal; lia).
  destruct (keep_resolve input_m (outs ++ [derived]) (length outs) w)
    as [[outs1 | e] w1] eqn:Hresolve; cbn [fst snd] in *.
  - destruct Hcases as [(_ & _ & _ & [=]) | (out & Hsplit & Hfree & [= ->])].
    rewrite bind_run in Hrun. unfold getitem at 1 in Hrun.
    replace (length outs - 1) with k in Hrun by lia.
    rewrite Htemplate in Hrun. cbv [ret] in Hrun.
    rewrite bind_run in Hrun. unfold getitem at 1 in Hrun.
    rewrite lookup_app_l, Hprev in Hrun by lia. cbv [ret] in Hrun.
    rewrite bind_run in Hrun. unfold getitem at 1 in Hrun.
    rewrite list_lookup_middle in Hrun by reflexivity. cbv [ret] in Hrun.
    rewrite bind_run in Hrun. unfold lift in Hrun.
    rewrite Hfs in Hfree.
    refine (conj Hlast _).
    assert (stdin_lines (snd result) = stdin_lines w1) as Hlines.
    { subst result. destruct (str_format template prev out); [| reflexivity].
      rewrite bind_run. unfold check_output.
      destruct (run_process _ false _) as [| status stdout files];
        [| destruct (status =? 0)%Z]; reflexivity. }
    rewrite Hlines.
    refine (conj Hstdin (conj Hnone (conj Hall _))).
    right. exists out. refine (conj Hsplit (conj Hfree _)).
    destruct (str_format template prev out) as [body | e] eqn:Hbody.
    + rewrite bind_run in Hrun. unfold check_output in Hrun.
      rewrite Hfs in Hrun. cbv zeta.
      destruct (run_process _ false _) as [| status stdout files];
        [| destruct (status =? 0)%Z];
        subst result; cbn [fst snd];
        (split; [| reflexivity]);
        apply new_events_app; cbn; rewrite Hlog, <- app_assoc; reflexivity.
    + subst result. cbn [fst snd]. split; [| reflexivity].
      apply new_events_app. assumption.
  - destruct Hcases as [(-> & -> & Hleft & [= ->]) | (out & _ & _ & [=])].
    subst result. cbn [fst snd].
    refine (conj Hlast (conj Hstdin (conj Hnone (conj Hall _)))).
    left. repeat split; try assumption.
    apply new_events_app. assumption.
Qed.

Lemma execs_scratch_log_later ffmpeg_cmd stages :
  forall j,
    execs (scratch_log ffmpeg_cmd (S j) stages)
    = map (spliced_exec ffmpeg_cmd) stages.
Proof.
  induction stages as [| s stages IH]; intros j; [reflexivity |].
  simpl. rewrite <- (IH (S j)). reflexivity.
Qed.

Lemma execs_scratch_log ffmpeg_cmd s stages :
  execs (scratch_log ffmpeg_cmd 0 (s :: stages))
  = (CmdString (stage_body s), false, stage_seen s)
      :: map (spliced_exec ffmpeg_cmd) stages.
Proof. simpl. rewrite <- (execs_scratch_log_later _ _ 0). reflexivity. Qed.

(** In a run that completes, stage [j+1] starts its template with both
    paths substituted and the tool name spliced in: every stage in keep
    mode, every stage after the first in scratch mode. *)
Lemma completed_run_spliced
        filename is_keep cmds input_m ffmpeg_cmd result w w' :
  audio_pre_prcs filename is_keep cmds input_m ffmpeg_cmd w = (Ok result, w') ->
  exists stages,
    length stages = length (effective_cmds cmds)
    /\ last (filename :: map stage_out stages) = Some result
    /\ chained (effective_cmds cmds) 0 filename stages
    /\ length (commands (new_events w w')) = length stages
    /\ forall j s,
         stages !! j = Some s ->
         is_keep = true \/ 1 <= j ->
         commands (new_events w w') !! j
         = Some (CmdString (splice_tool ffmpeg_cmd (stage_body s))).
Proof.
  intros Hrun.
  apply audio_pre_prcs_ok in Hrun as (outs & Hrun & Hlast).
  destruct is_keep.
  - apply keep_run_ok in Hrun as (stages & evs & Hn & -> & Hchain & Hlog & Hexecs).
    apply new_events_app in Hlog.
    exists stages. unfold commands. rewrite Hlog, Hexecs.
    repeat split; try assumption.
    + rewrite !length_map. reflexivity.
    + intros j s Hs _. rewrite !list_lookup_fmap, Hs. reflexivity.
  - apply scratch_run_ok in Hrun as (stages & Hne & Hn & -> & Hchain & Hlog).
    apply new_events_app in Hlog.
    exists stages. unfold commands. rewrite Hlog.
    destruct stages as [| s0 stages]; [congruence |].
    rewrite execs_scratch_log.
    refine (conj Hn (conj Hlast (conj Hchain (conj _ _)))).
    + rewrite length_map, length_cons, length_map. reflexivity.
    + intros j s Hs [[=] | Hj].
      destruct j as [| j]; [lia |]. simpl in *.
      rewrite !list_lookup_fmap, Hs. reflexivity.
Qed.

End KeepMode.

(* ===================================================================== *)
(** ** What every run logs, completed or not *)
(* ===================================================================== *)

Section EventInvariant.
Context `{Host}.
Variable P : event -> Prop.
Hypothesis P_other :
  forall ev, match ev with EvExec _ _ _ => False | _ => True end -> P ev.

Local Abbreviation confined := (only_logs P).

Lemma confined_unchanged {A} (m : M A) :
  (forall w, snd (m w) = w) -> confined m.
Proof. intros Hm w. exists []. rewrite Hm, app_nil_r. auto. Qed.

Lemma confined_ret {A} (a : A) : confined (ret a).
Proof. apply confined_unchanged. reflexivity. Qed.

Lemma confined_raise {A} e : confined (@raise A e).
Proof. apply confined_unchanged. reflexivity. Qed.

Lemma confined_lift {A} (r : result A) : confined (lift r).
Proof. apply confined_unchanged. reflexivity. Qed.

Lemma confined_getitem l i : confined (getitem l i).
Proof.
  unfold getitem. destruct (l !! i); [apply confined_ret | apply confined_raise].
Qed.

Lemma confined_bind {A B} (m : M A) (k : A -> M B) :
  confined m -> (forall a, returns m a -> confined (k a)) -> confined (bind m k).
Proof.
  intros Hm Hk w. unfold bind.
  destruct (Hm w) as (evs1 & Hlog1 & Hall1).
  destruct (m w) as [[a | e] w1] eqn:Hrun; simpl in *.
  - destruct (Hk a (ex_intro _ w (ex_intro _ w1 Hrun)) w1)
      as (evs2 & Hlog2 & Hall2).
    exists (evs1 ++ evs2). rewrite Hlog2, Hlog1, app_assoc.
    split; [reflexivity | apply Forall_app; auto].
  - eauto.
Qed.

Lemma confined_one {A} (m : M A) ev :
  P ev ->
  (forall w, log (snd (m w)) = log w ++ [ev] \/ log (snd (m w)) = log w) ->
  confined m.
Proof.
  intros Hev Hm w. destruct (Hm w) as [Hlog | Hlog]; rewrite Hlog.
  - exists [ev]. auto.
  - exists []. rewrite app_nil_r. auto.
Qed.

Lemma confined_print msg : confined (print msg).
Proof.
  apply confined_one with (ev := EvPrint msg); [apply P_other; exact I | auto].
Qed.

Lemma confined_input prompt : confined (input prompt).
Proof.
  apply confined_one with (ev := EvInput prompt); [apply P_other; exact I |].
  intros w. unfold input. destruct (stdin_lines w); auto.
Qed.

Lemma confined_isfile p : confined (os_path_isfile p).
Proof. apply confined_unchanged. reflexivity. Qed.

Lemma confined_remove p : confined (os_remove p).
Proof.
  apply confined_one with (ev := EvRemove p); [apply P_other; exact I |].
  intros w. unfold os_remove. destruct (fs w !! p); auto.
Qed.

Lemma confined_temp suffix : confined (NamedTemporaryFile suffix).
Proof.
  intros w. unfold NamedTemporaryFile.
  destruct (first_free suffix (tmp_candidates w) (fs w)) as [[p rest] |]; simpl.
  - exists [EvTemp p]. split; [reflexivity |].
    constructor; [apply P_other; exact I | constructor].
  - exists []. rewrite app_nil_r. auto.
Qed.

Lemma confined_check_output c shell :
  (forall seen, P (EvExec c shell seen)) -> confined (check_output c shell).
Proof.
  intros Hexec w. unfold check_output.
  exists [EvExec c shell (fs w)].
  split; [| constructor; [apply Hexec | constructor]].
  destruct (run_process c shell (fs w)) as [| status out files];
    [reflexivity |].
  destruct (status =? 0)%Z; reflexivity.
Qed.

Lemma returns_getitem (l : list string) i x : returns (getitem l i) x -> x ∈ l.
Proof.
  intros (w & w' & [Hx _]%getitem_ok). eapply list_elem_of_lookup_2. eassumption.
Qed.

Lemma returns_lift {A} (r : result A) a : returns (lift r) a -> r = Ok a.
Proof. intros (w & w' & [Hr _]%lift_ok). assumption. Qed.

Lemma confined_rename_while i pending :
  forall outs, confined (rename_while pending outs i).
Proof.
  induction pending as [| a pending IH]; intros outs; simpl;
    (apply confined_bind; [apply confined_getitem | intros current _]);
    (apply confined_bind;
     [apply confined_isfile | intros [|] _; [| apply confined_ret]]);
    (apply confined_bind; [apply confined_print | intros _ _]);
    (apply confined_bind; [apply confined_input | intros answer _]).
  - apply confined_raise.
  - apply IH.
Qed.

Lemma confined_keep_resolve input_m outs i : confined (keep_resolve input_m outs i).
Proof.
  unfold keep_resolve. destruct input_m.
  - intros w. apply confined_rename_while.
  - apply confined_bind; [apply confined_getitem | intros current _].
    apply confined_bind; [apply confined_isfile | intros taken _].
    apply confined_bind; [| intros _ _; apply confined_ret].
    destruct taken; [apply confined_remove | apply confined_ret].
Qed.

Lemma confined_close p : confined (temp_close p).
Proof. intros w. exists []. simpl. rewrite app_nil_r. auto. Qed.

Lemma confined_scratch_alloc outs : confined (scratch_alloc outs).
Proof.
  unfold scratch_alloc.
  apply confined_bind; [apply confined_temp | intros temp _].
  apply confined_bind; [apply confined_close | intros _ _].
  apply confined_bind; [apply confined_isfile | intros isfile _].
  apply confined_bind; [| intros _ _; apply confined_ret].
  destruct isfile; [apply confined_remove | apply confined_ret].
Qed.

Lemma confined_for_each body indices :
  (forall i outs, confined (body i outs)) ->
  forall outs, confined (for_each indices body outs).
Proof.
  intros Hbody. induction indices as [| i indices IH]; intros outs; simpl.
  - apply confined_ret.
  - apply confined_bind; [apply Hbody | intros outs1 _; apply IH].
Qed.

(** The stages that splice the tool name in: every turn of the loop of
    keep mode, and every turn of the loop of scratch mode. *)
Section Spliced.
Variables (cmds : list string) (ffmpeg_cmd : string).
Hypothesis P_spliced :
  forall template in_ out_ body seen,
    template ∈ cmds ->
    str_format template in_ out_ = Ok body ->
    P (EvExec (CmdString (splice_tool ffmpeg_cmd body)) false seen).

Lemma confined_keep_stage stem input_m i outs :
  confined (keep_stage stem cmds input_m ffmpeg_cmd i outs).
Proof.
  unfold keep_stage.
  apply confined_bind; [apply confined_keep_resolve | intros outs1 _].
  apply confined_bind; [apply confined_getitem | intros template Htemplate].
  apply confined_bind; [apply confined_getitem | intros in_ _].
  apply confined_bind; [apply confined_getitem | intros out_ _].
  apply confined_bind; [apply confined_lift | intros body Hbody].
  apply confined_bind; [| intros _ _; apply confined_ret].
  apply confined_check_output. intros seen.
  eapply P_spliced; [eapply returns_getitem | eapply returns_lift]; eassumption.
Qed.

Lemma confined_scratch_stage i outs :
  confined (scratch_stage cmds ffmpeg_cmd i outs).
Proof.
  unfold scratch_stage.
  apply confined_bind; [apply confined_scratch_alloc | intros outs1 _].
  apply confined_bind; [apply confined_getitem | intros template Htemplate].
  apply confined_bind; [apply confined_getitem | intros in_ _].
  apply confined_bind; [apply confined_getitem | intros out_ _].
  apply confined_bind; [apply confined_lift | intros body Hbody].
  apply confined_bind.
  - apply confined_check_output. intros seen.
    eapply P_spliced; [eapply returns_getitem | eapply returns_lift]; eassumption.
  - intros _ _.
    apply confined_bind; [apply confined_getitem | intros previous _].
    apply confined_bind; [apply confined_remove | intros _ _; apply confined_ret].
Qed.

End Spliced.

(** The first stage of scratch mode, which does not. *)
Lemma confined_scratch_first cmds outs :
  (forall template in_ out_ body seen,
      template ∈ cmds ->
      str_format template in_ out_ = Ok body ->
      P (EvExec (CmdString body) false seen)) ->
  confined (scratch_first cmds outs).
Proof.
  intros P_plain. unfold scratch_first.
  apply confined_bind; [apply confined_scratch_alloc | intros outs1 _].
  apply confined_bind; [apply confined_getitem | intros template Htemplate].
  apply confined_bind; [apply confined_getitem | intros in_ _].
  apply confined_bind; [apply confined_getitem | intros out_ _].
  apply confined_bind; [apply confined_lift | intros body Hbody].
  apply confined_bind; [| intros _ _; apply confined_ret].
  apply confined_check_output. intros seen.
  eapply P_plain; [eapply returns_getitem | eapply returns_lift]; eassumption.
Qed.

Lemma confined_last (outs : list string) :
  confined (match last outs with
            | Some p => ret p
            | None => raise IndexError
            end : M string).
Proof. destruct (last outs); [apply confined_ret | apply confined_raise]. Qed.

End EventInvariant.

(* ===================================================================== *)
(** ** How commands are started *)
(* ===================================================================== *)

Section ShellFlag.
Context `{Host}.

Lemma quiet_audio_pre_prcs filename is_keep cmds input_m ffmpeg_cmd :
  only_logs started_without_shell
            (audio_pre_prcs filename is_keep cmds input_m ffmpeg_cmd).
Proof.
  assert (forall ev, match ev with EvExec _ _ _ => False | _ => True end ->
                     started_without_shell ev) as Hother
      by (intros [] Hev; solve [exact I | destruct Hev]).
  unfold audio_pre_prcs, audio_pre_prcs_outputs.
  apply (confined_bind _ Hother);
    [| intros outs _; apply (confined_last _ Hother)].
  destruct is_keep.
  - apply (confined_for_each _ Hother). intros i outs.
    apply (confined_keep_stage _ Hother). reflexivity.
  - apply (confined_bind _ Hother).
    + apply (confined_scratch_first _ Hother). reflexivity.
    + intros outs _. apply (confined_for_each _ Hother). intros i outs1.
      apply (confined_scratch_stage _ Hother). reflexivity.
Qed.

Lemma quiet_shell_flags evs :
  Forall started_without_shell evs ->
  Forall (fun shell => shell = false) (shell_flags evs).
Proof.
  induction 1 as [| ev evs Hev _ IH]; [constructor |].
  destruct ev; try exact IH. constructor; assumption.
Qed.

(** C3, as amended.  Every command that [audio_pre_prcs] starts, in keep
    mode and in scratch mode, on every platform and whether or not the run
    completes, is started with [shell=False]: never through the shell. *)
Theorem stage_commands_bypass_shell filename is_keep cmds input_m ffmpeg_cmd w :
  Forall (fun shell => shell = false)
         (shell_flags
            (new_events w (snd (audio_pre_prcs filename is_keep cmds input_m
                                               ffmpeg_cmd w)))).
Proof.
  destruct (quiet_audio_pre_prcs filename is_keep cmds input_m ffmpeg_cmd w)
    as (evs & Hlog & Hall).
  rewrite (new_events_app _ _ _ Hlog). apply quiet_shell_flags. assumption.
Qed.

End ShellFlag.



(* ===================================================================== *)
(** ** Where the tool name is spliced in *)
(* ===================================================================== *)

Section ToolName.
Context `{Host}.

(** *** What the splice does *)

Lemma append_cons c (s t : string) : String c s +:+ t = String c (s +:+ t).
Proof. reflexivity. Qed.

Lemma append_empty_r (s : string) : s +:+ EmptyString = s.
Proof.
  induction s as [| c s IH]; [reflexivity |]. rewrite append_cons, IH. reflexivity.
Qed.

Lemma prefix_refl (s : string) : String.prefix s s = true.
Proof.
  induction s as [| c s IH]; simpl; [reflexivity |].
  destruct (Ascii.ascii_dec c c); [assumption | congruence].
Qed.

Lemma prefix_length (p s : string) :
  String.prefix p s = true -> String.length p <= String.length s.
Proof.
  revert s. induction p as [| a p IH]; intros [| b s]; simpl;
    try discriminate; try lia.
  destruct (Ascii.ascii_dec a b); [| discriminate].
  intros Hp. apply IH in Hp. lia.
Qed.

Lemma prefix_same_length (p s : string) :
  String.prefix p s = true -> String.length s <= String.length p -> s = p.
Proof.
  revert s. induction p as [| a p IH]; intros [| b s]; simpl;
    try discriminate; try lia; [reflexivity |].
  destruct (Ascii.ascii_dec a b) as [-> |]; [| discriminate].
  intros Hp Hlen. f_equal. apply IH; [assumption | lia].
Qed.

Lemma replace_from_cons old new c s :
  PyStr.replace_from old new 0 (String c s)
  = if String.prefix old (String c s)
    then new +:+ PyStr.replace_from old new (String.length old - 1) s
    else String c (PyStr.replace_from old new 0 s).
Proof. reflexivity. Qed.

Lemma replace_from_skipped old new s :
  forall skip, String.length s <= skip ->
               PyStr.replace_from old new skip s = EmptyString.
Proof.
  induction s as [| c s IH]; intros skip Hskip; [reflexivity |].
  simpl in Hskip. destruct skip as [| skip]; [lia |].
  simpl. apply IH. lia.
Qed.

Lemma replace_from_short old new s :
  String.length s < String.length old ->
  PyStr.replace_from old new 0 s = s.
Proof.
  induction s as [| c s IH]; intros Hlen; [reflexivity |].
  simpl in Hlen. rewrite replace_from_cons.
  destruct (String.prefix old (String c s)) eqn:Hp.
  - apply prefix_length in Hp. simpl in Hp. lia.
  - rewrite IH by lia. reflexivity.
Qed.

(** On a string that is no longer than [old], [replace] changes [old]
    itself and nothing else. *)
Lemma replace_whole old new s :
  old <> EmptyString ->
  String.length s <= String.length old ->
  PyStr.replace old new s = if String.eqb s old then new else s.
Proof.
  intros Hold Hlen. unfold PyStr.replace.
  destruct s as [| c s].
  - destruct old; [congruence | reflexivity].
  - rewrite replace_from_cons.
    destruct (String.prefix old (String c s)) eqn:Hp.
    + pose proof (prefix_same_length _ _ Hp Hlen) as Heq.
      destruct (String.eqb_spec (String c s) old); [| contradiction].
      rewrite replace_from_skipped by (simpl in Hlen; lia).
      apply append_empty_r.
    + destruct (String.eqb_spec (String c s) old) as [<- | Hne].
      * rewrite prefix_refl in Hp. discriminate.
      * simpl in Hlen. rewrite replace_from_short by lia. reflexivity.
Qed.

Lemma take_drop n s : PyStr.take n s +:+ PyStr.drop n s = s.
Proof.
  revert s. induction n as [| n IH]; intros [| c s]; simpl; try reflexivity.
  rewrite append_cons, IH. reflexivity.
Qed.

Lemma length_take n s : String.length (PyStr.take n s) <= n.
Proof.
  revert s. induction n as [| n IH]; intros [| c s]; simpl; try lia.
  specialize (IH s). lia.
Qed.

Lemma take_prefix p s :
  String.eqb (PyStr.take (String.length p) s) p = String.prefix p s.
Proof.
  revert s. induction p as [| a p IH]; intros [| b s]; simpl; try reflexivity.
  destruct (Ascii.ascii_dec a b) as [-> | Hne].
  - rewrite Ascii.eqb_refl. apply IH.
  - destruct (Ascii.eqb_spec b a); [congruence | reflexivity].
Qed.

(** The splice: a command that begins with the seven characters
    [ffmpeg ] has them replaced by the tool name and a space; any other
    command is left as it is. *)
Lemma splice_tool_spec ffmpeg_cmd command :
  splice_tool ffmpeg_cmd command
  = if String.prefix "ffmpeg " command
    then ffmpeg_cmd +:+ " " +:+ PyStr.drop 7 command
    else command.
Proof.
  unfold splice_tool.
  rewrite replace_whole; [| discriminate | apply (length_take 7)].
  pose proof (take_prefix "ffmpeg " command) as Htake.
  change (String.length "ffmpeg ") with 7 in Htake. rewrite Htake.
  destruct (String.prefix "ffmpeg " command).
  - induction ffmpeg_cmd as [| c t IH]; [reflexivity |].
    rewrite !append_cons, IH. reflexivity.
  - apply take_drop.
Qed.

Lemma spliced_event_other cmds ffmpeg_cmd ev :
  match ev with EvExec _ _ _ => False | _ => True end ->
  spliced_event cmds ffmpeg_cmd ev.
Proof. destruct ev; simpl; tauto. Qed.

Lemma spliced_event_exec cmds ffmpeg_cmd template in_ out_ body seen :
  template ∈ cmds ->
  str_format template in_ out_ = Ok body ->
  spliced_event cmds ffmpeg_cmd
                (EvExec (CmdString (splice_tool ffmpeg_cmd body)) false seen).
Proof. intros Htemplate Hbody. exists template, in_, out_, body. auto. Qed.

Lemma commands_app l1 l2 : commands (l1 ++ l2) = commands l1 ++ commands l2.
Proof. unfold commands. rewrite execs_app. apply map_app. Qed.

Lemma spliced_commands cmds ffmpeg_cmd evs :
  Forall (spliced_event cmds ffmpeg_cmd) evs ->
  Forall (spliced_command cmds ffmpeg_cmd) (commands evs).
Proof.
  induction 1 as [| ev evs Hev _ IH]; [constructor |].
  destruct ev; try exact IH. constructor; assumption.
Qed.

Lemma keep_loop_spliced stem cmds input_m ffmpeg_cmd indices outs :
  only_logs (spliced_event cmds ffmpeg_cmd)
            (for_each indices (keep_stage stem cmds input_m ffmpeg_cmd) outs).
Proof.
  apply (confined_for_each _ (spliced_event_other cmds ffmpeg_cmd)).
  intros i outs1.
  apply (confined_keep_stage _ (spliced_event_other cmds ffmpeg_cmd)).
  apply spliced_event_exec.
Qed.

Lemma scratch_loop_spliced cmds ffmpeg_cmd indices outs :
  only_logs (spliced_event cmds ffmpeg_cmd)
            (for_each indices (scratch_stage cmds ffmpeg_cmd) outs).
Proof.
  apply (confined_for_each _ (spliced_event_other cmds ffmpeg_cmd)).
  intros i outs1.
  apply (confined_scratch_stage _ (spliced_event_other cmds ffmpeg_cmd)).
  apply spliced_event_exec.
Qed.

(** The first stage of scratch mode starts one command at most. *)
Lemma scratch_first_execs cmds outs w :
  exists evs,
    log (snd (scratch_first cmds outs w)) = log w ++ evs
    /\ length (commands evs) <= 1.
Proof.
  unfold scratch_first, scratch_alloc.
  cbv [bind NamedTemporaryFile os_path_isfile os_remove getitem lift
       check_output ret raise].
  destruct (first_free ".flac" (tmp_candidates w) (fs w)) as [[p rest] |];
    simpl; [| exists []; rewrite app_nil_r; auto].
  rewrite lookup_insert_eq. rewrite bool_decide_eq_true_2 by eauto. simpl.
  rewrite lookup_insert_eq. simpl.
  destruct (cmds !! 0) as [template |]; simpl;
    [| exists [EvTemp p; EvRemove p]; rewrite <- app_assoc; auto].
  destruct ((outs ++ [p]) !! 0) as [in_ |]; simpl;
    [| exists [EvTemp p; EvRemove p]; rewrite <- app_assoc; auto].
  destruct ((outs ++ [p]) !! 1) as [out_ |]; simpl;
    [| exists [EvTemp p; EvRemove p]; rewrite <- app_assoc; auto].
  destruct (str_format template in_ out_) as [body | e]; simpl;
    [| exists [EvTemp p; EvRemove p]; rewrite <- app_assoc; auto].
  eexists [EvTemp p; EvRemove p; EvExec _ _ _].
  split; [| simpl; lia].
  destruct (run_process _ _ _) as [| status out files]; simpl;
    [| destruct (status =? 0)%Z; simpl];
    rewrite <- !app_assoc; reflexivity.
Qed.

Lemma audio_pre_prcs_log filename is_keep cmds input_m ffmpeg_cmd w :
  log (snd (audio_pre_prcs filename is_keep cmds input_m ffmpeg_cmd w))
  = log (snd (audio_pre_prcs_outputs filename is_keep cmds input_m ffmpeg_cmd w)).
Proof.
  unfold audio_pre_prcs, bind.
  destruct (audio_pre_prcs_outputs _ _ _ _ _ w) as [[outs | e] w1];
    [destruct (last outs) |]; reflexivity.
Qed.

Lemma audio_pre_prcs_spliced filename is_keep cmds input_m ffmpeg_cmd w :
  let started :=
    commands (new_events w (snd (audio_pre_prcs filename is_keep cmds input_m
                                                ffmpeg_cmd w))) in
  Forall (spliced_command (effective_cmds cmds) ffmpeg_cmd)
         (if is_keep then started else tail started).
Proof.
  intros started. subst started.
  unfold new_events. rewrite audio_pre_prcs_log.
  unfold audio_pre_prcs_outputs. fold (effective_cmds cmds).
  set (stages := effective_cmds cmds).
  destruct is_keep.
  - destruct (keep_loop_spliced (fst (os_path_splitext filename)) stages input_m
                                ffmpeg_cmd (seq 1 (length stages)) [filename] w)
      as (evs & Hlog & Hall).
    rewrite Hlog, drop_app_length. apply spliced_commands. assumption.
  - unfold bind.
    destruct (scratch_first_execs stages [filename] w) as (evs1 & Hlog1 & Hone).
    destruct (scratch_first stages [filename] w) as [[outs1 | e] w1];
      simpl in Hlog1.
    + destruct (scratch_loop_spliced stages ffmpeg_cmd (seq 2 (length stages - 1))
                                     outs1 w1) as (evs2 & Hlog2 & Hall).
      rewrite Hlog2, Hlog1, <- app_assoc, drop_app_length, commands_app.
      apply spliced_commands in Hall.
      destruct (commands evs1) as [| c [| c' cs]]; simpl in *;
        [| assumption | lia].
      destruct (commands evs2); [constructor |].
      inversion Hall; assumption.
    + simpl. rewrite Hlog1, drop_app_length.
      destruct (commands evs1) as [| c [| c' cs]]; simpl in *;
        [constructor | constructor | lia].
Qed.

(** C2, as amended.  In every run, completed or not, each command that
    keep mode starts, and each command that scratch mode starts after its
    first one, is a stage template with two paths substituted and then the
    tool name spliced in.  In a run that completes, stage [j+1] starts its
    own template, with the paths of its input and of its output
    substituted, and the tool name spliced in: every stage in keep mode,
    every stage after the first in scratch mode. *)
Theorem tool_override_spliced_stages filename is_keep cmds input_m ffmpeg_cmd w :
  let run := audio_pre_prcs filename is_keep cmds input_m ffmpeg_cmd w in
  let started := commands (new_events w (snd run)) in
  Forall (spliced_command (effective_cmds cmds) ffmpeg_cmd)
         (if is_keep then started else tail started)
  /\ forall result,
      fst run = Ok result ->
      exists stages,
        length stages = length (effective_cmds cmds)
        /\ last (filename :: map stage_out stages) = Some result
        /\ chained (effective_cmds cmds) 0 filename stages
        /\ length started = length stages
        /\ forall j s,
            stages !! j = Some s ->
            is_keep = true \/ 1 <= j ->
            started !! j
            = Some (CmdString (splice_tool ffmpeg_cmd (stage_body s))).
Proof.
  intros run started. split.
  - apply audio_pre_prcs_spliced.
  - intros result Hresult. subst started run.
    destruct (audio_pre_prcs filename is_keep cmds input_m ffmpeg_cmd w)
      as [r w'] eqn:Hrun.
    simpl in Hresult. subst r.
    apply (completed_run_spliced _ _ _ _ _ _ _ _ Hrun).
Qed.

End ToolName.

(* ===================================================================== *)
(** ** Scratch mode: what a command finds, in every run *)
(* ===================================================================== *)

Section ScratchGuard.
Context `{Host}.

Lemma guarded_app cmds ffmpeg_cmd l1 l2 :
  scratch_guarded cmds ffmpeg_cmd l1 ->
  scratch_guarded cmds ffmpeg_cmd l2 ->
  scratch_guarded cmds ffmpeg_cmd (l1 ++ l2).
Proof.
  intros H1 H2. induction H1; simpl; [assumption | |].
  - eapply guarded_exec; eassumption.
  - apply guarded_other; assumption.
Qed.

Lemma guarded_fresh cmds ffmpeg_cmd p :
  scratch_guarded cmds ffmpeg_cmd [EvTemp p; EvRemove p].
Proof. repeat (apply guarded_other; [exact I |]). apply guarded_nil. Qed.

Lemma scratch_first_guarded cmds ffmpeg_cmd filename w :
  exists evs,
    log (snd (scratch_first cmds [filename] w)) = log w ++ evs
    /\ scratch_guarded cmds ffmpeg_cmd evs.
Proof.
  unfold scratch_first, scratch_alloc.
  cbv [bind NamedTemporaryFile os_path_isfile os_remove getitem lift
       check_output ret raise].
  destruct (first_free ".flac" (tmp_candidates w) (fs w)) as [[p rest] |] eqn:Hfree;
    simpl; [| exists []; rewrite app_nil_r; split; [reflexivity | constructor]].
  apply first_free_fresh in Hfree.
  rewrite lookup_insert_eq. rewrite bool_decide_eq_true_2 by eauto. simpl.
  rewrite lookup_insert_eq. simpl.
  rewrite delete_insert_eq, delete_id by assumption.
  destruct (cmds !! 0) as [template |] eqn:Htemplate; simpl;
    [| exists [EvTemp p; EvRemove p]; rewrite <- app_assoc;
       split; [reflexivity | apply guarded_fresh]].
  destruct (str_format template filename p) as [body | e] eqn:Hbody; simpl;
    [| exists [EvTemp p; EvRemove p]; rewrite <- app_assoc;
       split; [reflexivity | apply guarded_fresh]].
  exists [EvTemp p; EvRemove p; EvExec (CmdString body) false (fs w)].
  split.
  - destruct (run_process _ _ _) as [| status out files]; simpl;
      [| destruct (status =? 0)%Z; simpl];
      rewrite <- !app_assoc; reflexivity.
  - eapply guarded_exec; eauto using guarded_nil.
    eapply list_elem_of_lookup_2. eassumption.
Qed.

Lemma scratch_stage_guarded cmds ffmpeg_cmd i outs w :
  length outs = i -> 1 <= i ->
  exists evs,
    log (snd (scratch_stage cmds ffmpeg_cmd i outs w)) = log w ++ evs
    /\ scratch_guarded cmds ffmpeg_cmd evs.
Proof.
  intros Hlen Hpos. subst i.
  unfold scratch_stage, scratch_alloc.
  cbv [bind NamedTemporaryFile os_path_isfile os_remove getitem lift
       check_output ret raise].
  destruct (first_free ".flac" (tmp_candidates w) (fs w)) as [[p rest] |] eqn:Hfree;
    simpl; [| exists []; rewrite app_nil_r; split; [reflexivity | constructor]].
  apply first_free_fresh in Hfree.
  rewrite lookup_insert_eq. rewrite bool_decide_eq_true_2 by eauto. simpl.
  rewrite lookup_insert_eq. simpl.
  rewrite delete_insert_eq, delete_id by assumption.
  rewrite (list_lookup_middle outs [] p (length outs)) by reflexivity.
  destruct (cmds !! (length outs - 1)) as [template |] eqn:Htemplate; simpl;
    [| exists [EvTemp p; EvRemove p]; rewrite <- app_assoc;
       split; [reflexivity | apply guarded_fresh]].
  destruct ((outs ++ [p]) !! (length outs - 1)) as [in_ |]; simpl;
    [| exists [EvTemp p; EvRemove p]; rewrite <- app_assoc;
       split; [reflexivity | apply guarded_fresh]].
  destruct (str_format template in_ p) as [body | e] eqn:Hbody; simpl;
    [| exists [EvTemp p; EvRemove p]; rewrite <- app_assoc;
       split; [reflexivity | apply guarded_fresh]].
  assert (forall tail,
             scratch_guarded cmds ffmpeg_cmd tail ->
             scratch_guarded cmds ffmpeg_cmd
               (EvTemp p :: EvRemove p
                :: EvExec (CmdString (splice_tool ffmpeg_cmd body)) false (fs w)
                :: tail)) as Hblock.
  { intros tail Htail. eapply guarded_exec; eauto.
    eapply list_elem_of_lookup_2. eassumption. }
  destruct (run_process _ _ _) as [| status out files]; simpl.
  - eexists. rewrite <- !app_assoc. split; [reflexivity |].
    apply Hblock, guarded_nil.
  - destruct (status =? 0)%Z; simpl.
    + destruct (files !! in_); simpl.
      * eexists. rewrite <- !app_assoc. split; [reflexivity |].
        simpl. apply Hblock. apply guarded_other; [exact I | apply guarded_nil].
      * eexists. rewrite <- !app_assoc. split; [reflexivity |].
        apply Hblock, guarded_nil.
    + eexists. rewrite <- !app_assoc. split; [reflexivity |].
      apply Hblock, guarded_nil.
Qed.

Lemma scratch_loop_guarded cmds ffmpeg_cmd n :
  forall a outs w,
    length outs = a -> 1 <= a ->
    exists evs,
      log (snd (for_each (seq a n) (scratch_stage cmds ffmpeg_cmd) outs w))
      = log w ++ evs
      /\ scratch_guarded cmds ffmpeg_cmd evs.
Proof.
  induction n as [| n IH]; intros a outs w Hlen Ha; simpl.
  - exists []. rewrite app_nil_r. split; [reflexivity | constructor].
  - destruct (scratch_stage_guarded cmds ffmpeg_cmd a outs w Hlen Ha)
      as (evs1 & Hlog1 & Hguard1).
    unfold bind.
    destruct (scratch_stage cmds ffmpeg_cmd a outs w) as [[outs1 | e] w1] eqn:Hstage;
      simpl in Hlog1; [| eauto].
    apply scratch_stage_ok in Hstage
      as (p & rest & template & prev & body & out & files & _ & _ & -> & _);
      [| assumption | assumption].
    destruct (IH (S a) (outs ++ [p]) w1) as (evs2 & Hlog2 & Hguard2);
      [rewrite length_app; simpl; lia | lia |].
    exists (evs1 ++ evs2). rewrite Hlog2, Hlog1, app_assoc.
    split; [reflexivity | apply guarded_app; assumption].
Qed.

Lemma scratch_run_guarded filename cmds input_m ffmpeg_cmd w :
  scratch_guarded (effective_cmds cmds) ffmpeg_cmd
    (new_events w (snd (audio_pre_prcs filename false cmds input_m ffmpeg_cmd w))).
Proof.
  unfold new_events. rewrite audio_pre_prcs_log.
  unfold audio_pre_prcs_outputs. fold (effective_cmds cmds).
  set (stages := effective_cmds cmds).
  destruct (scratch_first_guarded stages ffmpeg_cmd filename w)
    as (evs1 & Hlog1 & Hguard1).
  unfold bind.
  destruct (scratch_first stages [filename] w) as [[outs1 | e] w1] eqn:Hfirst;
    simpl in Hlog1.
  - apply scratch_first_ok in Hfirst
      as (p & rest & template & body & out & files & _ & _ & -> & _).
    destruct (scratch_loop_guarded stages ffmpeg_cmd (length stages - 1) 2
                                   [filename; p] w1 eq_refl)
      as (evs2 & Hlog2 & Hguard2); [lia |].
    rewrite Hlog2, Hlog1, <- app_assoc, drop_app_length.
    apply guarded_app; assumption.
  - simpl. rewrite Hlog1, drop_app_length. assumption.
Qed.

(** C10.  In scratch mode every stage deletes the temporary file it has
    just been given before it starts its command.  In every run, completed
    or not, each command is started right after a temporary file was
    created and removed again, it is a stage template with the path of
    that file substituted for the output, and it finds no file at that
    path.  In a run that completes the log is, stage after stage, the
    creation of the temporary file, its removal, and only then the command
    (followed, from the second stage on, by the removal of the file the
    stage read). *)
Theorem scratch_output_absent_when_command_runs
        filename cmds input_m ffmpeg_cmd w :
  let run := audio_pre_prcs filename false cmds input_m ffmpeg_cmd w in
  scratch_guarded (effective_cmds cmds) ffmpeg_cmd (new_events w (snd run))
  /\ forall result,
      fst run = Ok result ->
      exists stages,
        length stages = length (effective_cmds cmds)
        /\ last (map stage_out stages) = Some result
        /\ chained (effective_cmds cmds) 0 filename stages
        /\ new_events w (snd run) = scratch_log ffmpeg_cmd 0 stages
        /\ Forall (fun s => stage_seen s !! stage_out s = None) stages.
Proof.
  intros run. split.
  - apply scratch_run_guarded.
  - intros result Hresult. subst run.
    destruct (audio_pre_prcs filename false cmds input_m ffmpeg_cmd w)
      as [r w'] eqn:Hrun.
    simpl in Hresult. subst r.
    apply (completed_scratch_run_log _ _ _ _ _ _ _ Hrun).
Qed.

End ScratchGuard.

(* ===================================================================== *)
(** ** ffprobe_get_fps *)
(* ===================================================================== *)

Section Prober.
Context `{Host}.

(** C1.  What the function returns when the prober succeeds and its
    output holds exactly two integers [a] and [b].  Under Python 2 it is
    the quotient of [float(a)] by [float(b)], unless a conversion
    overflows or [b] is zero, and then the error propagates.  Under
    Python 3 [map] returns an iterator, the subscript [num_list[0]] raises
    [TypeError], no handler catches it, and no frame rate is returned. *)
Theorem ffprobe_two_integers video_file input_m w out files text a b :
  run_process (Argv (ffprobe_command video_file)) (String.eqb os_name "nt") (fs w)
  = Exited 0 out files ->
  utf8_decode out = Some text ->
  map PyStr.int (PyStr.findall_digits text) = [a; b] ->
  fst (ffprobe_get_fps video_file input_m w)
  = if py3 then Raise TypeError
    else match PyFloat.of_int a, PyFloat.of_int b with
         | Ok fa, Ok fb =>
             if PrimFloat.eqb fb 0%float then Raise ZeroDivisionError
             else Ok (PrimFloat.div fa fb)
         | Raise e, _ => Raise e
         | Ok _, Raise e => Raise e
         end.
Proof.
  intros Hrun Hdecode Hints.
  unfold ffprobe_get_fps, try_except, ffprobe_probe, bind, check_output.
  rewrite Hrun. simpl. rewrite Hdecode. simpl.
  unfold py_map_int. rewrite Hints.
  destruct py3; simpl; [reflexivity |].
  unfold lift.
  destruct (PyFloat.of_int a) as [fa | ea] eqn:Ha.
  - destruct (PyFloat.of_int b) as [fb | eb] eqn:Hb.
    + unfold PyFloat.truediv.
      destruct (PrimFloat.eqb fb 0); reflexivity.
    + unfold PyFloat.of_int in Hb.
      destruct (binary_normalize prec emax b 0 false); inversion Hb; reflexivity.
  - unfold PyFloat.of_int in Ha.
    destruct (binary_normalize prec emax a 0 false); inversion Ha; reflexivity.
Qed.


End Prober.

(* ===================================================================== *)
(** ** which_exe *)
(* ===================================================================== *)

Section Locator.
Context `{Host}.

Lemma rfind_from_absent c s :
  forall i, PyStr.contains c s = false -> PyStr.rfind_from c s i = (-1)%Z.
Proof.
  induction s as [| a s IH]; intros i; simpl; [reflexivity |].
  intros [Ha Hs]%orb_false_elim. rewrite (IH _ Hs), Ha. reflexivity.
Qed.

Lemma rfind_from_present c s :
  forall i, (0 <= i)%Z -> PyStr.contains c s = true ->
            (i <= PyStr.rfind_from c s i < i + Z.of_nat (String.length s))%Z.
Proof.
  induction s as [| a s IH]; intros i Hi; simpl String.length; simpl;
    [discriminate |].
  destruct (PyStr.contains c s) eqn:Hs.
  - intros _. specialize (IH (i + 1)%Z ltac:(lia) eq_refl).
    destruct (Z.leb_spec 0 (PyStr.rfind_from c s (i + 1))); lia.
  - rewrite orb_false_r. intros ->.
    rewrite (rfind_from_absent _ _ _ Hs). simpl. lia.
Qed.

Lemma rstrip_empty c s :
  PyStr.rstrip c s = EmptyString -> s = PyStr.repeat_char c (String.length s).
Proof.
  induction s as [| a s IH]; simpl; [reflexivity |].
  destruct (PyStr.rstrip c s); [| discriminate].
  destruct (Ascii.eqb_spec a c) as [-> |]; [| discriminate].
  intros _. f_equal. apply IH. reflexivity.
Qed.

Lemma os_path_split_head p :
  fst (os_path_split p) = EmptyString <-> PyStr.contains "/" p = false.
Proof.
  unfold os_path_split, PyStr.rfind.
  destruct (PyStr.contains "/" p) eqn:Hp.
  - split; [| discriminate]. intros Hhead. exfalso.
    pose proof (rfind_from_present _ _ 0%Z ltac:(lia) Hp) as Hr.
    destruct p as [| a p]; [discriminate |].
    destruct (Z.to_nat (PyStr.rfind_from "/" (String a p) 0 + 1)) as [| n] eqn:Hn;
      [lia |].
    cbn [fst] in Hhead.
    change (PyStr.take (S n) (String a p)) with (String a (PyStr.take n p))
      in Hhead.
    set (head := String a (PyStr.take n p)) in *.
    change (String.eqb head EmptyString) with false in Hhead.
    destruct (String.eqb_spec head (PyStr.repeat_char "/" (String.length head)))
      as [Heq | Hne]; cbn [negb andb] in Hhead.
    + discriminate.
    + apply Hne. apply rstrip_empty. assumption.
  - rewrite (rfind_from_absent _ _ _ Hp). simpl. split; reflexivity.
Qed.

Lemma is_exe_spec p w : is_exe p w = (Ok (executable (fs w) p), w).
Proof.
  unfold is_exe, bind, os_path_isfile, os_access_X_OK, executable, ret.
  destruct (fs w !! p) as [f |] eqn:Hp.
  - rewrite bool_decide_eq_true_2 by eauto. rewrite Hp. reflexivity.
  - rewrite bool_decide_eq_false_2; [reflexivity |].
    intros [f Hf]. discriminate.
Qed.

Lemma which_exe_scan_spec program_name paths w :
  which_exe_scan program_name paths w
  = (Ok (find (executable (fs w))
              (map (fun dir => os_path_join (PyStr.strip (ascii_of_nat 34) dir)
                                            program_name) paths)), w).
Proof.
  induction paths as [| dir paths IH]; simpl; [reflexivity |].
  unfold bind. rewrite is_exe_spec.
  destruct (executable (fs w) _); [reflexivity | exact IH].
Qed.

(** *** A search path of plain directories *)













End Locator.

(* ===================================================================== *)
(** ** SplitIntoFLACPiece.__call__ *)
(* ===================================================================== *)

Section RegionExtractor.
Context `{Host}.

Import SplitIntoFLACPiece.

(** The run of [__call__] up to the start of the converter, when no
    interrupt arrives before: both bounds convert and a temporary name is
    free. *)
Lemma call_body_reaches_converter self start_ms end_ms w s e temp rest :
  (forall k, sigint w = Some k -> 3 <= k) ->
  PyFloat.of_int start_ms = Ok s ->
  PyFloat.of_int end_ms = Ok e ->
  first_free ".flac" (tmp_candidates w) (fs w) = Some (temp, rest) ->
  let argv := command self (padded_start self s) (padded_end self e) temp in
  let shell := String.eqb os_name "nt" in
  let w1 := emit (EvTemp temp)
              (set_objects (<[temp := EmptyString]> (objects w))
                 (set_fs (<[temp := File EmptyString false]> (fs w))
                         (set_tmp_candidates rest
                            (set_sigint (after_checkpoints 3 (sigint w)) w)))) in
  call_body self (start_ms, end_ms) w
  = bind (check_output (Argv argv) shell)
         (fun _ =>
            bind checkpoint (fun _ =>
            bind (temp_read temp) (fun read_data =>
            bind (temp_close temp) (fun _ =>
            bind checkpoint (fun _ =>
            bind (os_remove temp) (fun _ =>
            bind checkpoint (fun _ => ret read_data))))))) w1.
Proof.
  intros Hsig Hs He Hfree. unfold call_body.
  destruct w as [files path cands lines sig events held]. simpl in *.
  cbv [bind checkpoint lift NamedTemporaryFile]. simpl.
  destruct sig as [[| [| [| k]]] |]; try (specialize (Hsig _ eq_refl); lia);
    simpl; rewrite Hs, He; simpl; rewrite Hfree; simpl;
    rewrite ?Nat.sub_0_r; reflexivity.
Qed.

(** C7.  When no interrupt arrives before the converter is started, the
    converter is started exactly once.  The seek position it is given is
    the larger of 0 and [s/1000 - before]: that difference when it is
    above 0, and 0.0 when it is not.  The duration is [(e/1000 + after)]
    minus that position.  Both are computed in binary64 arithmetic and
    passed as [str] prints them; both paddings are 0.25 unless the
    constructor is told otherwise. *)
Theorem region_seek_and_duration self start_ms end_ms w s e temp rest :
  (forall k, sigint w = Some k -> 3 <= k) ->
  PyFloat.of_int start_ms = Ok s ->
  PyFloat.of_int end_ms = Ok e ->
  first_free ".flac" (tmp_candidates w) (fs w) = Some (temp, rest) ->
  let sought := PrimFloat.sub (PrimFloat.div s 1000%float) (include_before self) in
  let start := if PrimFloat.ltb 0%float sought then sought else 0%float in
  let duration :=
    PrimFloat.sub
      (PrimFloat.add (PrimFloat.div e 1000%float) (include_after self)) start in
  commands (new_events w (snd (call self (start_ms, end_ms) w)))
  = [Argv [ffmpeg_cmd self; "-ss"; str_of_float start; "-t"; str_of_float duration;
           "-y"; "-i"; source_path self; "-c"; "copy";
           "-loglevel"; "error"; temp]%string]
  /\ include_before (init (source_path self) None None None) = 0.25%float
  /\ include_after (init (source_path self) None None None) = 0.25%float.
Proof.
  intros Hsig Hs He Hfree sought start duration.
  split; [| split; reflexivity].
  unfold call, try_except, bind at 1.
  rewrite (call_body_reaches_converter _ _ _ _ _ _ _ _ Hsig Hs He Hfree).
  unfold new_events, commands.
  cbv [bind check_output checkpoint temp_read temp_close os_remove ret]. simpl.
  destruct (run_process _ _ _) as [| status out files]; simpl.
  - rewrite <- app_assoc, drop_app_length. reflexivity.
  - destruct (status =? 0)%Z; simpl;
      [| rewrite <- app_assoc, drop_app_length; reflexivity].
    destruct (sigint w) as [[| [| [| [| [| [| k]]]]]] |];
      try (specialize (Hsig _ eq_refl); lia); simpl;
      repeat match goal with
             | |- context [match ?m !! ?p with _ => _ end] =>
                 destruct (m !! p); simpl
             end;
      rewrite <- ?app_assoc, drop_app_length; reflexivity.
Qed.

Lemma of_int_cases z :
  PyFloat.of_int z = Raise OverflowError \/ exists f, PyFloat.of_int z = Ok f.
Proof.
  unfold PyFloat.of_int. destruct (binary_normalize prec emax z 0 false); eauto.
Qed.

Lemma call_body_not_interrupted self region w :
  sigint w = None ->
  fst (call_body self region w) <> Raise KeyboardInterrupt.
Proof.
  intros Hsig. destruct region as [start_ms end_ms].
  destruct w as [files path cands lines sig events held]. simpl in Hsig. subst sig.
  unfold call_body.
  cbv [bind checkpoint lift NamedTemporaryFile check_output temp_read
       temp_close os_remove ret]. simpl.
  destruct (of_int_cases start_ms) as [-> | [s ->]]; [discriminate |].
  destruct (of_int_cases end_ms) as [-> | [e ->]]; [discriminate |].
  simpl.
  destruct (first_free ".flac" cands files) as [[temp rest] |]; simpl;
    [| discriminate].
  destruct (run_process _ _ _) as [| status out files']; simpl;
    [discriminate |].
  destruct (status =? 0)%Z; simpl; [| discriminate].
  destruct (kept_open _ _ _ _ !! temp); simpl; [| discriminate].
  destruct (files' !! temp); simpl; discriminate.
Qed.

Lemma call_body_interrupted self region w k data w1 :
  sigint w = Some k -> k <= 5 ->
  call_body self region (set_sigint None w) = (Ok data, w1) ->
  fst (call_body self region w) = Raise KeyboardInterrupt.
Proof.
  intros Hsig Hk. destruct region as [start_ms end_ms].
  destruct w as [files path cands lines sig events held]. simpl in Hsig. subst sig.
  unfold call_body.
  cbv [bind checkpoint lift NamedTemporaryFile check_output temp_read
       temp_close os_remove ret set_sigint]. simpl.
  intros Hbody.
  destruct k as [| k]; [reflexivity |].
  destruct (of_int_cases start_ms) as [Hs | [s Hs]]; rewrite Hs in *;
    [discriminate Hbody |].
  destruct (of_int_cases end_ms) as [He | [e He]]; rewrite He in *;
    [discriminate Hbody |].
  destruct k as [| k]; [reflexivity |]. simpl in *.
  destruct (first_free ".flac" cands files) as [[temp rest] |];
    [| discriminate Hbody].
  destruct k as [| k]; [reflexivity |]. simpl in *.
  destruct (run_process _ _ _) as [| status out files'];
    [discriminate Hbody |].
  destruct (status =? 0)%Z; [| discriminate Hbody].
  destruct k as [| k]; [reflexivity |]. simpl in *.
  destruct (kept_open _ _ _ _ !! temp); [| discriminate Hbody]. simpl in *.
  destruct k as [| k]; [reflexivity |]. simpl in *.
  destruct (files' !! temp); [| discriminate Hbody].
  destruct k as [| k]; [reflexivity | lia].
Qed.

(** C8.  [__call__] returns the absent result exactly when its body is
    interrupted, and otherwise returns or raises what its body does.  An
    interrupt that arrives at any point of a call that would otherwise
    complete makes the call return the absent result.  When no interrupt
    is pending the body is never interrupted, so every failure
    propagates: a converter that cannot be started raises [OSError] and
    one that exits with a non-zero status raises [CalledProcessError]. *)
Theorem call_swallows_only_interrupt self region w :
  fst (call self region w)
  = match fst (call_body self region w) with
    | Ok data => Ok (Some data)
    | Raise KeyboardInterrupt => Ok None
    | Raise e => Raise e
    end
  /\ (forall k data w1,
        sigint w = Some k -> k <= 5 ->
        call_body self region (set_sigint None w) = (Ok data, w1) ->
        fst (call self region w) = Ok None)
  /\ (sigint w = None ->
      fst (call_body self region w) <> Raise KeyboardInterrupt
      /\ forall s e temp rest,
          PyFloat.of_int (fst region) = Ok s ->
          PyFloat.of_int (snd region) = Ok e ->
          first_free ".flac" (tmp_candidates w) (fs w) = Some (temp, rest) ->
          match run_process
                  (Argv (command self (padded_start self s) (padded_end self e)
                                 temp))
                  (String.eqb os_name "nt")
                  (<[temp := File EmptyString false]> (fs w)) with
          | NotStarted => fst (call self region w) = Raise OSError
          | Exited status _ _ =>
              status <> 0%Z ->
              fst (call self region w) = Raise CalledProcessError
          end).
Proof.
  assert (fst (call self region w)
          = match fst (call_body self region w) with
            | Ok data => Ok (Some data)
            | Raise KeyboardInterrupt => Ok None
            | Raise e => Raise e
            end) as Hcall.
  { unfold call, try_except, bind, ret.
    destruct (call_body self region w) as [[data | e] w1]; [reflexivity |].
    destruct e; reflexivity. }
  split; [exact Hcall |]. split.
  - intros k data w1 Hsig Hk Hbody. rewrite Hcall.
    rewrite (call_body_interrupted _ _ _ _ _ _ Hsig Hk Hbody). reflexivity.
  - intros Hsig. split; [apply call_body_not_interrupted; assumption |].
    intros s e temp rest Hs He Hfree. rewrite Hcall.
    destruct region as [start_ms end_ms]. simpl in Hs, He.
    assert (forall k, sigint w = Some k -> 3 <= k) as Hlate
        by (intros k Hk; congruence).
    rewrite (call_body_reaches_converter _ _ _ _ _ _ _ _ Hlate Hs He Hfree).
    cbv [bind check_output]. simpl.
    destruct (run_process _ _ _) as [| status out files]; [reflexivity |].
    intros Hstatus. destruct (Z.eqb_spec status 0); [contradiction | reflexivity].
Qed.

End RegionExtractor.

(* ===================================================================== *)
(** ** What a run logs: events of one kind *)
(* ===================================================================== *)

Section LogFilter.
Context `{Host}.
Variable P : event -> Prop.

Lemma logs_silent {A} (m : M A) :
  (forall w, log (snd (m w)) = log w) -> only_logs P m.
Proof. intros Hm w. exists []. rewrite Hm, app_nil_r. auto. Qed.

Lemma logs_ret {A} (a : A) : only_logs P (ret a).
Proof. apply logs_silent. reflexivity. Qed.

Lemma logs_raise {A} e : only_logs P (@raise A e).
Proof. apply logs_silent. reflexivity. Qed.

Lemma logs_lift {A} (r : result A) : only_logs P (lift r).
Proof. apply logs_silent. reflexivity. Qed.

Lemma logs_getitem l i : only_logs P (getitem l i).
Proof. unfold getitem. destruct (l !! i); [apply logs_ret | apply logs_raise]. Qed.

Lemma logs_isfile p : only_logs P (os_path_isfile p).
Proof. apply logs_silent. reflexivity. Qed.

Lemma logs_temp_read p : only_logs P (temp_read p).
Proof.
  apply logs_silent. intros w. unfold temp_read.
  destruct (objects w !! p); reflexivity.
Qed.

Lemma logs_temp_close p : only_logs P (temp_close p).
Proof. apply logs_silent. reflexivity. Qed.

Lemma logs_checkpoint : only_logs P checkpoint.
Proof.
  apply logs_silent. intros w. unfold checkpoint.
  destruct (sigint w) as [[| k] |]; reflexivity.
Qed.

Lemma logs_bind {A B} (m : M A) (k : A -> M B) :
  only_logs P m -> (forall a, returns m a -> only_logs P (k a)) ->
  only_logs P (bind m k).
Proof.
  intros Hm Hk w. unfold bind.
  destruct (Hm w) as (evs1 & Hlog1 & Hall1).
  destruct (m w) as [[a | e] w1] eqn:Hrun; simpl in *.
  - destruct (Hk a (ex_intro _ w (ex_intro _ w1 Hrun)) w1)
      as (evs2 & Hlog2 & Hall2).
    exists (evs1 ++ evs2). rewrite Hlog2, Hlog1, app_assoc.
    split; [reflexivity | apply Forall_app; auto].
  - eauto.
Qed.

Lemma logs_try_except {A} (m : M A) handles (h : M A) :
  only_logs P m -> only_logs P h -> only_logs P (try_except m handles h).
Proof.
  intros Hm Hh w. unfold try_except.
  destruct (Hm w) as (evs1 & Hlog1 & Hall1).
  destruct (m w) as [[a | e] w1] eqn:Hrun; simpl in *; [eauto |].
  destruct (handles e); simpl; [| eauto].
  destruct (Hh w1) as (evs2 & Hlog2 & Hall2).
  exists (evs1 ++ evs2). rewrite Hlog2, Hlog1, app_assoc.
  split; [reflexivity | apply Forall_app; auto].
Qed.

Lemma logs_one {A} (m : M A) ev :
  P ev ->
  (forall w, log (snd (m w)) = log w ++ [ev] \/ log (snd (m w)) = log w) ->
  only_logs P m.
Proof.
  intros Hev Hm w. destruct (Hm w) as [Hlog | Hlog]; rewrite Hlog.
  - exists [ev]. auto.
  - exists []. rewrite app_nil_r. auto.
Qed.

Lemma logs_print msg : P (EvPrint msg) -> only_logs P (print msg).
Proof. intros Hev. apply logs_one with (ev := EvPrint msg); auto. Qed.

Lemma logs_input prompt : P (EvInput prompt) -> only_logs P (input prompt).
Proof.
  intros Hev. apply logs_one with (ev := EvInput prompt); [assumption |].
  intros w. unfold input. destruct (stdin_lines w); auto.
Qed.

Lemma logs_remove p : P (EvRemove p) -> only_logs P (os_remove p).
Proof.
  intros Hev. apply logs_one with (ev := EvRemove p); [assumption |].
  intros w. unfold os_remove. destruct (fs w !! p); auto.
Qed.

Lemma logs_temp suffix :
  (forall p, P (EvTemp p)) -> only_logs P (NamedTemporaryFile suffix).
Proof.
  intros Hev w. unfold NamedTemporaryFile.
  destruct (first_free suffix (tmp_candidates w) (fs w)) as [[p rest] |]; simpl.
  - exists [EvTemp p]. auto.
  - exists []. rewrite app_nil_r. auto.
Qed.

Lemma logs_check_output c shell :
  (forall seen, P (EvExec c shell seen)) -> only_logs P (check_output c shell).
Proof.
  intros Hexec w. unfold check_output.
  exists [EvExec c shell (fs w)].
  split; [| auto].
  destruct (run_process c shell (fs w)) as [| status out files];
    [reflexivity |].
  destruct (status =? 0)%Z; reflexivity.
Qed.

End LogFilter.

Section ArgumentLists.
Context `{Host}.
Import SplitIntoFLACPiece.

Lemma listed_execs shell evs :
  Forall (started_as_list shell) evs ->
  Forall (fun x => exists argv seen, x = (Argv argv, shell, seen)) (execs evs).
Proof.
  induction 1 as [| ev evs Hev _ IH]; [constructor |].
  destruct ev as [| | [argv | cmd] s seen | |]; simpl in *; try exact IH.
  - subst s. constructor; eauto.
  - destruct Hev.
Qed.

Lemma listed_call self region :
  only_logs (started_as_list (String.eqb os_name "nt")) (call self region).
Proof.
  unfold call. apply logs_try_except; [| apply logs_ret].
  apply logs_bind; [| intros data _; apply logs_ret].
  unfold call_body. destruct region as [start_ms end_ms].
  apply logs_bind; [apply logs_checkpoint | intros _ _].
  apply logs_bind; [apply logs_lift | intros s _].
  apply logs_bind; [apply logs_lift | intros e _].
  apply logs_bind; [apply logs_checkpoint | intros _ _].
  apply logs_bind; [apply logs_temp; intros p; exact I | intros temp _].
  apply logs_bind; [apply logs_checkpoint | intros _ _].
  apply logs_bind; [apply logs_check_output; intros seen; reflexivity | intros _ _].
  apply logs_bind; [apply logs_checkpoint | intros _ _].
  apply logs_bind; [apply logs_temp_read | intros data _].
  apply logs_bind; [apply logs_temp_close | intros _ _].
  apply logs_bind; [apply logs_checkpoint | intros _ _].
  apply logs_bind; [apply logs_remove; exact I | intros _ _].
  apply logs_bind; [apply logs_checkpoint | intros _ _; apply logs_ret].
Qed.

Lemma listed_ffprobe_get_fps video_file input_m :
  only_logs (started_as_list (String.eqb os_name "nt"))
            (ffprobe_get_fps video_file input_m).
Proof.
  unfold ffprobe_get_fps. apply logs_try_except.
  - unfold ffprobe_probe.
    apply logs_bind; [apply logs_check_output; intros seen; reflexivity |].
    intros out _.
    apply logs_bind; [apply logs_lift | intros text _].
    destruct (py_list _) as [items num_list].
    destruct (Nat.eqb _ _); [| apply logs_raise].
    repeat (apply logs_bind; [apply logs_lift | intros ? _]).
    apply logs_lift.
  - apply logs_bind; [apply logs_print; exact I | intros _ _].
    destruct input_m; [| apply logs_ret].
    apply logs_bind; [apply logs_input; exact I | intros answer _].
    unfold manual_fps. apply logs_try_except.
    + apply logs_bind; [apply logs_lift | intros fps _].
      destruct (PrimFloat.leb _ _); [apply logs_raise | apply logs_ret].
    + apply logs_bind; [apply logs_print; exact I | intros _ _; apply logs_ret].
Qed.

Lemma listed_source_to_audio filename ffmpeg_cmd channels rate file_ext loglevel :
  only_logs (started_as_list (String.eqb os_name "nt"))
            (source_to_audio filename ffmpeg_cmd channels rate file_ext loglevel).
Proof.
  unfold source_to_audio.
  apply logs_bind; [apply logs_temp; intros p; exact I | intros temp _].
  apply logs_bind; [| intros _ _; apply logs_ret].
  apply logs_check_output. intros seen. reflexivity.
Qed.

(** X1.  The three functions that start a command given as an argument
    list ask for the shell exactly when [os.name] is ["nt"], in every run. *)
Theorem argument_lists_use_shell_only_on_nt
        self region video_file input_m filename ffmpeg_cmd channels rate
        file_ext loglevel w :
  let listed := fun w' =>
    Forall (fun x => exists argv seen,
                x = (Argv argv, String.eqb os_name "nt", seen))
           (execs (new_events w w')) in
  listed (snd (call self region w))
  /\ listed (snd (ffprobe_get_fps video_file input_m w))
  /\ listed (snd (source_to_audio filename ffmpeg_cmd channels rate file_ext
                                  loglevel w)).
Proof.
  intros listed. subst listed. simpl.
  destruct (listed_call self region w) as (evs1 & Hlog1 & Hall1).
  destruct (listed_ffprobe_get_fps video_file input_m w) as (evs2 & Hlog2 & Hall2).
  destruct (listed_source_to_audio filename ffmpeg_cmd channels rate file_ext
                                   loglevel w) as (evs3 & Hlog3 & Hall3).
  rewrite (new_events_app _ _ _ Hlog1), (new_events_app _ _ _ Hlog2),
    (new_events_app _ _ _ Hlog3).
  auto using listed_execs.
Qed.

End ArgumentLists.

(* ===================================================================== *)
(** ** ffprobe_get_fps: what it starts, prints and leaves *)
(* ===================================================================== *)

Section ProberEffects.
Context `{Host}.

Lemma ffprobe_probe_world video_file w :
  snd (ffprobe_probe video_file w) = probed video_file w.
Proof.
  unfold ffprobe_probe, probed, bind, check_output.
  destruct (run_process _ _ _) as [| status out files]; [reflexivity |].
  destruct (status =? 0)%Z; [| reflexivity]. 
  unfold lift at 1. destruct (utf8_decode out) as [text |]; [| reflexivity].
  destruct (py_list _) as [items num_list].
  destruct (Nat.eqb _ _); [| reflexivity].
  unfold lift.
  destruct (py_getitem num_list 0); [| reflexivity].
  destruct (PyFloat.of_int _); [| reflexivity].
  destruct (py_getitem num_list 1); [| reflexivity].
  destruct (PyFloat.of_int _); reflexivity.
Qed.

Lemma ffprobe_probe_python3 video_file w :
  py3 = true -> exists e, fst (ffprobe_probe video_file w) = Raise e.
Proof.
  intros Hpy. unfold ffprobe_probe, bind, check_output.
  destruct (run_process _ _ _) as [| status out files]; [eauto |].
  destruct (status =? 0)%Z; [| eauto].
  unfold lift at 1. destruct (utf8_decode out) as [text |]; [| eauto].
  unfold py_map_int. rewrite Hpy. simpl.
  destruct (Nat.eqb _ _); eauto.
Qed.

Lemma ffprobe_probe_failed video_file w status out files :
  run_process (Argv (ffprobe_command video_file)) (String.eqb os_name "nt") (fs w)
  = Exited status out files ->
  status <> 0%Z
  \/ utf8_decode out = None
  \/ (exists text, utf8_decode out = Some text
                   /\ length (PyStr.findall_digits text) <> 2) ->
  exists e, fst (ffprobe_probe video_file w) = Raise e
            /\ (e = CalledProcessError \/ e = ValueError).
Proof.
  intros Hrun Hfail. unfold ffprobe_probe, bind, check_output. rewrite Hrun.
  destruct (Z.eqb_spec status 0) as [-> | Hstatus]; [| eauto].
  destruct Hfail as [Hfail | [Hfail | (text & Hdecode & Hcount)]];
    [congruence | |]; simpl.
  - rewrite Hfail. simpl. eauto.
  - rewrite Hdecode. simpl. exists ValueError. split; [| auto].
    unfold py_map_int.
    destruct py3; simpl; rewrite length_map;
      (destruct (Nat.eqb_spec (length (PyStr.findall_digits text)) 2);
       [contradiction | reflexivity]).
Qed.

Lemma probed_fs video_file w :
  fs (probed video_file w)
  = match run_process (Argv (ffprobe_command video_file))
                      (String.eqb os_name "nt") (fs w) with
    | NotStarted => fs w
    | Exited _ _ files => files
    end.
Proof. unfold probed. destruct (run_process _ _ _); reflexivity. Qed.

Lemma probed_log video_file w :
  log (probed video_file w)
  = log w ++ [EvExec (Argv (ffprobe_command video_file))
                     (String.eqb os_name "nt") (fs w)].
Proof. unfold probed. destruct (run_process _ _ _); reflexivity. Qed.

(** X2.  Every call of [ffprobe_get_fps] starts the prober, once, and
    starts nothing else; it creates and removes no file, so the files
    afterwards are those the prober left; without an interactive
    capability it asks nothing. *)
Theorem ffprobe_starts_prober_once video_file input_m w :
  let w' := snd (ffprobe_get_fps video_file input_m w) in
  let evs := new_events w w' in
  execs evs = [(Argv (ffprobe_command video_file), String.eqb os_name "nt", fs w)]
  /\ temps evs = [] /\ removes evs = []
  /\ fs w' = match run_process (Argv (ffprobe_command video_file))
                             (String.eqb os_name "nt") (fs w) with
              | NotStarted => fs w
              | Exited _ _ files => files
              end
  /\ length (prompts evs) <= 1
  /\ (input_m = false -> prompts evs = [] /\ stdin_lines w' = stdin_lines w).
Proof.
  intros w' evs. subst evs w'. rewrite <- probed_fs.
  pose proof (ffprobe_probe_world video_file w) as Hworld.
  pose proof (probed_log video_file w) as Hlog.
  unfold ffprobe_get_fps, try_except.
  destruct (ffprobe_probe video_file w) as [[fps | e] w1]; simpl in Hworld;
    subst w1.
  - simpl. rewrite (new_events_app _ _ _ Hlog). simpl.
    repeat split; auto.
    unfold probed. destruct (run_process _ _ _); reflexivity.
  - assert (stdin_lines (probed video_file w) = stdin_lines w) as Hlines
        by (unfold probed; destruct (run_process _ _ _); reflexivity).
    destruct (exn_eqb e CalledProcessError || exn_eqb e ValueError).
    + destruct input_m.
      * cbv [bind print input manual_fps try_except lift raise ret]. simpl.
        destruct (stdin_lines (probed video_file w)) as [| answer rest]; simpl.
        -- erewrite new_events_app
             by (simpl; rewrite Hlog, <- !app_assoc; reflexivity).
           simpl. repeat split; auto; discriminate.
        -- destruct (float_of_str answer) as [fps |]; simpl;
             [destruct (PrimFloat.leb fps 0); simpl |];
             (erewrite new_events_app
               by (simpl; rewrite Hlog, <- !app_assoc; reflexivity));
             simpl; repeat split; auto; try discriminate; simpl; lia.
      * cbv [bind print ret]. simpl.
        erewrite new_events_app
          by (simpl; rewrite Hlog, <- !app_assoc; reflexivity).
        simpl. repeat split; auto.
    + simpl. rewrite (new_events_app _ _ _ Hlog). simpl.
      repeat split; auto.
Qed.

(** X3.  Under Python 3 the function never returns a frame rate that
    the prober reported: what it returns is 0.0 or the positive number
    read from the interactive capability. *)
Theorem ffprobe_python3_returns_no_probed_rate video_file input_m w fps :
  py3 = true ->
  fst (ffprobe_get_fps video_file input_m w) = Ok fps ->
  fps = 0%float
  \/ (input_m = true
      /\ exists answer rest,
          stdin_lines w = answer :: rest
          /\ float_of_str answer = Some fps
          /\ PrimFloat.leb fps 0%float = false).
Proof.
  intros Hpy.
  destruct (ffprobe_probe_python3 video_file w Hpy) as [e He].
  pose proof (ffprobe_probe_world video_file w) as Hworld.
  unfold ffprobe_get_fps, try_except.
  destruct (ffprobe_probe video_file w) as [r w1]. simpl in He, Hworld.
  subst r w1.
  destruct (exn_eqb e CalledProcessError || exn_eqb e ValueError);
    [| discriminate].
  assert (stdin_lines (probed video_file w) = stdin_lines w) as Hlines
      by (unfold probed; destruct (run_process _ _ _); reflexivity).
  destruct input_m.
  - cbv [bind print input manual_fps try_except lift raise ret]. simpl.
    rewrite Hlines.
    destruct (stdin_lines w) as [| answer rest]; simpl; [discriminate |].
    destruct (float_of_str answer) as [f |] eqn:Hf; simpl.
    + destruct (PrimFloat.leb f 0) eqn:Hle; simpl; intros [= <-]; [auto |].
      right. split; [reflexivity |]. eauto.
    + intros [= <-]. auto.
  - cbv [bind print ret]. simpl. intros [= <-]. auto.
Qed.

(** X4.  When the prober was started and failed, the function says so
    once before anything else.  With an interactive capability it then
    reads one line, and tells the user that the answer is not used
    exactly when it does not read as a float or reads as one that is
    [<= 0.0]; when the capability has no line to give, its [EOFError]
    propagates. *)
Theorem ffprobe_fallback_messages video_file w status out files :
  run_process (Argv (ffprobe_command video_file)) (String.eqb os_name "nt") (fs w)
  = Exited status out files ->
  status <> 0%Z
  \/ utf8_decode out = None
  \/ (exists text, utf8_decode out = Some text
                   /\ length (PyStr.findall_digits text) <> 2) ->
  printed (new_events w (snd (ffprobe_get_fps video_file false w)))
  = [fps_unavailable_msg]
  /\ let run := ffprobe_get_fps video_file true w in
     match stdin_lines w with
     | [] =>
         fst run = Raise EOFError
         /\ printed (new_events w (snd run)) = [fps_unavailable_msg]
     | answer :: rest =>
         stdin_lines (snd run) = rest
         /\ printed (new_events w (snd run))
            = fps_unavailable_msg
                :: (if accepted answer then [] else [use_srt_msg])
     end.
Proof.
  intros Hrun Hfail.
  destruct (ffprobe_probe_failed video_file w status out files Hrun Hfail)
    as (e & He & Hclass).
  pose proof (ffprobe_probe_world video_file w) as Hworld.
  pose proof (probed_log video_file w) as Hlog.
  assert (stdin_lines (probed video_file w) = stdin_lines w) as Hlines
      by (unfold probed; destruct (run_process _ _ _); reflexivity).
  unfold ffprobe_get_fps, try_except.
  destruct (ffprobe_probe video_file w) as [r w1]. simpl in He, Hworld.
  subst r w1.
  replace (exn_eqb e CalledProcessError || exn_eqb e ValueError) with true
    by (destruct Hclass as [-> | ->]; reflexivity).
  split.
  - cbv [bind print ret]. simpl.
    erewrite new_events_app
      by (simpl; rewrite Hlog, <- !app_assoc; reflexivity).
    reflexivity.
  - cbv [bind print input manual_fps try_except lift raise ret accepted]. simpl.
    rewrite Hlines.
    destruct (stdin_lines w) as [| answer rest]; simpl.
    + erewrite new_events_app
        by (simpl; rewrite Hlog, <- !app_assoc; reflexivity).
      auto.
    + destruct (float_of_str answer) as [f |]; simpl;
        [destruct (PrimFloat.leb f 0); simpl |];
        (erewrite new_events_app
          by (simpl; rewrite Hlog, <- !app_assoc; reflexivity));
        auto.
Qed.

End ProberEffects.

(* ===================================================================== *)
(** ** check_cmd *)
(* ===================================================================== *)

Section Checker.
Context `{Host}.

Lemma contains_app c a b :
  PyStr.contains c (a +:+ b) = PyStr.contains c a || PyStr.contains c b.
Proof.
  induction a as [| x a IH]; [reflexivity |].
  change (String x a +:+ b) with (String x (a +:+ b)). simpl.
  rewrite IH, orb_assoc. reflexivity.
Qed.

(** [which_exe] as a function of the files and of the environment. *)
Lemma which_exe_spec program_name w :
  which_exe program_name w
  = (if PyStr.contains "/" program_name
     then Ok (if executable (fs w) program_name then Some program_name else None)
     else match environ_PATH w with
          | Some PATH => Ok (find (executable (fs w)) (path_entries PATH program_name))
          | None => Raise KeyError
          end, w).
Proof.
  pose proof (os_path_split_head program_name) as Hhead.
  unfold which_exe.
  destruct (os_path_split program_name) as [fpath tail]. simpl in Hhead.
  destruct (String.eqb_spec fpath EmptyString) as [-> | Hfpath]; simpl.
  - assert (PyStr.contains "/" program_name = false) as ->
        by (apply Hhead; reflexivity).
    unfold bind, environ_get_PATH.
    destruct (environ_PATH w) as [PATH |]; [| reflexivity].
    apply which_exe_scan_spec.
  - assert (PyStr.contains "/" program_name = true) as ->.
    { destruct (PyStr.contains "/" program_name); [reflexivity |].
      exfalso. apply Hfpath, Hhead. reflexivity. }
    unfold bind. rewrite is_exe_spec.
    destruct (executable (fs w) program_name); reflexivity.
Qed.

(** X5.  [check_cmd] changes nothing and returns a name, never the path
    that was found: the name it was given when [which_exe] finds that
    one, else the name with [.exe] appended when [which_exe] finds that
    one, else nothing. *)
Theorem check_cmd_prefers_plain_name program_name PATH w :
  (PyStr.contains "/" program_name = false -> environ_PATH w = Some PATH) ->
  check_cmd program_name w
  = (Ok (if truthy (located (fs w) PATH program_name)
         then Some program_name
         else if truthy (located (fs w) PATH (program_name +:+ ".exe"))
              then Some (program_name +:+ ".exe")
              else None), w).
Proof.
  intros HPATH. unfold check_cmd, bind, located.
  rewrite which_exe_spec.
  rewrite (contains_app "/" program_name ".exe").
  change (PyStr.contains "/" ".exe") with false. rewrite orb_false_r.
  destruct (PyStr.contains "/" program_name) eqn:Hsep.
  - destruct (truthy _); [reflexivity |].
    rewrite which_exe_spec, contains_app, Hsep. simpl.
    destruct (truthy _); reflexivity.
  - rewrite (HPATH eq_refl).
    destruct (truthy _); [reflexivity |].
    rewrite which_exe_spec, contains_app, Hsep, (HPATH eq_refl). simpl.
    destruct (truthy _); reflexivity.
Qed.

(** X6.  [which_exe] and [check_cmd] raise in one case only: the name
    has no directory part and [PATH] is not in the environment; the error
    is the [KeyError] of [os.environ["PATH"]]. *)
Theorem locator_raises_only_without_PATH program_name w e :
  let unset := PyStr.contains "/" program_name = false /\ environ_PATH w = None in
  (fst (which_exe program_name w) = Raise e <-> e = KeyError /\ unset)
  /\ (fst (check_cmd program_name w) = Raise e <-> e = KeyError /\ unset).
Proof.
  intros unset. subst unset.
  unfold check_cmd, bind. rewrite !which_exe_spec.
  destruct (PyStr.contains "/" program_name) eqn:Hsep; simpl.
  - split.
    + split; [discriminate | intros (_ & [=] & _)].
    + destruct (truthy _); simpl.
      * split; [discriminate | intros (_ & [=] & _)].
      * rewrite which_exe_spec, contains_app, Hsep. simpl.
        destruct (truthy _); (split; [discriminate | intros (_ & [=] & _)]).
  - destruct (environ_PATH w) as [PATH |] eqn:HPATH; simpl.
    + split.
      * split; [discriminate | intros (_ & _ & [=])].
      * destruct (truthy _); simpl.
        -- split; [discriminate | intros (_ & _ & [=])].
        -- rewrite which_exe_spec, contains_app, Hsep, HPATH. simpl.
           destruct (truthy _); (split; [discriminate | intros (_ & _ & [=])]).
    + split; (split; [intros [= <-]; auto | intros (-> & _); reflexivity]).
Qed.

End Checker.

(* ===================================================================== *)
(** ** source_to_audio and the result of SplitIntoFLACPiece.__call__ *)
(* ===================================================================== *)

Section Converter.
Context `{Host}.

(** X7.  [source_to_audio] creates one temporary file, with the
    extension asked for ([.wav] by default), and starts the converter once,
    with that file in place and empty, through the shell on ["nt"] only.
    It returns the path of the file when the converter exits with status 0
    and removes nothing. *)
Theorem source_to_audio_temporary_output
        filename ffmpeg_cmd channels rate file_ext loglevel w temp rest :
  first_free (default ".wav"%string file_ext) (tmp_candidates w) (fs w)
  = Some (temp, rest) ->
  let argv := source_to_audio_command
                filename (default "ffmpeg"%string ffmpeg_cmd)
                (default 1%Z channels) (default 48000%Z rate)
                (default "error"%string loglevel) temp in
  let seen := <[temp := File EmptyString false]> (fs w) in
  let run := source_to_audio filename ffmpeg_cmd channels rate file_ext loglevel w in
  fs w !! temp = None
  /\ new_events w (snd run)
     = [EvTemp temp; EvExec (Argv argv) (String.eqb os_name "nt") seen]
  /\ forall out files,
       run_process (Argv argv) (String.eqb os_name "nt") seen = Exited 0 out files ->
       fst run = Ok temp /\ fs (snd run) = files.
Proof.
  intros Hfree argv seen run. subst run.
  split; [eapply first_free_fresh; eassumption |].
  unfold source_to_audio, bind, NamedTemporaryFile, check_output.
  rewrite Hfree. simpl. fold argv seen.
  unfold new_events.
  destruct (run_process (Argv argv) _ seen) as [| status out files]; simpl.
  - rewrite <- app_assoc, drop_app_length. split; [reflexivity |]. discriminate.
  - destruct (Z.eqb_spec status 0) as [-> | Hstatus]; simpl;
      rewrite <- app_assoc, drop_app_length; (split; [reflexivity |]).
    + intros out' files' [= <- <-]. auto.
    + intros out' files' [= -> _ _]. contradiction.
Qed.

(** X8.  When the converter fails, [source_to_audio] raises and leaves
    the temporary file behind: it never removes it.  A converter that
    cannot be started leaves it empty. *)
Theorem source_to_audio_failure_keeps_file
        filename ffmpeg_cmd channels rate file_ext loglevel w temp rest :
  first_free (default ".wav"%string file_ext) (tmp_candidates w) (fs w)
  = Some (temp, rest) ->
  let argv := source_to_audio_command
                filename (default "ffmpeg"%string ffmpeg_cmd)
                (default 1%Z channels) (default 48000%Z rate)
                (default "error"%string loglevel) temp in
  let seen := <[temp := File EmptyString false]> (fs w) in
  let run := source_to_audio filename ffmpeg_cmd channels rate file_ext loglevel w in
  removes (new_events w (snd run)) = []
  /\ match run_process (Argv argv) (String.eqb os_name "nt") seen with
     | NotStarted =>
         fst run = Raise OSError
         /\ fs (snd run) !! temp = Some (File EmptyString false)
     | Exited status _ files =>
         status <> 0%Z ->
         fst run = Raise CalledProcessError /\ fs (snd run) = files
     end.
Proof.
  intros Hfree argv seen run. subst run.
  unfold source_to_audio, bind, NamedTemporaryFile, check_output.
  rewrite Hfree. simpl. fold argv seen.
  unfold new_events.
  destruct (run_process (Argv argv) _ seen) as [| status out files]; simpl.
  - rewrite <- app_assoc, drop_app_length. split; [reflexivity |].
    split; [reflexivity |]. apply lookup_insert_eq.
  - destruct (Z.eqb_spec status 0) as [-> | Hstatus]; simpl;
      rewrite <- app_assoc, drop_app_length; (split; [reflexivity |]).
    + intros []. reflexivity.
    + auto.
Qed.

Import SplitIntoFLACPiece.

(** X9.  A call that nothing interrupts and whose converter exits with
    status 0 returns the bytes of the file object that it created, as
    they are after the converter has run, and not what the converter
    printed; it removes the temporary file and no other.  When the
    converter left no file at the path, removing it raises [OSError]. *)
Theorem call_returns_converter_data self start_ms end_ms w s e temp rest out files :
  sigint w = None ->
  PyFloat.of_int start_ms = Ok s ->
  PyFloat.of_int end_ms = Ok e ->
  first_free ".flac" (tmp_candidates w) (fs w) = Some (temp, rest) ->
  let argv := command self (padded_start self s) (padded_end self e) temp in
  let seen := <[temp := File EmptyString false]> (fs w) in
  run_process (Argv argv) (String.eqb os_name "nt") seen = Exited 0 out files ->
  let run := call self (start_ms, end_ms) w in
  match files !! temp with
  | Some _ =>
      fst run
      = Ok (Some (reads_after (Argv argv) (String.eqb os_name "nt") seen temp
                              EmptyString))
      /\ fs (snd run) = delete temp files
      /\ removes (new_events w (snd run)) = [temp]
  | None =>
      fst run = Raise OSError
      /\ fs (snd run) = files
      /\ removes (new_events w (snd run)) = []
  end.
Proof.
  intros Hsig Hs He Hfree argv seen Hrun run. subst run.
  assert (forall k, sigint w = Some k -> 3 <= k) as Hlate
      by (intros k Hk; congruence).
  remember (call self (start_ms, end_ms) w) as r eqn:Hr.
  unfold call, try_except, bind in Hr.
  rewrite (call_body_reaches_converter _ _ _ _ _ _ _ _ Hlate Hs He Hfree) in Hr.
  cbv [bind check_output checkpoint temp_read temp_close os_remove ret] in Hr.
  simpl in Hr. fold argv seen in Hr. rewrite Hrun, Hsig in Hr. simpl in Hr.
  rewrite kept_open_insert in Hr. simpl in Hr.
  unfold new_events.
  destruct (files !! temp) as [data |]; subst r; simpl;
    rewrite <- ?app_assoc, drop_app_length; auto.
Qed.

End Converter.

(* ===================================================================== *)
(** ** SplitIntoFLACPiece.__call__: what it removes *)
(* ===================================================================== *)

Section Extractor.
Context `{Host}.
Import SplitIntoFLACPiece.

Lemma removed_singleton (p q : string) (files : gmap string file) :
  files !! q = None ->
  p ∈ [q] -> [q] = [p] /\ files !! p = None.
Proof. intros Hq ->%list_elem_of_singleton. auto. Qed.

(** The end of a branch of [call]: the events it added are known. *)
Ltac settle_call Hnone :=
  simpl; rewrite <- ?app_assoc, ?drop_app_length, ?Hnone; simpl;
  split;
  [ intros ?;
    first [ apply removed_singleton; assumption
          | intros Hp; inversion Hp ]
  | split; [ simpl; lia
           | intros ? ?; first [discriminate | reflexivity] ] ].

(** The run of [call], one operation after the other; [pass] goes
    through a delivery point. *)
Ltac run_call pass Hnone start_ms end_ms cands files :=
  pass;
  destruct (of_int_cases start_ms) as [-> | [? ->]]; simpl;
    [settle_call Hnone |];
  destruct (of_int_cases end_ms) as [-> | [? ->]]; simpl;
    [settle_call Hnone |];
  pass;
  destruct (first_free ".flac" cands files) as [[? ?] |] eqn:Hfree; simpl;
    [apply first_free_fresh in Hfree | settle_call Hnone];
  pass;
  destruct (run_process _ _ _) as [| status ? files']; simpl;
    [settle_call Hnone |];
  destruct (status =? 0)%Z; simpl; [| settle_call Hnone];
  pass;
  destruct (kept_open _ _ _ _ !! _); simpl; [| settle_call Hnone];
  pass;
  match goal with
  | |- context [files' !! ?p] =>
      destruct (files' !! p); simpl; [| settle_call Hnone]
  end;
  pass; settle_call Hnone.

(** X10.  Whatever happens, a call creates at most one temporary file and
    removes no other file than that one, which did not exist before the
    call; when the call raises it has removed nothing, so the temporary
    file is left behind. *)
Theorem call_removes_only_its_temporary_file self region w :
  let run := call self region w in
  let evs := new_events w (snd run) in
  (forall p, p ∈ removes evs -> temps evs = [p] /\ fs w !! p = None)
  /\ length (temps evs) <= 1
  /\ (forall e, fst run = Raise e -> removes evs = []).
Proof.
  intros run evs. subst evs run.
  destruct region as [start_ms end_ms].
  destruct w as [files path cands lines sig events held].
  unfold call, try_except, call_body, new_events.
  cbv [bind checkpoint lift NamedTemporaryFile check_output temp_read
       temp_close os_remove ret]. simpl.
  assert (forall A (l : list A), drop (length l) l = []) as Hnone
      by (intros A l; apply drop_all).
  destruct sig as [k |].
  - run_call ltac:(destruct k as [| k]; simpl; [settle_call Hnone |])
             Hnone start_ms end_ms cands files.
  - run_call idtac Hnone start_ms end_ms cands files.
Qed.

End Extractor.

(* ===================================================================== *)
(** ** SplitIntoFLACPiece.__call__: the seek position *)
(* ===================================================================== *)

Section Seek.
Context `{Host}.
Import SplitIntoFLACPiece.

Lemma max_zero_not_negative x : PrimFloat.leb 0%float (PyFloat.max 0%float x) = true.
Proof.
  unfold PyFloat.max. destruct (PrimFloat.ltb 0 x) eqn:Hlt; [| reflexivity].
  rewrite leb_spec. rewrite ltb_spec in Hlt. unfold SFleb, SFltb in *.
  destruct (SFcompare (Prim2SF 0) (Prim2SF x)) as [[| |] |];
    solve [reflexivity | discriminate].
Qed.

Lemma commands_of_log (Q : cmdline -> Prop) evs :
  Forall (fun ev => match ev with EvExec c _ _ => Q c | _ => True end) evs ->
  Forall Q (commands evs).
Proof.
  induction 1 as [| ev evs Hev _ IH]; [constructor |].
  destruct ev; try exact IH. constructor; assumption.
Qed.

(** X11.  The position that the converter is told to seek to is never
    negative and never a NaN, whatever the region and the padding: in
    every run, every command that a call starts carries [-ss] followed by
    a float [start] with [0.0 <= start]. *)
Theorem seek_position_never_negative self region w :
  (forall start_ms, PrimFloat.leb 0%float (padded_start self start_ms) = true)
  /\ Forall (seeks_forward (ffmpeg_cmd self))
            (commands (new_events w (snd (call self region w)))).
Proof.
  split; [intros start_ms; apply max_zero_not_negative |].
  set (P := fun ev => match ev with
                      | EvExec c _ _ => seeks_forward (ffmpeg_cmd self) c
                      | _ => True
                      end).
  assert (only_logs P (call self region)) as Hcall.
  { unfold call. apply logs_try_except; [| apply logs_ret].
    apply logs_bind; [| intros data _; apply logs_ret].
    unfold call_body. destruct region as [start_ms end_ms].
    apply logs_bind; [apply logs_checkpoint | intros _ _].
    apply logs_bind; [apply logs_lift | intros s _].
    apply logs_bind; [apply logs_lift | intros e _].
    apply logs_bind; [apply logs_checkpoint | intros _ _].
    apply logs_bind; [apply logs_temp; intros p; exact I | intros temp _].
    apply logs_bind; [apply logs_checkpoint | intros _ _].
    apply logs_bind.
    { apply logs_check_output. intros seen. simpl. unfold seeks_forward, command.
      eexists _, _. split; [reflexivity | apply max_zero_not_negative]. }
    intros _ _.
    apply logs_bind; [apply logs_checkpoint | intros _ _].
    apply logs_bind; [apply logs_temp_read | intros data _].
    apply logs_bind; [apply logs_temp_close | intros _ _].
    apply logs_bind; [apply logs_checkpoint | intros _ _].
    apply logs_bind; [apply logs_remove; exact I | intros _ _].
    apply logs_bind; [apply logs_checkpoint | intros _ _; apply logs_ret]. }
  destruct (Hcall w) as (evs & Hlog & Hall).
  rewrite (new_events_app _ _ _ Hlog). apply commands_of_log. exact Hall.
Qed.

End Seek.

(* ===================================================================== *)
(** ** Keep mode: what it removes *)
(* ===================================================================== *)

Section KeepRemovals.
Context `{Host}.

(** *** The extension that [os.path.splitext] splits off *)

Lemma rfind_from_drop c s :
  forall i, (0 <= i)%Z -> PyStr.contains c s = true ->
            exists r, PyStr.drop (Z.to_nat (PyStr.rfind_from c s i - i)) s
                      = String c r.
Proof.
  induction s as [| a s IH]; intros i Hi; simpl; [discriminate |].
  destruct (PyStr.contains c s) eqn:Hs.
  - intros _.
    pose proof (rfind_from_present c s (i + 1)%Z ltac:(lia) Hs) as Hlater.
    destruct (IH (i + 1)%Z ltac:(lia) eq_refl) as [r Hr].
    destruct (Z.leb_spec 0 (PyStr.rfind_from c s (i + 1))); [| lia].
    replace (Z.to_nat (PyStr.rfind_from c s (i + 1) - i))
      with (S (Z.to_nat (PyStr.rfind_from c s (i + 1) - (i + 1)))) by lia.
    simpl. eauto.
  - rewrite orb_false_r. intros Ha.
    rewrite (rfind_from_absent _ _ _ Hs). simpl. rewrite Ha.
    replace (Z.to_nat (i - i)) with 0 by lia. simpl.
    apply Ascii.eqb_eq in Ha. subst a. eauto.
Qed.

Lemma rfind_cases c s :
  (PyStr.rfind c s = -1)%Z
  \/ exists r, PyStr.drop (Z.to_nat (PyStr.rfind c s)) s = String c r.
Proof.
  unfold PyStr.rfind. destruct (PyStr.contains c s) eqn:Hs.
  - right. destruct (rfind_from_drop c s 0%Z ltac:(lia) Hs) as [r Hr].
    rewrite Z.sub_0_r in Hr. eauto.
  - left. apply rfind_from_absent. assumption.
Qed.

(** The two parts make up the path, and the second is empty or begins
    with a dot. *)
Lemma os_path_splitext_parts p :
  fst (os_path_splitext p) +:+ snd (os_path_splitext p) = p
  /\ (snd (os_path_splitext p) = EmptyString
      \/ exists r, snd (os_path_splitext p) = String "." r).
Proof.
  unfold os_path_splitext.
  destruct (Z.ltb_spec (PyStr.rfind "/" p) (PyStr.rfind "." p)) as [Hlt | Hge];
    [| split; [apply append_empty_r | auto]].
  destruct (String.eqb _ _); [split; [apply append_empty_r | auto] |].
  simpl. split; [apply take_drop |].
  destruct (rfind_cases "." p) as [Hdot | Hdot]; [| auto].
  exfalso. rewrite Hdot in Hlt.
  destruct (rfind_cases "/" p) as [Hsep | [r Hsep]];
    [rewrite Hsep in Hlt; lia |].
  unfold PyStr.rfind in *.
  destruct (PyStr.contains "/" p) eqn:Hp.
  - pose proof (rfind_from_present _ _ 0%Z ltac:(lia) Hp). lia.
  - rewrite (rfind_from_absent _ _ _ Hp) in Hlt. lia.
Qed.

Lemma append_inv_head (a b c : string) : a +:+ b = a +:+ c -> b = c.
Proof.
  induction a as [| x a IH]; [auto |].
  rewrite !append_cons. intros [= Heq]. auto.
Qed.

(** A derived output path is never the source path. *)
Lemma temp_name_not_source filename i :
  temp_name (fst (os_path_splitext filename)) i <> filename.
Proof.
  destruct (os_path_splitext_parts filename) as [Hparts Hext].
  unfold temp_name. intros Heq.
  assert (fst (os_path_splitext filename)
          +:+ "_temp_" +:+ PyStr.str_nat i +:+ ".flac"
          = fst (os_path_splitext filename) +:+ snd (os_path_splitext filename))
    as Hsame by (rewrite Hparts; exact Heq).
  clear Heq. apply append_inv_head in Hsame as Heq. symmetry in Heq.
  destruct Hext as [Hext | [r Hext]]; rewrite Hext in Heq; discriminate.
Qed.

(** *** What a run in keep mode logs *)

Lemma kept_rename_while stem n i pending :
  forall outs, only_logs (keep_event stem n true) (rename_while pending outs i).
Proof.
  induction pending as [| a pending IH]; intros outs; simpl;
    (apply logs_bind; [apply logs_getitem | intros current _]);
    (apply logs_bind;
     [apply logs_isfile | intros [|] _; [| apply logs_ret]]);
    (apply logs_bind; [apply logs_print; exact I | intros _ _]);
    (apply logs_bind; [apply logs_input; exact I | intros answer _]).
  - apply logs_raise.
  - apply IH.
Qed.

Lemma kept_keep_stage stem cmds input_m ffmpeg_cmd i outs :
  1 <= i <= length cmds -> length outs = i ->
  only_logs (keep_event stem (length cmds) input_m)
            (keep_stage stem cmds input_m ffmpeg_cmd i outs).
Proof.
  intros Hi Hlen. unfold keep_stage.
  apply logs_bind.
  { unfold keep_resolve. destruct input_m.
    - intros w. apply kept_rename_while.
    - apply logs_bind; [apply logs_getitem | intros current Hcurrent].
      destruct Hcurrent as (w & w' & [Hcurrent _]%getitem_ok).
      rewrite list_lookup_middle in Hcurrent by (symmetry; exact Hlen).
      injection Hcurrent as <-.
      apply logs_bind; [apply logs_isfile | intros taken _].
      apply logs_bind; [| intros _ _; apply logs_ret].
      destruct taken; [| apply logs_ret].
      apply logs_remove. simpl. split; [reflexivity |]. eauto. }
  intros outs1 _.
  apply logs_bind; [apply logs_getitem | intros template _].
  apply logs_bind; [apply logs_getitem | intros in_ _].
  apply logs_bind; [apply logs_getitem | intros out_ _].
  apply logs_bind; [apply logs_lift | intros body _].
  apply logs_bind; [| intros _ _; apply logs_ret].
  apply logs_check_output. intros seen. exact I.
Qed.

Lemma kept_keep_loop stem cmds input_m ffmpeg_cmd n :
  forall a outs,
    1 <= a -> a + n <= S (length cmds) -> length outs = a ->
    only_logs (keep_event stem (length cmds) input_m)
              (for_each (seq a n) (keep_stage stem cmds input_m ffmpeg_cmd) outs).
Proof.
  induction n as [| n IH]; intros a outs Ha Hn Hlen; simpl.
  - apply logs_ret.
  - apply logs_bind; [apply kept_keep_stage; [lia | assumption] |].
    intros outs1 (w & w' & Hstage).
    apply keep_stage_ok in Hstage
      as (answers & collided & out & template & prev & body & stdout & files
          & _ & _ & _ & _ & -> & _); [| assumption | lia].
    apply IH; [lia | lia |]. rewrite length_app. simpl. lia.
Qed.

End KeepRemovals.

Section KeepSource.
Context `{Host}.

Lemma keep_event_log stem n input_m evs :
  Forall (keep_event stem n input_m) evs ->
  temps evs = []
  /\ (input_m = true -> removes evs = [])
  /\ Forall (fun p => exists i, 1 <= i <= n /\ p = temp_name stem i)
            (removes evs).
Proof.
  induction 1 as [| ev evs Hev _ (IHt & IHr & IHd)]; [simpl; auto |].
  destruct ev as [p | p | c shell seen | msg | prompt]; simpl in *;
    try (split; [assumption | split; assumption]).
  - destruct Hev.
  - destruct Hev as [Hm Hp].
    split; [assumption |]. split; [congruence |]. constructor; assumption.
Qed.

(** X12.  Keep mode creates no temporary file.  With an interactive
    capability it removes nothing; without one it removes nothing but
    derived output paths [<stem>_temp_<i>.flac] of its own stages, and
    none of these is the source path: the source file is never removed,
    whether the run completes or not. *)
Theorem keep_mode_never_removes_source filename cmds input_m ffmpeg_cmd w :
  let stem := fst (os_path_splitext filename) in
  let evs := new_events w (snd (audio_pre_prcs filename true cmds input_m
                                               ffmpeg_cmd w)) in
  temps evs = []
  /\ (input_m = true -> removes evs = [])
  /\ Forall (fun p => exists i, 1 <= i <= length (effective_cmds cmds)
                                /\ p = temp_name stem i)
            (removes evs)
  /\ (filename ∉ removes evs).
Proof.
  intros stem evs. subst evs.
  assert (only_logs (keep_event stem (length (effective_cmds cmds)) input_m)
                    (audio_pre_prcs filename true cmds input_m ffmpeg_cmd))
    as Hrun.
  { unfold audio_pre_prcs, audio_pre_prcs_outputs.
    apply logs_bind.
    - apply (kept_keep_loop stem (effective_cmds cmds));
        [lia | unfold effective_cmds; simpl; lia | reflexivity].
    - intros outs _. destruct (last outs); [apply logs_ret | apply logs_raise]. }
  destruct (Hrun w) as (evs & Hlog & Hall).
  rewrite (new_events_app _ _ _ Hlog).
  destruct (keep_event_log _ _ _ _ Hall) as (Htemps & Hquiet & Hderived).
  repeat split; try assumption.
  intros Hsource.
  rewrite Forall_forall in Hderived.
  destruct (Hderived filename Hsource) as (i & _ & Hi).
  symmetry in Hi. revert Hi. apply temp_name_not_source.
Qed.

End KeepSource.

(* ===================================================================== *)
(** ** audio_pre_prcs: the first failure ends the run *)
(* ===================================================================== *)

Section FirstFailure.
Context `{Host}.

Lemma starts_nothing_other ev :
  match ev with EvExec _ _ _ => False | _ => True end -> starts_nothing ev.
Proof. auto. Qed.

Lemma execs_starts_nothing evs : Forall starts_nothing evs -> execs evs = [].
Proof.
  induction 1 as [| ev evs Hev _ IH]; [reflexivity |].
  destruct ev; simpl; solve [assumption | destruct Hev].
Qed.

Lemma orderly_silent {A} (m : M A) : only_logs starts_nothing m -> orderly m.
Proof.
  intros Hm w. destruct (Hm w) as (evs & Hlog & Hall).
  exists evs. rewrite (execs_starts_nothing _ Hall). simpl. auto.
Qed.

Lemma Forall_removelast {A} (P : A -> Prop) (l : list A) :
  Forall P l -> Forall P (removelast l).
Proof.
  induction 1 as [| x l Hx Hl IH]; [constructor |].
  simpl. destruct l; [constructor | constructor; assumption].
Qed.

Lemma orderly_bind {A B} (m : M A) (k : A -> M B) :
  orderly m -> (forall a, orderly (k a)) -> orderly (bind m k).
Proof.
  intros Hm Hk w. unfold bind.
  destruct (Hm w) as (evs1 & Hlog1 & Hinit1 & Hall1).
  destruct (m w) as [[a | e] w1]; simpl in *;
    [| exists evs1; split; [assumption |]; split; [assumption | discriminate]].
  specialize (Hall1 a eq_refl).
  destruct (Hk a w1) as (evs2 & Hlog2 & Hinit2 & Hall2).
  exists (evs1 ++ evs2). rewrite Hlog2, Hlog1, app_assoc, execs_app.
  split; [reflexivity |]. split.
  - destruct (execs evs2) as [| x l] eqn:Hexecs.
    + rewrite app_nil_r. apply Forall_removelast. assumption.
    + rewrite removelast_app by discriminate. apply Forall_app. auto.
  - intros b Hb. apply Forall_app. eauto.
Qed.

Lemma orderly_check_output c shell : orderly (check_output c shell).
Proof.
  intros w. exists [EvExec c shell (fs w)]. unfold check_output.
  destruct (run_process c shell (fs w)) as [| status out files] eqn:Hrun; simpl.
  - split; [reflexivity |]. split; [constructor | discriminate].
  - destruct (Z.eqb_spec status 0) as [-> | Hstatus]; simpl;
      (split; [reflexivity |]); (split; [constructor |]); [| discriminate].
    intros _ _. constructor; [| constructor]. exists out, files. exact Hrun.
Qed.

Lemma orderly_for_each body indices :
  (forall i outs, orderly (body i outs)) ->
  forall outs, orderly (for_each indices body outs).
Proof.
  intros Hbody. induction indices as [| i indices IH]; intros outs; simpl.
  - apply orderly_silent, logs_ret.
  - apply orderly_bind; [apply Hbody | exact IH].
Qed.

Lemma orderly_getitem l i : orderly (getitem l i).
Proof. apply orderly_silent, logs_getitem. Qed.

Lemma orderly_lift {A} (r : result A) : orderly (lift r).
Proof. apply orderly_silent, logs_lift. Qed.

Lemma orderly_ret {A} (a : A) : orderly (ret a).
Proof. apply orderly_silent, logs_ret. Qed.

Lemma orderly_keep_stage stem cmds input_m ffmpeg_cmd i outs :
  orderly (keep_stage stem cmds input_m ffmpeg_cmd i outs).
Proof.
  unfold keep_stage.
  apply orderly_bind;
    [apply orderly_silent, (confined_keep_resolve _ starts_nothing_other) |].
  intros outs1.
  apply orderly_bind; [apply orderly_getitem | intros template].
  apply orderly_bind; [apply orderly_getitem | intros in_].
  apply orderly_bind; [apply orderly_getitem | intros out_].
  apply orderly_bind; [apply orderly_lift | intros body].
  apply orderly_bind; [apply orderly_check_output | intros _; apply orderly_ret].
Qed.

Lemma orderly_scratch_first cmds outs : orderly (scratch_first cmds outs).
Proof.
  unfold scratch_first.
  apply orderly_bind;
    [apply orderly_silent, (confined_scratch_alloc _ starts_nothing_other) |].
  intros outs1.
  apply orderly_bind; [apply orderly_getitem | intros template].
  apply orderly_bind; [apply orderly_getitem | intros in_].
  apply orderly_bind; [apply orderly_getitem | intros out_].
  apply orderly_bind; [apply orderly_lift | intros body].
  apply orderly_bind; [apply orderly_check_output | intros _; apply orderly_ret].
Qed.

Lemma orderly_scratch_stage cmds ffmpeg_cmd i outs :
  orderly (scratch_stage cmds ffmpeg_cmd i outs).
Proof.
  unfold scratch_stage.
  apply orderly_bind;
    [apply orderly_silent, (confined_scratch_alloc _ starts_nothing_other) |].
  intros outs1.
  apply orderly_bind; [apply orderly_getitem | intros template].
  apply orderly_bind; [apply orderly_getitem | intros in_].
  apply orderly_bind; [apply orderly_getitem | intros out_].
  apply orderly_bind; [apply orderly_lift | intros body].
  apply orderly_bind; [apply orderly_check_output | intros _].
  apply orderly_bind; [apply orderly_getitem | intros previous].
  apply orderly_bind; [| intros _; apply orderly_ret].
  apply orderly_silent, logs_remove. exact I.
Qed.

(** X13.  The pipeline stops at the first command that fails: in every
    run, in keep mode and in scratch mode, every command that was started
    before the last one exited with status 0, and when the run returns a
    path the last one did too. *)
Theorem pipeline_stops_at_first_failure filename is_keep cmds input_m ffmpeg_cmd w :
  let run := audio_pre_prcs filename is_keep cmds input_m ffmpeg_cmd w in
  let started := execs (new_events w (snd run)) in
  Forall exited_zero (removelast started)
  /\ (forall result, fst run = Ok result -> Forall exited_zero started).
Proof.
  intros run started. subst started run.
  assert (orderly (audio_pre_prcs filename is_keep cmds input_m ffmpeg_cmd))
    as Hrun.
  { unfold audio_pre_prcs, audio_pre_prcs_outputs.
    apply orderly_bind.
    - destruct is_keep.
      + apply orderly_for_each. intros i outs. apply orderly_keep_stage.
      + apply orderly_bind; [apply orderly_scratch_first | intros outs].
        apply orderly_for_each. intros i outs1. apply orderly_scratch_stage.
    - intros outs. apply orderly_silent.
      destruct (last outs); [apply logs_ret | apply logs_raise]. }
  destruct (Hrun w) as (evs & Hlog & Hinit & Hall).
  rewrite (new_events_app _ _ _ Hlog). auto.
Qed.

End FirstFailure.

(* ===================================================================== *)
(** ** Scratch mode: what it removes in every run *)
(* ===================================================================== *)

Section ScratchRemovals.
Context `{Host}.

Lemma scratch_alloc_cases outs w :
  (exists e w', scratch_alloc outs w = (Raise e, w') /\ log w' = log w)
  \/ (exists p w', scratch_alloc outs w = (Ok (outs ++ [p]), w')
                   /\ log w' = log w ++ [EvTemp p; EvRemove p]).
Proof.
  destruct (scratch_alloc outs w) as [[outs' | e] w'] eqn:Hrun.
  - right. apply scratch_alloc_ok in Hrun as (p & rest & _ & _ & -> & ->).
    eauto.
  - left. exists e, w'. split; [reflexivity |].
    revert Hrun. unfold scratch_alloc, bind, NamedTemporaryFile.
    destruct (first_free ".flac" (tmp_candidates w) (fs w)) as [[p rest] |];
      [| intros [= _ <-]; reflexivity].
    unfold os_path_isfile, os_remove. simpl.
    rewrite lookup_insert_eq. simpl.
    rewrite ?bool_decide_eq_true_2 by eauto.
    rewrite ?lookup_insert_eq. discriminate.
Qed.

Lemma removes_only_log prev evs :
  Forall (removes_only prev) evs ->
  temps evs = [] /\ Forall (fun p => p = prev) (removes evs).
Proof.
  induction 1 as [| ev evs Hev _ [IHt IHr]]; [simpl; auto |].
  destruct ev; simpl in *; try (split; assumption).
  - destruct Hev.
  - split; [assumption | constructor; assumption].
Qed.

Lemma temps_app l1 l2 : temps (l1 ++ l2) = temps l1 ++ temps l2.
Proof. unfold temps. apply flat_map_app. Qed.

Lemma removes_app l1 l2 : removes (l1 ++ l2) = removes l1 ++ removes l2.
Proof. unfold removes. apply flat_map_app. Qed.

(** The part of a stage that follows the allocation. *)
Lemma scratch_first_tail cmds outs prev :
  only_logs (removes_only prev)
    (bind (getitem cmds 0) (fun template =>
     bind (getitem outs 0) (fun in_ =>
     bind (getitem outs 1) (fun out_ =>
     bind (lift (str_format template in_ out_)) (fun command =>
     bind (check_output (CmdString command) false) (fun _ =>
     ret outs)))))).
Proof.
  apply logs_bind; [apply logs_getitem | intros template _].
  apply logs_bind; [apply logs_getitem | intros in_ _].
  apply logs_bind; [apply logs_getitem | intros out_ _].
  apply logs_bind; [apply logs_lift | intros body _].
  apply logs_bind; [| intros _ _; apply logs_ret].
  apply logs_check_output. intros seen. exact I.
Qed.

Lemma scratch_stage_tail cmds ffmpeg_cmd i outs prev :
  outs !! (i - 1) = Some prev ->
  only_logs (removes_only prev)
    (bind (getitem cmds (i - 1)) (fun template =>
     bind (getitem outs (i - 1)) (fun in_ =>
     bind (getitem outs i) (fun out_ =>
     bind (lift (str_format template in_ out_)) (fun command =>
     bind (check_output (CmdString (splice_tool ffmpeg_cmd command)) false)
          (fun _ =>
     bind (getitem outs (i - 1)) (fun previous =>
     bind (os_remove previous) (fun _ =>
     ret outs)))))))).
Proof.
  intros Hprev.
  apply logs_bind; [apply logs_getitem | intros template _].
  apply logs_bind; [apply logs_getitem | intros in_ _].
  apply logs_bind; [apply logs_getitem | intros out_ _].
  apply logs_bind; [apply logs_lift | intros body _].
  apply logs_bind; [apply logs_check_output; intros seen; exact I | intros _ _].
  apply logs_bind; [apply logs_getitem | intros previous Hprevious].
  destruct Hprevious as (w & w' & [Hprevious _]%getitem_ok).
  rewrite Hprev in Hprevious. injection Hprevious as <-.
  apply logs_bind; [| intros _ _; apply logs_ret].
  apply logs_remove. reflexivity.
Qed.

Lemma tidy_scratch_first cmds filename :
  tidy [] (scratch_first cmds [filename]).
Proof.
  intros w. unfold scratch_first.
  rewrite !(bind_run (scratch_alloc _)).
  destruct (scratch_alloc_cases [filename] w)
    as [(e & w1 & -> & Hlog) | (p & w1 & -> & Hlog)].
  - exists []. rewrite app_nil_r. simpl.
    split; [assumption |]. split; [constructor | discriminate].
  - cbv beta. destruct (scratch_first_tail cmds ([filename] ++ [p]) p w1)
      as (evs & Hlog1 & Hall).
    destruct (removes_only_log _ _ Hall) as [Htemps Hremoves].
    exists ([EvTemp p; EvRemove p] ++ evs).
    rewrite Hlog1, Hlog, <- app_assoc. split; [reflexivity |].
    rewrite temps_app, removes_app, Htemps. simpl.
    split.
    + constructor; [apply list_elem_of_here |].
      eapply Forall_impl; [exact Hremoves |].
      intros q ->. apply list_elem_of_here.
    + intros outs Houts. exists p. split; [| apply list_elem_of_here].
      destruct (bind _ _ w1) as [[outs' | e] w2] eqn:Hrun; [| discriminate].
      simpl in Houts. injection Houts as ->.
      repeat (apply bind_ok in Hrun as (? & ? & _ & Hrun)).
      apply ret_ok in Hrun as [-> _]. reflexivity.
Qed.

Lemma tidy_scratch_stage cmds ffmpeg_cmd i outs prev known :
  length outs = i -> last outs = Some prev -> prev ∈ known ->
  forall w, exists evs,
    log (snd (scratch_stage cmds ffmpeg_cmd i outs w)) = log w ++ evs
    /\ Forall (fun p => p ∈ known ++ temps evs) (removes evs)
    /\ forall outs',
        fst (scratch_stage cmds ffmpeg_cmd i outs w) = Ok outs' ->
        length outs' = S i
        /\ exists q, last outs' = Some q /\ q ∈ known ++ temps evs.
Proof.
  intros Hlen Hlast Hknown w. unfold scratch_stage.
  rewrite !(bind_run (scratch_alloc _)).
  assert (forall p, (outs ++ [p]) !! (i - 1) = Some prev) as Hprev.
  { intros p. rewrite last_lookup in Hlast.
    rewrite lookup_app_l.
    - rewrite <- Hlast. f_equal. lia.
    - apply lookup_lt_Some in Hlast. lia. }
  destruct (scratch_alloc_cases outs w)
    as [(e & w1 & -> & Hlog) | (p & w1 & -> & Hlog)].
  - exists []. rewrite app_nil_r. simpl.
    split; [assumption |]. split; [constructor | discriminate].
  - cbv beta.
    destruct (scratch_stage_tail cmds ffmpeg_cmd i (outs ++ [p]) prev (Hprev p) w1)
      as (evs & Hlog1 & Hall).
    destruct (removes_only_log _ _ Hall) as [Htemps Hremoves].
    exists ([EvTemp p; EvRemove p] ++ evs).
    rewrite Hlog1, Hlog, <- app_assoc. split; [reflexivity |].
    rewrite temps_app, removes_app, Htemps. simpl.
    split.
    + constructor; [apply elem_of_app; right; apply list_elem_of_here |].
      eapply Forall_impl; [exact Hremoves |].
      intros q ->. apply elem_of_app. auto.
    + intros outs' Houts.
      destruct (bind _ _ w1) as [[outs1 | e] w2] eqn:Hrun; [| discriminate].
      simpl in Houts. injection Houts as ->.
      repeat (apply bind_ok in Hrun as (? & ? & _ & Hrun)).
      apply ret_ok in Hrun as [-> _].
      split; [rewrite length_app; simpl; lia |].
      exists p. rewrite last_snoc.
      split; [reflexivity | apply elem_of_app; right; apply list_elem_of_here].
Qed.

Lemma tidy_scratch_loop cmds ffmpeg_cmd n :
  forall a outs prev known,
    length outs = a -> last outs = Some prev -> prev ∈ known ->
    tidy known (for_each (seq a n) (scratch_stage cmds ffmpeg_cmd) outs).
Proof.
  induction n as [| n IH]; intros a outs prev known Hlen Hlast Hknown w; simpl.
  - exists []. rewrite app_nil_r. simpl.
    split; [reflexivity |]. split; [constructor |].
    intros outs' [= <-]. exists prev. rewrite app_nil_r. auto.
  - unfold bind.
    destruct (tidy_scratch_stage cmds ffmpeg_cmd a outs prev known
                                 Hlen Hlast Hknown w)
      as (evs1 & Hlog1 & Hremoves1 & Houts1).
    destruct (scratch_stage cmds ffmpeg_cmd a outs w) as [[outs1 | e] w1];
      simpl in *.
    + destruct (Houts1 outs1 eq_refl) as (Hlen1 & q & Hlast1 & Hq).
      destruct (IH (S a) outs1 q (known ++ temps evs1) Hlen1 Hlast1 Hq w1)
        as (evs2 & Hlog2 & Hremoves2 & Houts2).
      exists (evs1 ++ evs2).
      rewrite Hlog2, Hlog1, <- app_assoc. split; [reflexivity |].
      rewrite temps_app, removes_app, app_assoc.
      split; [| exact Houts2].
      apply Forall_app. split; [| exact Hremoves2].
      eapply Forall_impl; [exact Hremoves1 |].
      intros p Hp. apply elem_of_app. auto.
    + exists evs1. split; [assumption |].
      split; [assumption | discriminate].
Qed.

(** X14.  In scratch mode, whether the run completes or not, the
    function removes nothing but paths of temporary files that it created
    itself during the run. *)
Theorem scratch_mode_removes_only_temporaries filename cmds input_m ffmpeg_cmd w :
  let evs := new_events w (snd (audio_pre_prcs filename false cmds input_m
                                               ffmpeg_cmd w)) in
  Forall (fun p => p ∈ temps evs) (removes evs).
Proof.
  intros evs. subst evs.
  unfold audio_pre_prcs, audio_pre_prcs_outputs.
  fold (effective_cmds cmds).
  set (ecmds := effective_cmds cmds).
  unfold bind.
  destruct (tidy_scratch_first ecmds filename w)
    as (evs1 & Hlog1 & Hremoves1 & Houts1).
  destruct (scratch_first ecmds [filename] w) as [[outs1 | e] w1] eqn:Hfirst;
    simpl in *; [| rewrite (new_events_app _ _ _ Hlog1); assumption].
  destruct (Houts1 outs1 eq_refl) as (q & Hlast1 & Hq).
  apply scratch_first_ok in Hfirst
    as (p & rest & template & body & out & files & _ & _ & Houts & _).
  destruct (tidy_scratch_loop ecmds ffmpeg_cmd (length ecmds - 1) 2 outs1 q
                              (temps evs1)
                              ltac:(subst outs1; reflexivity) Hlast1 Hq w1)
    as (evs2 & Hlog2 & Hremoves2 & _).
  assert (log (snd (match for_each (seq 2 (length ecmds - 1))
                                   (scratch_stage ecmds ffmpeg_cmd) outs1 w1 with
                    | (Ok outs, w2) =>
                        match last outs with
                        | Some p => ret p
                        | None => raise IndexError
                        end w2
                    | (Raise e, w2) => (Raise e, w2)
                    end))
          = log w ++ evs1 ++ evs2) as Hlog.
  { destruct (for_each _ _ outs1 w1) as [[outs | e] w2]; simpl in *.
    - destruct (last outs); simpl; rewrite Hlog2, Hlog1, app_assoc; reflexivity.
    - rewrite Hlog2, Hlog1, app_assoc. reflexivity. }
  rewrite (new_events_app _ _ _ Hlog).
  rewrite temps_app, removes_app. apply Forall_app. split.
  - eapply Forall_impl; [exact Hremoves1 |].
    intros x Hx. apply elem_of_app. auto.
  - exact Hremoves2.
Qed.

End ScratchRemovals.

(* ===================================================================== *)
(** ** Scratch mode without a stage output, and the splice *)
(* ===================================================================== *)

Section MissingOutput.
Context `{Host}.

Lemma scratch_alloc_run outs w p rest :
  first_free ".flac" (tmp_candidates w) (fs w) = Some (p, rest) ->
  scratch_alloc outs w
  = (Ok (outs ++ [p]),
     World (fs w) (environ_PATH w) rest (stdin_lines w) (sigint w)
           (log w ++ [EvTemp p; EvRemove p]) (delete p (objects w))).
Proof.
  intros Hfree.
  pose proof (first_free_fresh _ _ _ _ _ Hfree) as Hfresh.
  unfold scratch_alloc, bind, NamedTemporaryFile. rewrite Hfree.
  unfold temp_close, os_path_isfile, os_remove. simpl.
  rewrite lookup_insert_eq. simpl.
  rewrite ?bool_decide_eq_true_2 by eauto.
  rewrite ?lookup_insert_eq.
  unfold ret, emit, set_fs, set_tmp_candidates, set_objects. simpl.
  rewrite !delete_insert_eq, delete_id by assumption.
  rewrite <- app_assoc. reflexivity.
Qed.

(** X15.  Scratch mode relies on every stage leaving a file at its
    output path.  When the first two commands both exit with status 0 but
    no file is at the output path of the first once the second has run,
    removing that path fails: the run raises [OSError] although no command
    failed, and no later stage is started. *)
Theorem scratch_run_needs_stage_output
        filename cmds input_m ffmpeg_cmd w t1 t2 more
        p1 rest1 b1 out1 files1 p2 rest2 b2 out2 files2 :
  effective_cmds cmds = t1 :: t2 :: more ->
  first_free ".flac" (tmp_candidates w) (fs w) = Some (p1, rest1) ->
  str_format t1 filename p1 = Ok b1 ->
  run_process (CmdString b1) false (fs w) = Exited 0 out1 files1 ->
  first_free ".flac" rest1 files1 = Some (p2, rest2) ->
  str_format t2 p1 p2 = Ok b2 ->
  run_process (CmdString (splice_tool ffmpeg_cmd b2)) false files1
  = Exited 0 out2 files2 ->
  files2 !! p1 = None ->
  let run := audio_pre_prcs filename false cmds input_m ffmpeg_cmd w in
  fst run = Raise OSError
  /\ commands (new_events w (snd run))
     = [CmdString b1; CmdString (splice_tool ffmpeg_cmd b2)].
Proof.
  intros Hcmds Hfree1 Hbody1 Hrun1 Hfree2 Hbody2 Hrun2 Hmissing run.
  assert (exists held,
             run
             = (Raise OSError,
                World files2 (environ_PATH w) rest2 (stdin_lines w) (sigint w)
                      (log w ++ [EvTemp p1; EvRemove p1;
                                 EvExec (CmdString b1) false (fs w);
                                 EvTemp p2; EvRemove p2;
                                 EvExec (CmdString (splice_tool ffmpeg_cmd b2))
                                        false files1])
                      held)) as [held ->].
  { eexists. subst run. unfold audio_pre_prcs, audio_pre_prcs_outputs.
    fold (effective_cmds cmds). rewrite Hcmds.
    cbn [length Nat.sub seq for_each].
    cbv [bind scratch_first scratch_stage].
    rewrite (scratch_alloc_run _ _ _ _ Hfree1).
    cbn [getitem lookup list_lookup app ret]. rewrite Hbody1.
    cbn [lift]. unfold check_output at 1. cbn [fs]. rewrite Hrun1.
    cbn [Z.eqb emit set_fs set_objects fs environ_PATH tmp_candidates
         stdin_lines sigint log objects ret].
    rewrite (scratch_alloc_run _ _ p2 rest2) by exact Hfree2.
    cbn [getitem lookup list_lookup app ret Nat.sub]. rewrite Hbody2.
    cbn [lift]. unfold check_output.
    cbn [Z.eqb emit set_fs set_objects fs environ_PATH tmp_candidates
         stdin_lines sigint log objects]. rewrite Hrun2.
    cbn [Z.eqb emit set_fs set_objects fs environ_PATH tmp_candidates
         stdin_lines sigint log objects ret getitem lookup list_lookup].
    unfold os_remove. cbn [fs set_fs set_objects]. rewrite Hmissing.
    unfold set_fs, set_objects, emit.
    cbn [fs environ_PATH tmp_candidates stdin_lines sigint log objects].
    rewrite <- !app_assoc. reflexivity. }
  split; [reflexivity |].
  unfold new_events. cbn [snd log]. rewrite drop_app_length. reflexivity.
Qed.

End MissingOutput.

Section Splice.
Context `{Host}.

Lemma prefix_append (p r : string) : String.prefix p (p +:+ r) = true.
Proof.
  induction p as [| c p IH]; [destruct r; reflexivity |].
  rewrite append_cons. simpl.
  destruct (Ascii.ascii_dec c c); [assumption | congruence].
Qed.

Lemma drop_append (p r : string) : PyStr.drop (String.length p) (p +:+ r) = r.
Proof.
  induction p as [| c p IH]; [destruct r; reflexivity |].
  rewrite append_cons. simpl. assumption.
Qed.

(** X16.  The splice touches the leading tool token only: a command that
    begins with [ffmpeg] and a space has these seven characters replaced by
    the tool name and a space, and every other command, also one that
    names [ffmpeg] further on or begins with [ffmpeg-normalize], is
    started as it is; with the default tool name nothing changes. *)
Theorem splice_tool_leading_token_only ffmpeg_cmd command :
  (forall rest, command = "ffmpeg " +:+ rest ->
                splice_tool ffmpeg_cmd command = ffmpeg_cmd +:+ " " +:+ rest)
  /\ (String.prefix "ffmpeg " command = false ->
      splice_tool ffmpeg_cmd command = command)
  /\ splice_tool "ffmpeg" command = command.
Proof.
  split; [| split].
  - intros rest ->. rewrite splice_tool_spec, prefix_append.
    pose proof (drop_append "ffmpeg " rest) as Hdrop.
    change (String.length "ffmpeg ") with 7 in Hdrop. rewrite Hdrop.
    reflexivity.
  - intros Hp. rewrite splice_tool_spec, Hp. reflexivity.
  - rewrite splice_tool_spec.
    destruct (String.prefix "ffmpeg " command) eqn:Hp; [| reflexivity].
    pose proof (take_prefix "ffmpeg " command) as Htake.
    rewrite Hp in Htake. apply String.eqb_eq in Htake.
    change ("ffmpeg" +:+ " " +:+ PyStr.drop 7 command)
      with ("ffmpeg " +:+ PyStr.drop 7 command).
    rewrite <- Htake. apply (take_drop 7).
Qed.

End Splice.

(* ===================================================================== *)
(** ** The scenarios, run *)
(* ===================================================================== *)

Section Runs.
Import Scenario.
Local Open Scope string_scope.


(** *** ffprobe_get_fps *)

(** Under Python 3 the prober's [30000/1001] is lost to a [TypeError]. *)
Lemma ffprobe_two_integers_witness :
  run_process (Host := posix3) (Argv (ffprobe_command "a.mp4"))
              (String.eqb (os_name (Host := posix3)) "nt") (fs plain)
  = Exited 0 ("30000/1001" +:+ nl) (fs plain)
  /\ utf8_decode (Host := posix3) ("30000/1001" +:+ nl) = Some ("30000/1001" +:+ nl)
  /\ map PyStr.int (PyStr.findall_digits ("30000/1001" +:+ nl)) = [30000; 1001]%Z
  /\ fst (ffprobe_get_fps (H := posix3) "a.mp4" true plain) = Raise TypeError.
Proof.
  do 3 (split; [reflexivity |]).
  exact (ffprobe_two_integers (H := posix3) "a.mp4" true plain
           ("30000/1001" +:+ nl) (fs plain) ("30000/1001" +:+ nl) 30000%Z 1001%Z
           eq_refl eq_refl eq_refl).
Defined.

(** Under Python 2 the same output gives the quotient, and [0/0] an
    error that nothing catches. *)
Example ffprobe_python2_quotient :
  fst (ffprobe_get_fps (H := posix2) "a.mp4" true plain)
  = Ok (PrimFloat.div 30000 1001).
Proof. vm_compute. reflexivity. Qed.

Example ffprobe_python2_zero_denominator :
  fst (ffprobe_get_fps (H := posix2_zero) "a.mp4" true plain)
  = Raise ZeroDivisionError.
Proof. vm_compute. reflexivity. Qed.


Example ffprobe_fallback_silent :
  fst (ffprobe_get_fps (H := garbage) "a.mp4" false plain) = Ok 0%float.
Proof. vm_compute. reflexivity. Qed.

Example ffprobe_fallback_negative :
  fst (ffprobe_get_fps (H := garbage) "a.mp4" true (answering ["-5"]))
  = Ok 0%float.
Proof. vm_compute. reflexivity. Qed.

Example ffprobe_fallback_not_a_number :
  fst (ffprobe_get_fps (H := garbage) "a.mp4" true (answering ["abc"]))
  = Ok 0%float.
Proof. vm_compute. reflexivity. Qed.

Example ffprobe_fallback_exit_status :
  fst (ffprobe_get_fps (H := failing) "a.mp4" true (answering ["25"]))
  = Ok 25%float.
Proof. vm_compute. reflexivity. Qed.


(** *** audio_pre_prcs, scratch mode *)

Lemma scratch_output_absent_when_command_runs_witness :
  let run := audio_pre_prcs (H := posix3) "a.mp4" false [] false "ffmpeg" plain in
  fst run = Ok "/tmp/tmp3.flac"
  /\ scratch_guarded (H := posix3) (effective_cmds (H := posix3) []) "ffmpeg"
                     (new_events plain (snd run))
  /\ exists stages,
      length stages = length (effective_cmds (H := posix3) [])
      /\ last (map stage_out stages) = Some "/tmp/tmp3.flac"
      /\ chained (H := posix3) (effective_cmds (H := posix3) []) 0 "a.mp4" stages
      /\ new_events plain (snd run) = scratch_log "ffmpeg" 0 stages
      /\ Forall (fun s => stage_seen s !! stage_out s = None) stages.
Proof.
  intros run.
  assert (fst run = Ok "/tmp/tmp3.flac") as Hrun by (vm_compute; reflexivity).
  split; [exact Hrun |].
  destruct (scratch_output_absent_when_command_runs (H := posix3)
              "a.mp4" [] false "ffmpeg" plain) as [Hguard Hdone].
  split; [exact Hguard | exact (Hdone "/tmp/tmp3.flac" Hrun)].
Defined.


Example scratch_three_stages :
  let run := audio_pre_prcs (H := posix3) "a.mp4" false [] false "ffmpeg" plain in
  temps (log (snd run)) = ["/tmp/tmp1.flac"; "/tmp/tmp2.flac"; "/tmp/tmp3.flac"]
  /\ cleanups (log (snd run)) = ["/tmp/tmp1.flac"; "/tmp/tmp2.flac"]
  /\ removes (log (snd run))
     = ["/tmp/tmp1.flac"; "/tmp/tmp2.flac"; "/tmp/tmp1.flac";
        "/tmp/tmp3.flac"; "/tmp/tmp2.flac"].
Proof. vm_compute. auto. Qed.

(** One stage: one temporary file is created, its name is cleared before
    the command runs, and nothing is removed after the command. *)
Example scratch_single_stage :
  let run := audio_pre_prcs (H := posix3) "a.mp4" false one_stage false "ffmpeg"
                            plain in
  fst run = Ok "/tmp/tmp1.flac"
  /\ temps (log (snd run)) = ["/tmp/tmp1.flac"]
  /\ cleanups (log (snd run)) = []
  /\ removes (log (snd run)) = ["/tmp/tmp1.flac"]
  /\ log (snd run)
     = [EvTemp "/tmp/tmp1.flac"; EvRemove "/tmp/tmp1.flac";
        EvExec (CmdString "ffmpeg -i a.mp4 /tmp/tmp1.flac") false (fs plain)].
Proof. vm_compute. repeat split. Qed.

(** *** audio_pre_prcs, the tool name and the shell *)

Lemma tool_override_spliced_stages_witness :
  let run := audio_pre_prcs (H := posix3) "a.mp4" true two_stages false
                            "/opt/ffmpeg" plain in
  let started := commands (new_events plain (snd run)) in
  fst run = Ok "a_temp_2.flac"
  /\ Forall (spliced_command (H := posix3) (effective_cmds (H := posix3) two_stages)
                             "/opt/ffmpeg") started
  /\ exists stages,
      length stages = length (effective_cmds (H := posix3) two_stages)
      /\ last ("a.mp4" :: map stage_out stages) = Some "a_temp_2.flac"
      /\ chained (H := posix3) (effective_cmds (H := posix3) two_stages) 0
                 "a.mp4" stages
      /\ length started = length stages
      /\ forall j s,
           stages !! j = Some s ->
           true = true \/ 1 <= j ->
           started !! j
           = Some (CmdString (splice_tool "/opt/ffmpeg" (stage_body s))).
Proof.
  intros run started.
  assert (fst run = Ok "a_temp_2.flac") as Hrun by (vm_compute; reflexivity).
  split; [exact Hrun |].
  destruct (tool_override_spliced_stages (H := posix3)
              "a.mp4" true two_stages false "/opt/ffmpeg" plain)
    as [Hall Hdone].
  split; [exact Hall | exact (Hdone "a_temp_2.flac" Hrun)].
Defined.

(** Keep mode, two stages, another tool name: the second stage is
    started under the other name too, not as its template reads. *)
Lemma tool_override_later_stage_counterexample :
  let run := audio_pre_prcs (H := posix3) "a.mp4" true two_stages false
                            "/opt/ffmpeg" plain in
  fst run = Ok "a_temp_2.flac"
  /\ commands (log (snd run))
     = [CmdString "/opt/ffmpeg -i a.mp4 a_temp_1.flac";
        CmdString "/opt/ffmpeg -i a_temp_1.flac a_temp_2.flac"]
  /\ str_format (Host := posix3) "ffmpeg -i {in_} {out_}"
                "a_temp_1.flac" "a_temp_2.flac"
     = Ok "ffmpeg -i a_temp_1.flac a_temp_2.flac"
  /\ commands (log (snd run)) !! 1
     <> Some (CmdString "ffmpeg -i a_temp_1.flac a_temp_2.flac").
Proof. vm_compute. repeat split; discriminate. Qed.

(** Scratch mode: the first stage is started as its template reads. *)
Example scratch_first_stage_not_spliced :
  let run := audio_pre_prcs (H := posix3) "a.mp4" false two_stages false
                            "/opt/ffmpeg" plain in
  commands (log (snd run))
  = [CmdString "ffmpeg -i a.mp4 /tmp/tmp1.flac";
     CmdString "/opt/ffmpeg -i /tmp/tmp1.flac /tmp/tmp2.flac"].
Proof. vm_compute. reflexivity. Qed.

(** On Windows as elsewhere no stage goes through the shell. *)
Lemma stage_commands_shell_counterexample :
  let keep := audio_pre_prcs (H := nt3) "a.mp4" true [] false "ffmpeg" plain in
  let scratch := audio_pre_prcs (H := nt3) "a.mp4" false [] false "ffmpeg" plain in
  shell_flags (log (snd keep)) = [false; false; false]
  /\ shell_flags (log (snd scratch)) = [false; false; false]
  /\ ~ Forall (fun shell => shell = true) (shell_flags (log (snd keep)))
  /\ ~ Forall (fun shell => shell = true) (shell_flags (log (snd scratch))).
Proof.
  vm_compute. repeat split; try reflexivity; intros Hall; inversion Hall;
    discriminate.
Qed.

(** *** audio_pre_prcs, keep mode *)

Lemma keep_mode_output_path_witness :
  let turn := keep_stage (H := posix3) (fst (os_path_splitext "a.mp4"))
                         (effective_cmds (H := posix3) one_stage) true "ffmpeg" in
  let run := turn 1 ["a.mp4"] crowded in
  for_each (seq 1 0) turn ["a.mp4"] crowded = (Ok ["a.mp4"], crowded)
  /\ effective_cmds (H := posix3) one_stage !! 0 = Some "ffmpeg -i {in_} {out_}"
  /\ stdin_lines crowded
     = (["/tmp/alt"; "/tmp/other.wav"] ++ stdin_lines (snd run))%list
  /\ new_events crowded (snd run)
     = (collision_log ["a_temp_1.flac"; "/tmp/alt.temp.flac"]
        ++ [EvExec (CmdString "ffmpeg -i a.mp4 /tmp/other.temp.flac") false
                   (fs crowded)])%list
  /\ fst run = Ok ["a.mp4"; "/tmp/other.temp.flac"].
Proof.
  intros turn run.
  split; [reflexivity |]. split; [reflexivity |].
  pose proof (keep_mode_output_path (H := posix3) "a.mp4" one_stage true
                "ffmpeg" 0 ["a.mp4"] "ffmpeg -i {in_} {out_}" crowded crowded
                eq_refl eq_refl) as Hthm.
  cbv zeta in Hthm. fold turn in Hthm. fold run in Hthm.
  destruct Hthm as (prev & answers & collided & Hlast & Hstdin & _ & _ & Hcases).
  injection Hlast as <-.
  assert (stdin_lines (snd run) = ["unused"]) as Hleft
      by (vm_compute; reflexivity).
  rewrite Hleft in Hstdin, Hcases. rewrite Hleft.
  change (stdin_lines crowded)
    with (["/tmp/alt"; "/tmp/other.wav"] ++ ["unused"])%list in Hstdin.
  apply app_inv_tail in Hstdin. subst answers.
  split; [reflexivity |].
  destruct Hcases as [(_ & _ & [=] & _) | (out & Hsplit & _ & Hrun)].
  assert ((fst (os_path_splitext "a.mp4") +:+ "_temp_" +:+ PyStr.str_nat 1
           +:+ ".flac")
          :: map (fun answer => fst (os_path_splitext answer) +:+ ".temp.flac")
                 ["/tmp/alt"; "/tmp/other.wav"]
          = (["a_temp_1.flac"; "/tmp/alt.temp.flac"]
             ++ ["/tmp/other.temp.flac"])%list) as Hpaths
      by (vm_compute; reflexivity).
  rewrite Hpaths in Hsplit. apply app_inj_tail in Hsplit as [<- <-].
  assert (str_format (Host := posix3) "ffmpeg -i {in_} {out_}" "a.mp4"
                     "/tmp/other.temp.flac"
          = Ok "ffmpeg -i a.mp4 /tmp/other.temp.flac") as Hbody
      by (vm_compute; reflexivity).
  rewrite Hbody in Hrun. cbv zeta in Hrun. destruct Hrun as [Hevents Hfst].
  split; [exact Hevents |].
  rewrite Hfst. vm_compute. reflexivity.
Defined.

(** The derived path is taken and the user answers [/tmp/alt]: the
    stage writes [/tmp/alt.temp.flac], not [/tmp/alt.flac]. *)
Lemma keep_mode_alternate_extension_counterexample :
  let run := audio_pre_prcs (H := posix3) "a.mp4" true one_stage true "ffmpeg"
                            colliding in
  snd (os_path_splitext "a_temp_1.flac") = ".flac"
  /\ is_Some (fs colliding !! "a_temp_1.flac")
  /\ fs colliding !! "/tmp/alt.flac" = None
  /\ stdin_lines colliding = ["/tmp/alt"]
  /\ fst run = Ok "/tmp/alt.temp.flac"
  /\ fst run <> Ok ("/tmp/alt" +:+ ".flac")
  /\ commands (log (snd run))
     = [CmdString "ffmpeg -i a.mp4 /tmp/alt.temp.flac"].
Proof.
  vm_compute. repeat split; try discriminate. eauto.
Qed.

Example keep_mode_collision :
  let run := keep_stage (H := posix3) "a" one_stage true "ffmpeg" 1 ["a.mp4"]
                        crowded in
  fst run = Ok ["a.mp4"; "/tmp/other.temp.flac"]
  /\ stdin_lines (snd run) = ["unused"]
  /\ removes (log (snd run)) = []
  /\ prompts (log (snd run)) = [new_path_prompt; new_path_prompt]
  /\ commands (log (snd run))
     = [CmdString "ffmpeg -i a.mp4 /tmp/other.temp.flac"].
Proof. vm_compute. auto. Qed.

Example keep_mode_no_capability :
  let run := keep_stage (H := posix3) "a" one_stage false "ffmpeg" 1 ["a.mp4"]
                        crowded in
  fst run = Ok ["a.mp4"; "a_temp_1.flac"]
  /\ removes (log (snd run)) = ["a_temp_1.flac"]
  /\ prompts (log (snd run)) = [].
Proof. vm_compute. auto. Qed.

(** *** SplitIntoFLACPiece *)

(** The region (1000, 2000) with the default paddings: the converter is
    told to seek to 0.75 for 1.5 seconds. *)
Lemma region_seek_and_duration_witness :
  (forall k, sigint plain = Some k -> 3 <= k)
  /\ PyFloat.of_int 1000 = Ok 1000%float
  /\ PyFloat.of_int 2000 = Ok 2000%float
  /\ first_free ".flac" (tmp_candidates plain) (fs plain)
     = Some ("/tmp/tmp1.flac", ["/tmp/tmp2"; "/tmp/tmp3"; "/tmp/tmp4"])
  /\ commands (new_events plain
                 (snd (SplitIntoFLACPiece.call (H := posix3) extractor
                         (1000, 2000)%Z plain)))
     = [Argv ["ffmpeg"; "-ss"; "0.75"; "-t"; "1.5"; "-y"; "-i"; "a.mp4";
              "-c"; "copy"; "-loglevel"; "error"; "/tmp/tmp1.flac"]]
  /\ SplitIntoFLACPiece.include_before
       (SplitIntoFLACPiece.init (SplitIntoFLACPiece.source_path extractor)
                                None None None) = 0.25%float
  /\ SplitIntoFLACPiece.include_after
       (SplitIntoFLACPiece.init (SplitIntoFLACPiece.source_path extractor)
                                None None None) = 0.25%float.
Proof.
  assert (forall k, sigint plain = Some k -> 3 <= k) as Hsig by discriminate.
  split; [exact Hsig |].
  do 3 (split; [reflexivity |]).
  pose proof (region_seek_and_duration (H := posix3) extractor 1000%Z 2000%Z plain
                1000%float 2000%float "/tmp/tmp1.flac"
                ["/tmp/tmp2"; "/tmp/tmp3"; "/tmp/tmp4"]
                Hsig eq_refl eq_refl eq_refl) as Hcall.
  assert (str_of_float (Host := posix3)
            (if PrimFloat.ltb 0 (PrimFloat.sub (PrimFloat.div 1000 1000) 0.25)
             then PrimFloat.sub (PrimFloat.div 1000 1000) 0.25 else 0%float)
          = "0.75") as Hstart by (vm_compute; reflexivity).
  assert (str_of_float (Host := posix3)
            (PrimFloat.sub
               (PrimFloat.add (PrimFloat.div 2000 1000) 0.25)
               (if PrimFloat.ltb 0 (PrimFloat.sub (PrimFloat.div 1000 1000) 0.25)
                then PrimFloat.sub (PrimFloat.div 1000 1000) 0.25 else 0%float))
          = "1.5") as Hduration by (vm_compute; reflexivity).
  cbv zeta in Hcall.
  change (SplitIntoFLACPiece.include_before extractor) with 0.25%float in Hcall.
  change (SplitIntoFLACPiece.include_after extractor) with 0.25%float in Hcall.
  rewrite Hstart, Hduration in Hcall. exact Hcall.
Defined.

(** The same call, with the padded times as floats. *)
Example region_one_to_two_seconds :
  commands (log (snd (SplitIntoFLACPiece.call (H := posix3) extractor
                        (1000, 2000)%Z plain)))
  = [Argv ["ffmpeg"; "-ss"; "0.75"; "-t"; "1.5"; "-y"; "-i"; "a.mp4";
           "-c"; "copy"; "-loglevel"; "error"; "/tmp/tmp1.flac"]]
  /\ SplitIntoFLACPiece.padded_start extractor 1000 = 0.75%float
  /\ PrimFloat.sub (SplitIntoFLACPiece.padded_end extractor 2000)
                   (SplitIntoFLACPiece.padded_start extractor 1000) = 1.5%float.
Proof. vm_compute. auto. Qed.

(** An interrupt while the converter is about to start. *)
Lemma call_swallows_only_interrupt_witness :
  let w := set_sigint (Some 2) plain in
  sigint w = Some 2
  /\ fst (SplitIntoFLACPiece.call_body (H := posix3) extractor (1000, 2000)%Z
                                       (set_sigint None w)) = Ok "fLaC"
  /\ fst (SplitIntoFLACPiece.call (H := posix3) extractor (1000, 2000)%Z w)
     = Ok None.
Proof.
  intros w.
  split; [reflexivity |]. split; [vm_compute; reflexivity |].
  destruct (call_swallows_only_interrupt (H := posix3) extractor
              (1000, 2000)%Z w) as (_ & Hinterrupt & _).
  apply (Hinterrupt 2 "fLaC"
           (snd (SplitIntoFLACPiece.call_body (H := posix3) extractor
                   (1000, 2000)%Z (set_sigint None w)))).
  - reflexivity.
  - repeat constructor.
  - vm_compute. reflexivity.
Defined.

Example call_without_interrupt :
  fst (SplitIntoFLACPiece.call (H := posix3) extractor (1000, 2000)%Z plain)
  = Ok (Some "fLaC").
Proof. vm_compute. reflexivity. Qed.

(** *** which_exe *)


Example which_exe_on_path :
  fst (which_exe "ffmpeg" installed) = Ok (Some "/usr/bin/ffmpeg")
  /\ fst (which_exe "ffprobe" installed) = Ok None
  /\ fst (which_exe "./ffmpeg" installed) = Ok None
  /\ fst (which_exe "/usr/bin/ffmpeg" installed)
     = Ok (Some "/usr/bin/ffmpeg")
  /\ fst (which_exe "a.mp4" installed) = Ok None.
Proof. vm_compute. auto. Qed.

(** *** The splice *)

Example splice_tool_examples :
  splice_tool "/opt/ffmpeg" "ffmpeg -i a.mp4 b.flac" = "/opt/ffmpeg -i a.mp4 b.flac"
  /\ splice_tool "/opt/ffmpeg" "ffmpeg-normalize -v a.flac" = "ffmpeg-normalize -v a.flac"
  /\ splice_tool "/opt/ffmpeg" "nice ffmpeg -i a.mp4 b.flac" = "nice ffmpeg -i a.mp4 b.flac"
  /\ splice_tool "ffmpeg" "ffmpeg -i a.mp4 b.flac" = "ffmpeg -i a.mp4 b.flac".
Proof. vm_compute. auto. Qed.

(** *** ffprobe_get_fps, continued *)

(** Python 3, a prober that prints no number, and somebody who answers
    25: the value returned is the one that was typed. *)
Lemma ffprobe_python3_returns_no_probed_rate_witness :
  py3 (Host := garbage) = true
  /\ fst (ffprobe_get_fps (H := garbage) "a.mp4" true (answering ["25"]))
     = Ok 25%float
  /\ (25%float = 0%float
      \/ (true = true
          /\ exists answer rest,
              stdin_lines (answering ["25"]) = answer :: rest
              /\ float_of_str (Host := garbage) answer = Some 25%float
              /\ PrimFloat.leb 25 0 = false)).
Proof.
  assert (fst (ffprobe_get_fps (H := garbage) "a.mp4" true (answering ["25"]))
          = Ok 25%float) as Hrun by (vm_compute; reflexivity).
  split; [reflexivity |]. split; [exact Hrun |].
  exact (ffprobe_python3_returns_no_probed_rate (H := garbage) "a.mp4" true
           (answering ["25"]) 25%float eq_refl Hrun).
Defined.

(** The same prober and an answer that is not a number: two messages,
    and the line is used up. *)
Lemma ffprobe_fallback_messages_witness :
  let silent := ffprobe_get_fps (H := garbage) "a.mp4" false (answering ["abc"]) in
  let run := ffprobe_get_fps (H := garbage) "a.mp4" true (answering ["abc"]) in
  run_process (Host := garbage) (Argv (ffprobe_command "a.mp4"))
              (String.eqb (os_name (Host := garbage)) "nt")
              (fs (answering ["abc"]))
  = Exited 0 "garbage" (fs (answering ["abc"]))
  /\ printed (new_events (answering ["abc"]) (snd silent)) = [fps_unavailable_msg]
  /\ stdin_lines (snd run) = []
  /\ printed (new_events (answering ["abc"]) (snd run))
     = [fps_unavailable_msg; use_srt_msg].
Proof.
  intros silent run. split; [reflexivity |].
  refine (ffprobe_fallback_messages (H := garbage) "a.mp4" (answering ["abc"])
            0%Z "garbage" (fs (answering ["abc"])) eq_refl _).
  right. right. exists "garbage". split; [reflexivity | discriminate].
Defined.

Example ffprobe_one_prober_start :
  let run := ffprobe_get_fps (H := posix2) "a.mp4" true (answering ["25"]) in
  fst run = Ok (PrimFloat.div 30000 1001)
  /\ commands (log (snd run)) = [Argv (ffprobe_command "a.mp4")]
  /\ prompts (log (snd run)) = []
  /\ printed (log (snd run)) = []
  /\ stdin_lines (snd run) = ["25"].
Proof. vm_compute. auto. Qed.

(** *** check_cmd *)

Lemma check_cmd_prefers_plain_name_witness :
  (PyStr.contains "/" "ffmpeg" = false
   -> environ_PATH installed = Some "/usr/local/bin:/usr/bin")
  /\ check_cmd "ffmpeg" installed = (Ok (Some "ffmpeg"), installed).
Proof.
  split; [reflexivity |].
  pose proof (check_cmd_prefers_plain_name "ffmpeg" "/usr/local/bin:/usr/bin"
                installed (fun _ => eq_refl)) as Hcheck.
  assert (truthy (located (fs installed) "/usr/local/bin:/usr/bin" "ffmpeg")
          = true) as Hfound by (vm_compute; reflexivity).
  rewrite Hfound in Hcheck. exact Hcheck.
Defined.

Example check_cmd_names :
  fst (check_cmd "ffmpeg" installed) = Ok (Some "ffmpeg")
  /\ fst (check_cmd "/usr/bin/ffmpeg" installed) = Ok (Some "/usr/bin/ffmpeg")
  /\ fst (check_cmd "ffprobe" installed) = Ok None
  /\ fst (check_cmd "ffmpeg" (Demo.world0 ["/usr/bin/ffmpeg.exe"] [] []))
     = Ok (Some "ffmpeg.exe")
  /\ fst (check_cmd "ffmpeg"
            (Demo.world0 ["/usr/bin/ffmpeg.exe"; "/usr/bin/ffmpeg"] [] []))
     = Ok (Some "ffmpeg").
Proof. vm_compute. auto. Qed.

(** *** source_to_audio *)

Lemma source_to_audio_temporary_output_witness :
  let run := source_to_audio (H := posix3) "a.mp4" None None None None None plain in
  first_free ".wav" (tmp_candidates plain) (fs plain)
  = Some ("/tmp/tmp1.wav", ["/tmp/tmp2"; "/tmp/tmp3"; "/tmp/tmp4"])
  /\ fst run = Ok "/tmp/tmp1.wav"
  /\ new_events plain (snd run)
     = [EvTemp "/tmp/tmp1.wav";
        EvExec (Argv ["ffmpeg"; "-y"; "-i"; "a.mp4"; "-ac"; "1"; "-ar"; "48000";
                      "-loglevel"; "error"; "/tmp/tmp1.wav"])
               false
               (<["/tmp/tmp1.wav" := File EmptyString false]> (fs plain))].
Proof.
  intros run. split; [reflexivity |].
  destruct (source_to_audio_temporary_output (H := posix3)
              "a.mp4" None None None None None plain "/tmp/tmp1.wav"
              ["/tmp/tmp2"; "/tmp/tmp3"; "/tmp/tmp4"] eq_refl)
    as (_ & Hlog & Hdone).
  split; [| exact Hlog].
  exact (proj1 (Hdone _ _ eq_refl)).
Defined.

(** No converter is installed: the error propagates and the empty
    temporary file stays. *)
Lemma source_to_audio_failure_keeps_file_witness :
  let run := source_to_audio (H := uninstalled) "a.mp4" None None None None None
                             plain in
  first_free ".wav" (tmp_candidates plain) (fs plain)
  = Some ("/tmp/tmp1.wav", ["/tmp/tmp2"; "/tmp/tmp3"; "/tmp/tmp4"])
  /\ removes (new_events plain (snd run)) = []
  /\ fst run = Raise OSError
  /\ fs (snd run) !! "/tmp/tmp1.wav" = Some (File EmptyString false).
Proof.
  intros run. split; [reflexivity |].
  exact (source_to_audio_failure_keeps_file (H := uninstalled)
           "a.mp4" None None None None None plain "/tmp/tmp1.wav"
           ["/tmp/tmp2"; "/tmp/tmp3"; "/tmp/tmp4"] eq_refl).
Defined.

Example source_to_audio_exit_status :
  let run := source_to_audio (H := broken) "a.mp4" (Some "/opt/ffmpeg")
                             (Some 2%Z) (Some 16000%Z) (Some ".flac")
                             (Some "quiet") plain in
  fst run = Raise CalledProcessError
  /\ commands (log (snd run))
     = [Argv ["/opt/ffmpeg"; "-y"; "-i"; "a.mp4"; "-ac"; "2"; "-ar"; "16000";
              "-loglevel"; "quiet"; "/tmp/tmp1.flac"]]
  /\ removes (log (snd run)) = [].
Proof. vm_compute. auto. Qed.

(** *** SplitIntoFLACPiece, continued *)

Lemma call_returns_converter_data_witness :
  let run := SplitIntoFLACPiece.call (H := posix3) extractor (1000, 2000)%Z plain in
  sigint plain = None
  /\ first_free ".flac" (tmp_candidates plain) (fs plain)
     = Some ("/tmp/tmp1.flac", ["/tmp/tmp2"; "/tmp/tmp3"; "/tmp/tmp4"])
  /\ fst run = Ok (Some "fLaC")
  /\ fs (snd run)
     = delete "/tmp/tmp1.flac"
         (<["/tmp/tmp1.flac" := File "fLaC" false]>
            (<["/tmp/tmp1.flac" := File EmptyString false]> (fs plain)))
  /\ removes (new_events plain (snd run)) = ["/tmp/tmp1.flac"].
Proof.
  intros run. split; [reflexivity |]. split; [reflexivity |].
  pose proof (call_returns_converter_data (H := posix3) extractor
                1000%Z 2000%Z plain 1000%float 2000%float "/tmp/tmp1.flac"
                ["/tmp/tmp2"; "/tmp/tmp3"; "/tmp/tmp4"] EmptyString
                (<["/tmp/tmp1.flac" := File "fLaC" false]>
                   (<["/tmp/tmp1.flac" := File EmptyString false]> (fs plain)))
                eq_refl eq_refl eq_refl eq_refl eq_refl) as Hcall.
  rewrite lookup_insert_eq in Hcall. exact Hcall.
Defined.

(** A converter that puts another file at the path: the file object
    still reads the empty file that it was opened on. *)
Example call_with_replacing_converter :
  let run := SplitIntoFLACPiece.call (H := replacing) extractor (1000, 2000)%Z plain in
  fst run = Ok (Some EmptyString)
  /\ execs (log (snd run))
     = [(Argv ["ffmpeg"; "-ss"; "0.75"; "-t"; "1.5"; "-y"; "-i"; "a.mp4";
               "-c"; "copy"; "-loglevel"; "error"; "/tmp/tmp1.flac"], false,
         <["/tmp/tmp1.flac" := File EmptyString false]> (fs plain))]
  /\ Demo.replacing_run
       (Argv ["ffmpeg"; "-ss"; "0.75"; "-t"; "1.5"; "-y"; "-i"; "a.mp4";
              "-c"; "copy"; "-loglevel"; "error"; "/tmp/tmp1.flac"]) false
       (<["/tmp/tmp1.flac" := File EmptyString false]> (fs plain))
     = Exited 0 EmptyString
              (<["/tmp/tmp1.flac" := File "fLaC" false]> (fs plain))
  /\ removes (log (snd run)) = ["/tmp/tmp1.flac"].
Proof. vm_compute. auto. Qed.

(** A converter that fails leaves the temporary file behind; after one
    that succeeds the file is gone. *)
Example call_without_converter_output :
  let run := SplitIntoFLACPiece.call (H := posix3) extractor (1000, 2000)%Z plain in
  fst (SplitIntoFLACPiece.call (H := broken) extractor (1000, 2000)%Z plain)
  = Raise CalledProcessError
  /\ is_Some (fs (snd (SplitIntoFLACPiece.call (H := broken) extractor
                         (1000, 2000)%Z plain)) !! "/tmp/tmp1.flac")
  /\ fs (snd run) !! "/tmp/tmp1.flac" = None.
Proof. vm_compute. eauto. Qed.

(** *** audio_pre_prcs, scratch mode without a stage output *)

Lemma scratch_run_needs_stage_output_witness :
  let run := audio_pre_prcs (H := idle) "a.mp4" false two_stages false "ffmpeg"
                            plain in
  fst run = Raise OSError
  /\ commands (new_events plain (snd run))
     = [CmdString "ffmpeg -i a.mp4 /tmp/tmp1.flac";
        CmdString (splice_tool "ffmpeg" "ffmpeg -i /tmp/tmp1.flac /tmp/tmp2.flac")].
Proof.
  exact (scratch_run_needs_stage_output (H := idle)
           "a.mp4" two_stages false "ffmpeg" plain
           "ffmpeg -i {in_} {out_}" "ffmpeg -i {in_} {out_}" []
           "/tmp/tmp1.flac" ["/tmp/tmp2"; "/tmp/tmp3"; "/tmp/tmp4"]
           "ffmpeg -i a.mp4 /tmp/tmp1.flac" EmptyString (fs plain)
           "/tmp/tmp2.flac" ["/tmp/tmp3"; "/tmp/tmp4"]
           "ffmpeg -i /tmp/tmp1.flac /tmp/tmp2.flac" EmptyString (fs plain)
           eq_refl eq_refl eq_refl eq_refl eq_refl eq_refl eq_refl eq_refl).
Defined.

(** A first command that fails ends the run, in either mode. *)
Example first_failure_ends_run :
  let keep := audio_pre_prcs (H := broken) "a.mp4" true [] false "ffmpeg" plain in
  let scratch := audio_pre_prcs (H := broken) "a.mp4" false [] false "ffmpeg"
                                plain in
  fst keep = Raise CalledProcessError
  /\ length (commands (log (snd keep))) = 1
  /\ fst scratch = Raise CalledProcessError
  /\ length (commands (log (snd scratch))) = 1
  /\ removes (log (snd scratch)) = ["/tmp/tmp1.flac"].
Proof. vm_compute. auto. Qed.

End Runs.
